(** * Defect-trend analysis: the KPI engine and its calendar resolver

    A shallow embedding of [kpiService.ts] and [dateService.ts] of the
    mold-defect analyzer, and the properties of the engine that the
    specification states about them; [mouldService.ts], which supplies
    the mould names, is embedded as well.

    Conventions of the embedding.
    - A JavaScript number is an exact rational ([Q]) or [NaN]; the
      infinities and the rounding of IEEE doubles are left out.  Where
      rounding could tell, a statement is an order, a band, or an equality
      between sums of whole numbers up to 2^53, which doubles add exactly;
      a value that sits on a rounding tie may come out as the other
      neighbour in binary arithmetic (the health index of 160 units with
      83 rejections is 48.13 here and 48.12 there).
    - The conversions the JavaScript runtime performs on text
      ([Number(s)], [parseFloat(s)], [String(n)], [new Date(s)]) are
      operations of a [Host]; every general theorem holds for every host.
    - A [Date] is kept as its local calendar fields.  The local zone is a
      fixed offset (Asia/Calcutta has no daylight saving), so the order of
      instants is the lexicographic order of the normalised fields.  A
      record whose time value is beyond what a [Date] holds
      ([Date.representable]) stands for the Invalid Date: [toISOString]
      throws on it, and the calendar resolver compares it as [NaN]; the
      KPI operations compare fields, which is the order of instants on
      valid dates.
    - [console.log] and friends have no effect on results and are dropped,
      but for the [toISOString] calls among their arguments.
    - A call returns, throws or diverges ([outcome]); the one unbounded
      loop of the services runs on fuel, and [Monthly.monthly_aggregate_exits]
      shows the fuel it is given is enough on valid dates. *)

From Stdlib Require Import ZArith QArith Qround Qabs Lqa Lia.
From Stdlib Require Import List String Ascii Bool.
From Stdlib Require Import DecimalString Sorted Permutation.
Import ListNotations.

Set Implicit Arguments.

(* ===================================================================== *)
(** * JavaScript values and the primitives the services use              *)
(* ===================================================================== *)

Module Js.

Local Open Scope string_scope.

(** The result of a numeric conversion. *)
Inductive number : Type :=
| NaN
| Num (q : Q).

(** A JSON value found in a document field. *)
Inductive value : Type :=
| VUndefined
| VNull
| VNum (q : Q)
| VStr (s : string).

Definition isNaN (n : number) : bool :=
  match n with NaN => true | Num _ => false end.

(** [a < b] and [a <= b] on rationals, as booleans. *)
Definition Qltb (a b : Q) : bool := negb (Qle_bool b a).
Definition Qleb (a b : Q) : bool := Qle_bool a b.

(** [n > 0] and [n <= 0] and [n >= 0]: every comparison with [NaN] is false. *)
Definition gt0 (n : number) : bool :=
  match n with NaN => false | Num q => Qltb 0 q end.
Definition le0 (n : number) : bool :=
  match n with NaN => false | Num q => Qleb q 0 end.
Definition ge0 (n : number) : bool :=
  match n with NaN => false | Num q => Qleb 0 q end.

(** Truthiness ([if (v)], [!v], [v || d], [v && w]). *)
Definition truthy (v : value) : bool :=
  match v with
  | VUndefined | VNull => false
  | VNum q => negb (Qeq_bool q 0)
  | VStr s => negb (String.eqb s "")
  end.

(** [v || d] *)
Definition or_else (v d : value) : value := if truthy v then v else d.

(** [v !== undefined && v !== null] *)
Definition present (v : value) : bool :=
  match v with VUndefined | VNull => false | _ => true end.

(** ** Text *)

(** White space removed by [String.prototype.trim], within ASCII:
    TAB, LF, VT, FF, CR and SPACE. *)
Definition is_space (c : ascii) : bool :=
  let n := nat_of_ascii c in
  (Nat.leb 9 n && Nat.leb n 13) || Nat.eqb n 32.

Fixpoint trimStart (s : string) : string :=
  match s with
  | EmptyString => EmptyString
  | String c s' => if is_space c then trimStart s' else s
  end.

Fixpoint trimEnd (s : string) : string :=
  match s with
  | EmptyString => EmptyString
  | String c s' =>
      match trimEnd s' with
      | EmptyString => if is_space c then EmptyString else String c EmptyString
      | t => String c t
      end
  end.

Definition trim (s : string) : string := trimEnd (trimStart s).

Definition upper_char (c : ascii) : ascii :=
  let n := nat_of_ascii c in
  if Nat.leb 97 n && Nat.leb n 122 then ascii_of_nat (n - 32) else c.

(** [toUpperCase], within ASCII. *)
Fixpoint toUpperCase (s : string) : string :=
  match s with
  | EmptyString => EmptyString
  | String c s' => String (upper_char c) (toUpperCase s')
  end.

(** [s.includes(t)] *)
Fixpoint includes (s t : string) : bool :=
  String.prefix t s ||
  match s with
  | EmptyString => false
  | String _ s' => includes s' t
  end.

(** Decimal text of an integer, as in a template literal. *)
Definition Z_to_string (z : Z) : string :=
  NilZero.string_of_int (Z.to_int z).

(** [s.padStart(2, '0')] *)
Definition padStart2 (s : string) : string :=
  match String.length s with
  | O => "00"
  | S O => "0" ++ s
  | _ => s
  end.

(** [a.localeCompare(b)] on keys made of digits and hyphens: the
    order of the character codes. *)
Definition localeCompare (a b : string) : comparison := String.compare a b.

(** ** Arithmetic *)

(** [Math.round]: the nearest integer, ties towards plus infinity. *)
Definition Math_round (x : Q) : Q := inject_Z (Qfloor (x + (1 # 2))).

Definition Math_floor (x : Q) : Q := inject_Z (Qfloor x).

Definition Math_max (a b : Q) : Q := if Qltb a b then b else a.

(** [Math.round(x * 100) / 100] *)
Definition round2 (x : Q) : Q := Math_round (x * 100) / 100.

(** [x.toFixed(1)]: one decimal, the nearest, ties away from zero. *)
Definition toFixed1 (x : Q) : string :=
  let negative := Qltb x 0 in
  let n := Qfloor ((if negative then - x else x) * 10 + (1 # 2)) in
  (if negative then "-" else "") ++
  Z_to_string (n / 10) ++ "." ++ Z_to_string (n mod 10).

(** ** Arrays *)

(** [Array.prototype.sort] with a comparator: stable; [after a b] tells
    whether the comparator's result on [(a, b)] is positive, so that [a]
    goes after [b].  A [NaN] result counts as zero, as the language
    prescribes. *)
Section Sort.
Variable A : Type.
Variable after : A -> A -> bool.

Fixpoint insert_sorted (x : A) (l : list A) : list A :=
  match l with
  | [] => [x]
  | y :: l' => if after x y then y :: insert_sorted x l' else x :: l
  end.

Definition sort (l : list A) : list A := fold_right insert_sorted [] l.
End Sort.

(** [array.slice(0, n)] *)
Definition slice0 (A : Type) (n : nat) (l : list A) : list A := firstn n l.

(** Elements with their index, as [forEach((x, index) => ...)] sees them. *)
Fixpoint indexed_from (A : Type) (i : Z) (l : list A) : list (Z * A) :=
  match l with
  | [] => []
  | x :: l' => (i, x) :: indexed_from (i + 1) l'
  end.

Definition indexed (A : Type) (l : list A) : list (Z * A) := indexed_from 0 l.

(** ** [Map<string, V>]: keys in insertion order *)

Section JsMap.
Variable V : Type.

Definition jsmap : Type := list (string * V).

Fixpoint map_get (k : string) (m : jsmap) : option V :=
  match m with
  | [] => None
  | (k', v) :: m' => if String.eqb k k' then Some v else map_get k m'
  end.

Definition map_has (k : string) (m : jsmap) : bool :=
  match map_get k m with Some _ => true | None => false end.

(** [map.set(k, v)]: an existing key keeps its place. *)
Fixpoint map_set (k : string) (v : V) (m : jsmap) : jsmap :=
  match m with
  | [] => [(k, v)]
  | (k', v') :: m' =>
      if String.eqb k k' then (k, v) :: m' else (k', v') :: map_set k v m'
  end.
End JsMap.

(** ** Exceptions *)

(** What a [throw] carries.  [MissingData] and [InvalidFormat] are the
    services' own [new Error(...)]; [AxiosFailure] is a rejected request;
    [TypeError] is raised by the runtime when a payload is not an array,
    [RangeError] by [toISOString] on a date that holds no time value. *)
Inductive exn : Type :=
| InvalidQuarter (quarter : Q)
| MissingData
| InvalidFormat
| AxiosFailure
| TypeError
| RangeError.

(** How a call ends.  [Diverged] stands for a loop that never exits. *)
Inductive outcome (A : Type) : Type :=
| Returned (a : A)
| Thrown (e : exn)
| Diverged.

Arguments Thrown {A} e.
Arguments Diverged {A}.

End Js.

(* ===================================================================== *)
(** * Dates                                                              *)
(* ===================================================================== *)

Module Date.

Local Open Scope Z_scope.

(** Local calendar fields: [month] is 0-based, [msec] counts from local
    midnight. *)
Record t : Type := mk { year : Z; month : Z; day : Z; msec : Z }.

Definition is_leap (y : Z) : bool :=
  (y mod 4 =? 0) && (negb (y mod 100 =? 0) || (y mod 400 =? 0)).

Definition days_in_month (y m : Z) : Z :=
  match m with
  | 1 => if is_leap y then 29 else 28
  | 3 | 5 | 8 | 10 => 30
  | _ => 31
  end.

Definition next_month (y m : Z) : Z * Z :=
  if m =? 11 then (y + 1, 0) else (y, m + 1).

Definition prev_month (y m : Z) : Z * Z :=
  if m =? 0 then (y - 1, 11) else (y, m - 1).

(** A day number outside its month is carried into the neighbouring
    months (the language's MakeDay). *)
Fixpoint roll_days (fuel : nat) (y m d : Z) : Z * Z * Z :=
  match fuel with
  | O => (y, m, d)
  | S fuel' =>
      if d <? 1 then
        let (y', m') := prev_month y m in
        roll_days fuel' y' m' (d + days_in_month y' m')
      else if days_in_month y m <? d then
        let (y', m') := next_month y m in
        roll_days fuel' y' m' (d - days_in_month y m)
      else (y, m, d)
  end.

Definition ms_per_day : Z := 86400000.

(** Normalisation of calendar fields: months carry into years, the time
    of day into days, days into months. *)
Definition make (y m d ms : Z) : t :=
  let d1 := d + ms / ms_per_day in
  let '(y2, m2, d2) :=
    roll_days (S (Z.to_nat (Z.abs d1))) (y + m / 12) (m mod 12) d1 in
  mk y2 m2 d2 (ms mod ms_per_day).

Definition time_of_day (h mi s ms : Z) : Z :=
  ((h * 60 + mi) * 60 + s) * 1000 + ms.

(** 08:00, the operational-cycle boundary. *)
Definition eight_am : Z := time_of_day 8 0 0 0.

(** [new Date(y, m, d, h, mi, s, ms)]; a year from 0 to 99 means 1900 + y. *)
Definition full_year (y : Z) : Z :=
  if (0 <=? y) && (y <=? 99) then 1900 + y else y.

Definition new_Date (y m d h mi s ms : Z) : t :=
  make (full_year y) m d (time_of_day h mi s ms).

Definition getFullYear (x : t) : Z := year x.
Definition getMonth (x : t) : Z := month x.
Definition getDate (x : t) : Z := day x.

(** [x.setHours(h, mi, s, ms)] *)
Definition setHours (h mi s ms : Z) (x : t) : t :=
  make (year x) (month x) (day x) (time_of_day h mi s ms).

(** [x.setMonth(m)]: the day of the month is kept and may overflow. *)
Definition setMonth (m : Z) (x : t) : t :=
  make (year x) m (day x) (msec x).

(** [x.setDate(d)] *)
Definition setDate (d : Z) (x : t) : t :=
  make (year x) (month x) d (msec x).

(** [new Date(x.getTime() + ms)] *)
Definition add_ms (ms : Z) (x : t) : t :=
  make (year x) (month x) (day x) (msec x + ms).

(** The order of instants. *)
Definition compare (a b : t) : comparison :=
  match year a ?= year b with
  | Eq =>
      match month a ?= month b with
      | Eq =>
          match day a ?= day b with
          | Eq => msec a ?= msec b
          | c => c
          end
      | c => c
      end
  | c => c
  end.

Definition leb (a b : t) : bool :=
  match compare a b with Gt => false | _ => true end.

Definition ltb (a b : t) : bool :=
  match compare a b with Lt => true | _ => false end.

(** The fields a [Date] object can hold. *)
Definition wf (x : t) : Prop :=
  0 <= month x <= 11 /\
  1 <= day x <= days_in_month (year x) (month x) /\
  0 <= msec x < ms_per_day.

(** ** The time value

    A [Date] holds a time value of at most 8.64e15 milliseconds on either
    side of 1 January 1970 UTC; the constructor gives an Invalid Date for
    fields beyond that.  A record whose time value is out of that range
    stands for the Invalid Date. *)

(** Days from 1 January 1970 to the day [d] of month [m] (0-based) of year
    [y], in the proleptic Gregorian calendar. *)
Definition days_from_epoch (y m d : Z) : Z :=
  let y' := if m <=? 1 then y - 1 else y in
  let era := y' / 400 in
  let yoe := y' - era * 400 in
  let mp := if m <=? 1 then m + 10 else m - 2 in
  let doy := (153 * mp + 2) / 5 + d - 1 in
  let doe := yoe * 365 + yoe / 4 - yoe / 100 + doy in
  era * 146097 + doe - 719468.

(** The local zone is five and a half hours ahead of UTC. *)
Definition zone_offset : Z := 19800000.

(** [x.getTime()] *)
Definition time_value (x : t) : Z :=
  days_from_epoch (year x) (month x) (day x) * ms_per_day + msec x
  - zone_offset.

Definition max_time_value : Z := 8640000000000000.

(** The date holds a time value: it is not an Invalid Date. *)
Definition representable (x : t) : bool :=
  (- max_time_value <=? time_value x) && (time_value x <=? max_time_value).

(** An Invalid Date. *)
Definition invalid : t := mk 300000 0 1 0.

(** [a <= b] between [Date] objects that may be invalid: the comparison
    of the time values, false when either is [NaN]. *)
Definition lte (a b : t) : bool :=
  representable a && representable b && leb a b.

Local Open Scope string_scope.

Definition month_short (m : Z) : string :=
  match m with
  | 0 => "Jan" | 1 => "Feb" | 2 => "Mar" | 3 => "Apr"
  | 4 => "May" | 5 => "Jun" | 6 => "Jul" | 7 => "Aug"
  | 8 => "Sep" | 9 => "Oct" | 10 => "Nov" | _ => "Dec"
  end%Z.

(** [x.toLocaleDateString('en-US', { month: 'short', year: 'numeric' })] *)
Definition month_year_label (x : t) : string :=
  month_short (month x) ++ " " ++ Js.Z_to_string (year x).

(** The [YYYY-MM] key of the monthly buckets. *)
Definition month_key (x : t) : string :=
  Js.Z_to_string (getFullYear x) ++ "-" ++
  Js.padStart2 (Js.Z_to_string (getMonth x + 1)).

End Date.

(* ===================================================================== *)
(** * dateService.ts: the calendar resolver                              *)
(* ===================================================================== *)

Module DateService.

Import Js.
Local Open Scope Z_scope.

(** The [label] of a range is a template; it is kept as the template's
    name and arguments. *)
Inductive Label : Type :=
| CurrentQuarterLabel (quarter : Q) (year : Z)
| LastQuarterLabel (quarter : Q) (year : Z)
| FixedQuarterLabel (n : Z) (year : Z)
| CustomLabel (startDate endDate : Date.t).

Record DateRange : Type := {
  startDate : Date.t;
  endDate : Date.t;
  label : Label
}.

Record QuarterInfo : Type := {
  quarter : Q;
  year : Z;
  q_startDate : Date.t;
  q_endDate : Date.t
}.

(** The arms of the [switch (quarter)]: start month, end month, end day. *)
Definition quarter_months (quarter : Q) : option (Z * Z * Z) :=
  if Qeq_bool quarter 1 then Some (0, 2, 31)
  else if Qeq_bool quarter 2 then Some (3, 5, 30)
  else if Qeq_bool quarter 3 then Some (6, 8, 30)
  else if Qeq_bool quarter 4 then Some (9, 11, 31)
  else None.

Definition getQuarterDates (quarter : Q) (year : Z) : outcome QuarterInfo :=
  match quarter_months quarter with
  | None => Thrown (InvalidQuarter quarter)
  | Some (startMonth, endMonth, endDay) =>
      Returned
        {| quarter := quarter;
           year := year;
           q_startDate := Date.new_Date year startMonth 1 8 0 0 0;
           q_endDate := Date.new_Date year endMonth endDay 8 0 0 0 |}
  end.

(** The clock is the argument [now]; an omitted [year] is the clock's. *)
Definition default_year (now : Date.t) (year : option Z) : Z :=
  match year with Some y => y | None => Date.getFullYear now end.

Definition current_quarter_number (now : Date.t) : Q :=
  let currentMonth := Date.getMonth now + 1 in
  if (1 <=? currentMonth) && (currentMonth <=? 3) then 1%Q
  else if (4 <=? currentMonth) && (currentMonth <=? 6) then 2%Q
  else if (7 <=? currentMonth) && (currentMonth <=? 9) then 3%Q
  else 4%Q.

Definition getCurrentQuarter (now : Date.t) (year : option Z)
  : outcome QuarterInfo :=
  getQuarterDates (current_quarter_number now) (default_year now year).

Definition getCurrentQuarterNumber (now : Date.t) : Q :=
  current_quarter_number now.

Definition getPreviousQuarter (now : Date.t) (year : option Z)
  : outcome QuarterInfo :=
  let y := default_year now year in
  match getCurrentQuarter now (Some y) with
  | Returned currentQuarter =>
      if Qeq_bool (quarter currentQuarter) 1
      then getQuarterDates 4 (y - 1)
      else getQuarterDates (quarter currentQuarter - 1) y
  | Thrown e => Thrown e
  | Diverged => Diverged
  end.

(** [new Date(d.getFullYear(), d.getMonth(), d.getDate(), 8, 0, 0, 0)] *)
Definition at_8AM (d : Date.t) : Date.t :=
  Date.new_Date (Date.getFullYear d) (Date.getMonth d) (Date.getDate d)
                8 0 0 0.

(** The same on a date the caller passes in, which may be an Invalid
    Date: its fields are all [NaN] and so is the date built from them. *)
Definition custom_at_8AM (d : Date.t) : Date.t :=
  if Date.representable d then at_8AM d else Date.invalid.

(** [console.log(..., d.toISOString(), ...)] before the rest [k]: the
    text is dropped; on a date that holds no time value [toISOString]
    throws a [RangeError]. *)
Definition logged (A : Type) (dates : list Date.t) (k : outcome A)
  : outcome A :=
  if forallb Date.representable dates then k else Thrown RangeError.

Definition fixed_quarter (n : Z) (year : Z) : outcome DateRange :=
  match getQuarterDates (inject_Z n) year with
  | Returned q =>
      logged [q_startDate q; q_endDate q]
        (Returned {| startDate := q_startDate q;
                     endDate := q_endDate q;
                     label := FixedQuarterLabel n year |})
  | Thrown e => Thrown e
  | Diverged => Diverged
  end.

Local Open Scope string_scope.

Definition getDateRangeForTimePeriod
  (now : Date.t) (timePeriod : string)
  (customStartDate customEndDate : option Date.t) (year : option Z)
  : outcome DateRange :=
  let y := default_year now year in
  logged [now]
  (if String.eqb timePeriod "current-quarter" then
    match getCurrentQuarter now (Some y) with
    | Returned currentQuarter =>
        let todayAt8AM := at_8AM now in
        let endDate :=
          if Date.lte (q_startDate currentQuarter) now
             && Date.lte now (q_endDate currentQuarter)
          then todayAt8AM
          else q_endDate currentQuarter in
        logged [q_startDate currentQuarter; endDate]
          (Returned {| startDate := q_startDate currentQuarter;
                       endDate := endDate;
                       label :=
                         CurrentQuarterLabel (quarter currentQuarter) y |})
    | Thrown e => Thrown e
    | Diverged => Diverged
    end
  else if String.eqb timePeriod "last-quarter" then
    match getPreviousQuarter now (Some y) with
    | Returned lastQuarter =>
        logged [q_startDate lastQuarter; q_endDate lastQuarter]
          (Returned {| startDate := q_startDate lastQuarter;
                       endDate := q_endDate lastQuarter;
                       label :=
                         LastQuarterLabel (quarter lastQuarter)
                                          (DateService.year lastQuarter) |})
    | Thrown e => Thrown e
    | Diverged => Diverged
    end
  else if String.eqb timePeriod "q1" then fixed_quarter 1 y
  else if String.eqb timePeriod "q2" then fixed_quarter 2 y
  else if String.eqb timePeriod "q3" then fixed_quarter 3 y
  else if String.eqb timePeriod "q4" then fixed_quarter 4 y
  else if String.eqb timePeriod "custom" then
    let startDate :=
      match customStartDate with
      | Some d => custom_at_8AM d
      | None => Date.new_Date y 0 1 8 0 0 0
      end in
    let endDate :=
      match customEndDate with
      | Some d => custom_at_8AM d
      | None => at_8AM now
      end in
    logged [startDate; endDate]
      (Returned {| startDate := startDate;
                   endDate := endDate;
                   label := CustomLabel startDate endDate |})
  else
    match getCurrentQuarter now (Some y) with
    | Returned currentQuarter =>
        Returned {| startDate := q_startDate currentQuarter;
                    endDate := now;
                    label := CurrentQuarterLabel (quarter currentQuarter) y |}
    | Thrown e => Thrown e
    | Diverged => Diverged
    end).

End DateService.

(* ===================================================================== *)
(** * kpiService.ts: the KPI engine                                      *)
(* ===================================================================== *)

Module KpiService.

Import Js.
Import DateService.
Local Open Scope string_scope.
Local Open Scope Q_scope.

(** ** The runtime's conversions *)

Class Host : Type := {
  (** [Number(s)] on text *)
  Number_str : string -> number;
  (** [parseFloat(s)] *)
  parseFloat_str : string -> number;
  (** [String(n)] on a number *)
  String_num : Q -> string;
  (** [new Date(v)]; [None] is an Invalid Date *)
  Date_new : value -> option Date.t;
  (** [Number] of the empty text is [0] *)
  Number_str_empty : Number_str EmptyString = Num 0
}.

(** ** Documents *)

(** The [data] object of a document, by field code; an absent field is
    [VUndefined]. *)
Record Data : Type := {
  D0 : value;   (* mould name, in the mould mapping *)
  D2 : value;   (* status indicator; cycle time in the mould mapping *)
  D6 : value;   (* units produced *)
  D9 : value;   (* downtime, seconds *)
  D10 : value;  (* target production *)
  D17 : value;  (* mould name *)
  D51 : value;
  D52 : value;  (* rejection count *)
  D53 : value   (* rejection reason *)
}.

Record MongoDataRow : Type := {
  _id : string;
  devID : string;
  data : option Data;
  timestamp : value;
  (** any other property of the row, by name *)
  other : list (string * value)
}.

(** [row.data?.F] *)
Definition fld (f : Data -> value) (row : MongoDataRow) : value :=
  match data row with
  | Some d => f d
  | None => VUndefined
  end.

(** [(row as any)[field]] *)
Definition prop (row : MongoDataRow) (field : string) : value :=
  match map_get field (other row) with
  | Some v => v
  | None => VUndefined
  end.

(** ** Results *)

Record TopRejectionReason : Type := {
  reason : string;
  count : Q;
  (** text on the real path; the synthesizer stores a number *)
  percentage : value
}.

Record KPIResult : Type := {
  totalUnitsProduced : Q;
  totalRejection : Q;
  postDowntimeDR : Q;
  totalDowntime : Q;
  moldHealthIndex : Q;
  topRejectionReasons : list TopRejectionReason;
  documentCount : Q;
  kpi_dateRange : string;
  kpi_machine : string;
  kpi_mould : string
}.

Record MonthlyDefectRateData : Type := {
  month : string;
  unitsProduced : Q;
  defectUnits : Q;
  defectRate : Q
}.

Record DefectReasonData : Type := {
  dr_name : string;
  dr_value : Q;
  dr_count : Q
}.

Record ProductionVsTargetData : Type := {
  pvt_month : string;
  production : Q;
  target : Q
}.

(** What [calculateMonthlyDefectRateData] hands back: its declared
    result, or the defect-reason rows one of its branches returns. *)
Inductive MonthlyOutput : Type :=
| MonthlySeries (rows : list MonthlyDefectRateData)
| ReasonSeries (rows : list DefectReasonData).

(** ** The document store and the random source *)

Inductive Method : Type := PUT | POST.

Record Request : Type := {
  method : Method;
  req_devID : string;
  startTime : option string;
  endTime : option string;
  limit : Z;
  userID_header : bool
}.

(** The [data] property of a response body. *)
Inductive DataField : Type :=
| DataMissing                          (* absent or falsy *)
| DataNotArray                         (* present, not an array *)
| DataRows (rows : list MongoDataRow).

(** [response.data] *)
Inductive Body : Type :=
| BodyNone                             (* absent or falsy *)
| BodyObject (data_field : DataField)
| BodyArray (rows : list MongoDataRow).

Inductive Reply : Type :=
| Rejected                             (* network error, timeout, bad status *)
| Resolved (body : Body).

(** The world answers the n-th request and the n-th [Math.random()]. *)
Record World : Type := {
  axios : nat -> Request -> Reply;
  Math_random : nat -> Q
}.

Record Counters : Type := {
  requests : nat;
  draws : nat
}.

(** ** Computations: state for the counters, exceptions *)

Definition M (A : Type) : Type := World -> Counters -> outcome A * Counters.

Definition ret (A : Type) (a : A) : M A := fun _ c => (Returned a, c).

Definition bind (A B : Type) (m : M A) (k : A -> M B) : M B :=
  fun w c =>
    match m w c with
    | (Returned a, c') => k a w c'
    | (Thrown e, c') => (Thrown e, c')
    | (Diverged, c') => (Diverged, c')
    end.

Definition throw (A : Type) (e : exn) : M A := fun _ c => (Thrown e, c).

Definition diverge (A : Type) : M A := fun _ c => (Diverged, c).

Arguments throw {A} e.
Arguments diverge {A}.

(** [try { m } catch (error) { handler }] *)
Definition try_catch (A : Type) (m : M A) (handler : exn -> M A) : M A :=
  fun w c =>
    match m w c with
    | (Thrown e, c') => handler e w c'
    | r => r
    end.

Notation "x <- m ;; k" := (bind m (fun x => k))
  (at level 61, m at next level, right associativity).

(** [await axios.put(url, payload, ...)] / [axios.post]: the response's
    [data], or a rejection. *)
Definition send (r : Request) : M Body :=
  fun w c =>
    let c' := {| requests := S (requests c); draws := draws c |} in
    match axios w (requests c) r with
    | Rejected => (Thrown AxiosFailure, c')
    | Resolved body => (Returned body, c')
    end.

(** [Math.random()] *)
Definition random : M Q :=
  fun w c =>
    (Returned (Math_random w (draws c)),
     {| requests := requests c; draws := S (draws c) |}).

Definition run (A : Type) (m : M A) (w : World) : outcome A :=
  fst (m w {| requests := 0; draws := 0 |}).

(** [console.log(..., { start: a.toISOString(), end: b.toISOString() })]:
    the text is dropped; on a date that holds no time value [toISOString]
    throws a [RangeError]. *)
Definition log_toISOString (dates : list Date.t) : M unit :=
  if forallb Date.representable dates then ret tt else throw RangeError.

Section Engine.

Context {host : Host}.

(** [Number(v)] *)
Definition Number (v : value) : number :=
  match v with
  | VUndefined => NaN
  | VNull => Num 0
  | VNum q => Num q
  | VStr s => Number_str s
  end.

(** [String(v)] *)
Definition String_ (v : value) : string :=
  match v with
  | VUndefined => "undefined"
  | VNull => "null"
  | VNum q => String_num q
  | VStr s => s
  end.

(** ** formatDateForMongoDB, adjustStartDateToCycleTime *)

Definition istOffset : Z := 19800000.

Definition pad2 (z : Z) : string := padStart2 (Z_to_string z).

Definition formatDateForMongoDB (date : Date.t) : string :=
  let istDate := Date.add_ms istOffset date in
  let ms := Date.msec istDate in
  let year := Z_to_string (Date.getFullYear istDate) in
  let month := pad2 (Date.getMonth istDate + 1) in
  let day := pad2 (Date.getDate istDate) in
  let hours := pad2 (ms / 3600000) in
  let minutes := pad2 ((ms / 60000) mod 60) in
  let seconds := pad2 ((ms / 1000) mod 60) in
  year ++ "-" ++ month ++ "-" ++ day ++ " " ++
  hours ++ ":" ++ minutes ++ ":" ++ seconds.

Definition adjustStartDateToCycleTime (date : Date.t) : Date.t :=
  Date.setHours 8 0 0 0 date.

(** The request every KPI operation sends for a device and a window. *)
Definition rows_request (m : Method) (machine : string)
  (startDate endDate : Date.t) (userID : bool) : Request :=
  {| method := m;
     req_devID := machine;
     startTime := Some (formatDateForMongoDB startDate);
     endTime := Some (formatDateForMongoDB endDate);
     limit := 10000;
     userID_header := userID |}.

(** ** The mould filter of the KPI, monthly, breakdown, downtime and
       top-reasons paths *)

Definition mould_filter (mould : string) (row : MongoDataRow) : bool :=
  match data row with
  | None => false
  | Some d =>
      if negb (truthy (D17 d)) then false
      else
        let docMould := trim (String_ (D17 d)) in
        let selectedMould := trim mould in
        String.eqb docMould selectedMould
  end.

(** [if (doc.data && doc.data.F !== undefined && doc.data.F !== null)
      { const v = Number(doc.data.F); if (!isNaN(v)) ... }]:
    the number a field contributes, if any. *)
Definition valid_number (f : Data -> value) (row : MongoDataRow) : option Q :=
  match data row with
  | None => None
  | Some d =>
      if present (f d) then
        match Number (f d) with
        | NaN => None
        | Num q => Some q
        end
      else None
  end.

(** The same with the further test [v > 0]. *)
Definition valid_positive (f : Data -> value) (row : MongoDataRow)
  : option Q :=
  match valid_number f row with
  | Some q => if Qltb 0 q then Some q else None
  | None => None
  end.

Definition add_valid (f : Data -> value) (acc : Q) (row : MongoDataRow) : Q :=
  match valid_number f row with
  | Some q => acc + q
  | None => acc
  end.

Definition add_positive (f : Data -> value) (acc : Q) (row : MongoDataRow)
  : Q :=
  match valid_positive f row with
  | Some q => acc + q
  | None => acc
  end.

(** ** calculatePostDowntimeDR *)

Definition downtimeIndicators : list string :=
  ["DOWNTIME"; "DOWN"; "MAINTENANCE"; "STOP"; "OFF"; "0"; "STOPPED"].

Definition productionIndicators : list string :=
  ["PRODUCTION"; "RUN"; "RUNNING"; "ACTIVE"; "ON"; "1"; "PRODUCING"].

Definition d2Value (doc : MongoDataRow) : string :=
  toUpperCase (String_ (or_else (fld D2 doc) (VStr ""))).

Definition isDowntime (doc : MongoDataRow) : bool :=
  existsb (fun indicator => includes (d2Value doc) indicator)
          downtimeIndicators.

Definition isProduction (doc : MongoDataRow) : bool :=
  existsb (fun indicator => includes (d2Value doc) indicator)
          productionIndicators
  || (negb (isDowntime doc) && truthy (fld D6 doc)
      && gt0 (Number (fld D6 doc))).

(** The comparator [new Date(a.timestamp).getTime() -
    new Date(b.timestamp).getTime()] is positive. *)
Definition timestamp_after (a b : MongoDataRow) : bool :=
  match Date_new (timestamp a), Date_new (timestamp b) with
  | Some ta, Some tb => Date.ltb tb ta
  | _, _ => false
  end.

Definition sortedDocs (documents : list MongoDataRow) : list MongoDataRow :=
  sort timestamp_after (filter (fun doc => truthy (timestamp doc)) documents).

(** One turn of the scan: the state is [lastDowntimeIndex] and
    [postDowntimeDocs]. *)
Definition scan_step (st : Z * list MongoDataRow) (p : Z * MongoDataRow)
  : Z * list MongoDataRow :=
  let '(lastDowntimeIndex, postDowntimeDocs) := st in
  let '(index, doc) := p in
  let lastDowntimeIndex :=
    if isDowntime doc then index else lastDowntimeIndex in
  if isProduction doc && (0 <=? lastDowntimeIndex)%Z
     && (lastDowntimeIndex <? index)%Z
  then (lastDowntimeIndex, (postDowntimeDocs ++ [doc])%list)
  else (lastDowntimeIndex, postDowntimeDocs).

Definition scan (docs : list MongoDataRow) : Z * list MongoDataRow :=
  fold_left scan_step (indexed docs) ((-1)%Z, []).

Definition postDowntimeDocs (documents : list MongoDataRow)
  : list MongoDataRow :=
  snd (scan (sortedDocs documents)).

Definition post_mould_filter (mould : string) (doc : MongoDataRow) : bool :=
  let docMould := trim (String_ (or_else (fld D17 doc) (VStr ""))) in
  let selectedMould := trim mould in
  String.eqb docMould selectedMould.

(** The rate over the candidates the scan kept. *)
Definition post_rate (mould : string) (candidates : list MongoDataRow) : Q :=
  let mouldFilteredPostDowntimeDocs :=
    filter (post_mould_filter mould) candidates in
  let postDowntimeRejections :=
    fold_left (add_valid D52) mouldFilteredPostDowntimeDocs 0 in
  let postDowntimeUnitsProduced :=
    fold_left (add_valid D6) mouldFilteredPostDowntimeDocs 0 in
  if Qltb 0 postDowntimeUnitsProduced
  then round2 (postDowntimeRejections / postDowntimeUnitsProduced * 100)
  else 0.

Definition calculatePostDowntimeDR (documents : list MongoDataRow)
  (mould : string) : Q :=
  post_rate mould (postDowntimeDocs documents).

(** ** calculateTotalDowntime *)

Definition calculateTotalDowntime (documents : list MongoDataRow)
  (mould : string) : Q :=
  let mouldFilteredDocs := filter (mould_filter mould) documents in
  let totalDowntimeSeconds :=
    fold_left (add_positive D9) mouldFilteredDocs 0 in
  let totalDowntimeHours := totalDowntimeSeconds / 3600 in
  round2 totalDowntimeHours.

(** ** calculateMoldHealthIndex *)

Definition rejectionPenalty (totalUnitsProduced totalRejection : Q) : Q :=
  if Qltb 0 totalUnitsProduced
  then totalRejection / totalUnitsProduced * 100
  else 0.

Definition expectedRuntimeHours (totalUnitsProduced cycleTimeSeconds : Q)
  : Q :=
  if Qltb 0 cycleTimeSeconds && Qltb 0 totalUnitsProduced
  then cycleTimeSeconds * totalUnitsProduced / 3600
  else 0.

Definition downtimePenalty
  (totalUnitsProduced totalDowntime cycleTimeSeconds : Q) : Q :=
  let expected := expectedRuntimeHours totalUnitsProduced cycleTimeSeconds in
  if Qltb 0 expected then totalDowntime / expected * 100 else 0.

Definition calculateMoldHealthIndex
  (totalUnitsProduced totalRejection totalDowntime cycleTimeSeconds : Q)
  : Q :=
  let moldHealthIndex :=
    100 - (rejectionPenalty totalUnitsProduced totalRejection
           + downtimePenalty totalUnitsProduced totalDowntime
                             cycleTimeSeconds) in
  let finalMHI := Math_max 0 moldHealthIndex in
  round2 finalMHI.

(** ** Reading a response *)

(** [response.data && response.data.data], a falsy value read as missing. *)
Definition response_data (body : Body) : DataField :=
  match body with
  | BodyObject f => f
  | BodyNone | BodyArray _ => DataMissing
  end.

(** The first array method called on [mongoRows] raises a [TypeError]
    unless it is an array. *)
Definition as_array (f : DataField) : M (list MongoDataRow) :=
  match f with
  | DataRows rows => ret rows
  | DataMissing | DataNotArray => throw TypeError
  end.

(** ** fetchCycleTime *)

Definition mapping_request : Request :=
  {| method := PUT;
     req_devID := "SDPLYPLC_AM2_MoldMapping";
     startTime := None;
     endTime := None;
     limit := 1000;
     userID_header := true |}.

(** The body of [for (const doc of mongoRows)]: [Some] cycle time when
    the loop breaks at [doc]. *)
Definition cycle_time_of (selectedMould : string) (doc : MongoDataRow)
  : option Q :=
  match data doc with
  | None => None
  | Some d =>
      if truthy (D0 d) then
        let mouldName := trim (String_ (D0 d)) in
        if String.eqb mouldName selectedMould then
          if present (D2 d) then
            match Number (D2 d) with
            | Num cycleTimeValue =>
                if Qltb 0 cycleTimeValue then Some cycleTimeValue else None
            | NaN => None
            end
          else None
        else None
      else None
  end.

Fixpoint find_cycle_time (selectedMould : string)
  (mongoRows : list MongoDataRow) : Q :=
  match mongoRows with
  | [] => 0
  | doc :: rest =>
      match cycle_time_of selectedMould doc with
      | Some cycleTimeSeconds => cycleTimeSeconds
      | None => find_cycle_time selectedMould rest
      end
  end.

Definition fetchCycleTime (mould : string) : M Q :=
  try_catch
    (body <- send mapping_request ;;
     match response_data body with
     | DataMissing => throw MissingData
     | f =>
         mongoRows <- as_array f ;;
         let selectedMould := trim mould in
         ret (find_cycle_time selectedMould mongoRows)
     end)
    (fun _ => ret 0).

(** ** calculateTopRejectionReasons *)

(** One turn of the aggregation: the state is [rejectionReasonMap] and
    [totalRejectionUnits]. *)
Definition top_reason_step (st : jsmap Q * Q) (doc : MongoDataRow)
  : jsmap Q * Q :=
  let '(rejectionReasonMap, totalRejectionUnits) := st in
  let d52Value := fld D52 doc in
  let d52Number := Number d52Value in
  if negb (truthy d52Value) || isNaN d52Number || le0 d52Number then st
  else
    match d52Number with
    | NaN => st
    | Num rejectionCount =>
        let d53Value := fld D53 doc in
        let rejectionReason :=
          if truthy d53Value
             && negb (String.eqb (trim (String_ d53Value)) "")
          then trim (String_ d53Value)
          else "Unknown Reason" in
        let rejectionReasonMap :=
          match map_get rejectionReason rejectionReasonMap with
          | Some c =>
              map_set rejectionReason (c + rejectionCount) rejectionReasonMap
          | None => map_set rejectionReason rejectionCount rejectionReasonMap
          end in
        (rejectionReasonMap, totalRejectionUnits + rejectionCount)
    end.

Definition top_reason_aggregate (documents : list MongoDataRow)
  (mould : string) : jsmap Q * Q :=
  let mouldFilteredDocs := filter (mould_filter mould) documents in
  fold_left top_reason_step mouldFilteredDocs ([], 0).

(** The comparator [b.count - a.count] is positive. *)
Definition count_after (a b : TopRejectionReason) : bool :=
  Qltb (count a) (count b).

Definition calculateTopRejectionReasons (documents : list MongoDataRow)
  (mould : string) : list TopRejectionReason :=
  let '(rejectionReasonMap, totalRejectionUnits) :=
    top_reason_aggregate documents mould in
  let sortedReasons :=
    sort count_after
      (map (fun '(reason, count) =>
              {| reason := reason;
                 count := count;
                 percentage :=
                   VStr (if Qltb 0 totalRejectionUnits
                         then toFixed1 (count / totalRejectionUnits * 100)
                              ++ "%"
                         else "0%") |})
           rejectionReasonMap) in
  slice0 3 sortedReasons.

(** ** generateTestMonthlyData *)

(** The [while] loop; [remaining] is the number of turns left before the
    safety [break] (taken when [monthIndex] exceeds 12). *)
Fixpoint test_months (remaining : nat) (baseUnits baseDefectRate : Q)
  (currentDate endDate : Date.t) : M (list MonthlyDefectRateData) :=
  match remaining with
  | O => ret []
  | S remaining' =>
      if Date.leb currentDate endDate then
        let monthLabel := Date.month_year_label currentDate in
        r1 <- random ;;
        let variation := (7 # 10) + r1 * (6 # 10) in
        let unitsProduced := Math_round (baseUnits * variation) in
        r2 <- random ;;
        let defectRate :=
          Math_max (1 # 10) (baseDefectRate + (r2 - (1 # 2)) * (15 # 10)) in
        let defectUnits := Math_round (unitsProduced * (defectRate / 100)) in
        let currentDate :=
          Date.setDate 1
            (Date.setMonth (Date.getMonth currentDate + 1) currentDate) in
        rest <- test_months remaining' baseUnits baseDefectRate
                            currentDate endDate ;;
        ret ({| month := monthLabel;
                unitsProduced := unitsProduced;
                defectUnits := defectUnits;
                defectRate := defectRate |} :: rest)
      else ret []
  end.

Definition generateTestMonthlyData (dateRange : DateRange) (mould : string)
  : M (list MonthlyDefectRateData) :=
  r1 <- random ;;
  let baseUnits := 8000 + r1 * 4000 in
  r2 <- random ;;
  let baseDefectRate := (15 # 10) + r2 * 2 in
  test_months 13 baseUnits baseDefectRate
              (startDate dateRange) (endDate dateRange).

Definition sum_unitsProduced (l : list MonthlyDefectRateData) : Q :=
  fold_left (fun sum month => sum + unitsProduced month) l 0.

Definition sum_defectUnits (l : list MonthlyDefectRateData) : Q :=
  fold_left (fun sum month => sum + defectUnits month) l 0.

(** ** generateTestKPIData *)

Definition generateTestKPIData (machine mould : string)
  (dateRange : DateRange) : M KPIResult :=
  monthlyTestData <- generateTestMonthlyData dateRange mould ;;
  let totalUnitsProduced := sum_unitsProduced monthlyTestData in
  let totalDefectUnits := sum_defectUnits monthlyTestData in
  r1 <- random ;;
  let postDowntimeDR := r1 * (1 # 10) in
  r2 <- random ;;
  let totalDowntime := 30 + r2 * 20 in
  r3 <- random ;;
  let moldHealthIndex := 75 + r3 * 20 in
  p1 <- random ;;
  p2 <- random ;;
  p3 <- random ;;
  let topRejectionReasons :=
    [ {| reason := "Short Molding";
         count := Math_round (totalDefectUnits * (6 # 10));
         percentage := VNum (60 + p1 * 10) |};
      {| reason := "Flash";
         count := Math_round (totalDefectUnits * (25 # 100));
         percentage := VNum (20 + p2 * 10) |};
      {| reason := "Burn Mark";
         count := Math_round (totalDefectUnits * (15 # 100));
         percentage := VNum (10 + p3 * 10) |} ] in
  r4 <- random ;;
  ret {| totalUnitsProduced := totalUnitsProduced;
         totalRejection := totalDefectUnits;
         postDowntimeDR := postDowntimeDR;
         totalDowntime := totalDowntime;
         moldHealthIndex := moldHealthIndex;
         topRejectionReasons := topRejectionReasons;
         documentCount := 450 + Math_round (r4 * 50);
         kpi_dateRange :=
           formatDateForMongoDB (startDate dateRange) ++ " - " ++
           formatDateForMongoDB (endDate dateRange);
         kpi_machine := machine;
         kpi_mould := mould |}.

(** ** calculateKPIs *)

Definition calculateKPIs (machine mould : string) (dateRange : DateRange)
  : M KPIResult :=
  let adjustedStartDate := adjustStartDateToCycleTime (startDate dateRange) in
  let payload :=
    rows_request PUT machine adjustedStartDate (endDate dateRange) true in
  try_catch
    (body <- send payload ;;
     match response_data body with
     | DataMissing => throw MissingData
     | f =>
         mongoRows <- as_array f ;;
         let mouldFilteredDocs := filter (mould_filter mould) mongoRows in
         if Nat.eqb (List.length mouldFilteredDocs) 0
         then generateTestKPIData machine mould dateRange
         else
           let totalUnitsProduced :=
             fold_left (add_valid D6) mouldFilteredDocs 0 in
           let totalRejection :=
             fold_left (add_valid D52) mouldFilteredDocs 0 in
           let postDowntimeDR := calculatePostDowntimeDR mongoRows mould in
           let totalDowntime := calculateTotalDowntime mongoRows mould in
           cycleTimeSeconds <- fetchCycleTime mould ;;
           let moldHealthIndex :=
             calculateMoldHealthIndex totalUnitsProduced totalRejection
                                      totalDowntime cycleTimeSeconds in
           let topRejectionReasons :=
             calculateTopRejectionReasons mongoRows mould in
           let result :=
             {| totalUnitsProduced := totalUnitsProduced;
                totalRejection := totalRejection;
                postDowntimeDR := postDowntimeDR;
                totalDowntime := totalDowntime;
                moldHealthIndex := moldHealthIndex;
                topRejectionReasons := topRejectionReasons;
                documentCount :=
                  inject_Z (Z.of_nat (List.length mouldFilteredDocs));
                kpi_dateRange :=
                  formatDateForMongoDB adjustedStartDate ++ " - " ++
                  formatDateForMongoDB (endDate dateRange);
                kpi_machine := machine;
                kpi_mould := mould |} in
           if Qeq_bool totalUnitsProduced 0
           then generateTestKPIData machine mould dateRange
           else ret result
     end)
    (fun _ => generateTestKPIData machine mould dateRange).

(** ** generateTestDefectReasonData *)

(** Re-normalising [reasonDistribution] in place. *)
Definition renormalise (l : list (string * Q)) : list (string * Q) :=
  let totalPercentage := fold_left (fun sum reason => sum + snd reason) l 0 in
  map (fun '(name, percentage) => (name, percentage / totalPercentage)) l.

Definition reasonDistribution (totalRejectionUnits : Q)
  : list (string * Q) :=
  let d0 := [("Short Molding", 861 # 1000); ("Black Spot", 139 # 1000)] in
  let d1 :=
    if Qltb 100 totalRejectionUnits
    then renormalise (d0 ++ [("Flash", 8 # 100); ("Silver Mark", 5 # 100)])
    else d0 in
  if Qltb 500 totalRejectionUnits
  then renormalise (d1 ++ [("Burn Mark", 3 # 100); ("Warpage", 2 # 100)])
  else d1.

(** One turn of the distribution: the state is [assignedTotal] and
    [defectReasonData]. *)
Definition test_reason_step (totalRejectionUnits : Q) (len : Z)
  (st : Q * list DefectReasonData) (p : Z * (string * Q))
  : Q * list DefectReasonData :=
  let '(assignedTotal, defectReasonData) := st in
  let '(index, (name, percentage)) := p in
  let '(count, assignedTotal) :=
    if (index =? len - 1)%Z
    then (totalRejectionUnits - assignedTotal, assignedTotal)
    else
      let count := Math_round (totalRejectionUnits * percentage) in
      (count, assignedTotal + count) in
  if Qltb 0 count
  then (assignedTotal,
        (defectReasonData ++
         [ {| dr_name := name;
              dr_value := count / totalRejectionUnits * 100;
              dr_count := count |} ])%list)
  else (assignedTotal, defectReasonData).

(** The comparator [b.count - a.count] is positive. *)
Definition dr_count_after (a b : DefectReasonData) : bool :=
  Qltb (dr_count a) (dr_count b).

Definition generateTestDefectReasonData (mould : string)
  (totalRejectionUnits : Q) : list DefectReasonData :=
  if Qleb totalRejectionUnits 0 then []
  else
    let distribution := reasonDistribution totalRejectionUnits in
    let len := Z.of_nat (List.length distribution) in
    sort dr_count_after
         (snd (fold_left (test_reason_step totalRejectionUnits len)
                         (indexed distribution) (0, []))).

(** The default of the parameter [totalRejectionUnits]. *)
Definition default_totalRejectionUnits : Q := 72.

(** ** getTotalRejectionUnits *)

Definition test_total_defects (dateRange : DateRange) (mould : string)
  : M Q :=
  monthlyTestData <- generateTestMonthlyData dateRange mould ;;
  ret (sum_defectUnits monthlyTestData).

Definition getTotalRejectionUnits (machine mould : string)
  (dateRange : DateRange) : M Q :=
  let payload :=
    rows_request PUT machine (startDate dateRange) (endDate dateRange)
                 true in
  try_catch
    (body <- send payload ;;
     match response_data body with
     | DataMissing => test_total_defects dateRange mould
     | f =>
         mongoRows <- as_array f ;;
         let mouldFilteredDocs := filter (mould_filter mould) mongoRows in
         if Nat.eqb (List.length mouldFilteredDocs) 0
         then test_total_defects dateRange mould
         else ret (fold_left (add_valid D52) mouldFilteredDocs 0)
     end)
    (fun _ => test_total_defects dateRange mould).

(** ** calculateMonthlyDefectRateData *)

Record MonthBucket : Type := {
  bucket_unitsProduced : Q;
  bucket_defectCount : Q;
  bucket_month : string
}.

Definition empty_bucket (monthLabel : string) : MonthBucket :=
  {| bucket_unitsProduced := 0;
     bucket_defectCount := 0;
     bucket_month := monthLabel |}.

(** [if (!map.has(key)) map.set(key, { 0, 0, label })] *)
Definition ensure_bucket (monthKey monthLabel : string)
  (m : jsmap MonthBucket) : jsmap MonthBucket :=
  if map_has monthKey m then m
  else map_set monthKey (empty_bucket monthLabel) m.

(** [currentDate.setMonth(currentDate.getMonth() + 1);
     currentDate.setDate(1)] *)
Definition next_month_start (currentDate : Date.t) : Date.t :=
  Date.setDate 1 (Date.setMonth (Date.getMonth currentDate + 1) currentDate).

(** The pre-population loop, [while (currentDate <= dateRange.endDate)];
    [None] when [fuel] turns did not reach the exit. *)
Fixpoint prepopulate (fuel : nat) (currentDate endDate : Date.t)
  (m : jsmap MonthBucket) : option (jsmap MonthBucket) :=
  if Date.leb currentDate endDate then
    match fuel with
    | O => None
    | S fuel' =>
        let monthKey := Date.month_key currentDate in
        let monthLabel := Date.month_year_label currentDate in
        prepopulate fuel' (next_month_start currentDate) endDate
                    (ensure_bucket monthKey monthLabel m)
    end
  else Some m.

Definition month_index (d : Date.t) : Z :=
  (Date.year d * 12 + Date.month d)%Z.

(** The turns the loop can take on dates a [Date] can hold: every turn
    moves to a later month. *)
Definition months_spanned (startDate endDate : Date.t) : nat :=
  Z.to_nat (month_index endDate - month_index startDate + 1).

Definition possibleTimestampFields : list string :=
  ["createdAt"; "updatedAt"; "date"; "time"; "_ts"; "ts"].

Fixpoint alternative_timestamp (row : MongoDataRow) (fields : list string)
  : option Date.t :=
  match fields with
  | [] => None
  | field :: rest =>
      if truthy (prop row field) then
        match Date_new (prop row field) with
        | Some timestamp => Some timestamp
        | None => alternative_timestamp row rest
        end
      else alternative_timestamp row rest
  end.

Definition resolve_timestamp (row : MongoDataRow) : option Date.t :=
  if truthy (timestamp row) then Date_new (timestamp row)
  else alternative_timestamp row possibleTimestampFields.

Definition outside (dateRange : DateRange) (timestamp : Date.t) : bool :=
  Date.ltb timestamp (startDate dateRange)
  || Date.ltb (endDate dateRange) timestamp.

Definition add_units (q : Q) (b : MonthBucket) : MonthBucket :=
  {| bucket_unitsProduced := bucket_unitsProduced b + q;
     bucket_defectCount := bucket_defectCount b;
     bucket_month := bucket_month b |}.

Definition add_defects (q : Q) (b : MonthBucket) : MonthBucket :=
  {| bucket_unitsProduced := bucket_unitsProduced b;
     bucket_defectCount := bucket_defectCount b + q;
     bucket_month := bucket_month b |}.

(** [monthData.F += v] on the bucket stored under [monthKey]. *)
Definition update_bucket (monthKey : string)
  (f : MonthBucket -> MonthBucket) (m : jsmap MonthBucket)
  : jsmap MonthBucket :=
  match map_get monthKey m with
  | Some b => map_set monthKey (f b) m
  | None => m
  end.

(** One turn of the aggregation: the state is [monthlyDataMap] and
    [totalUnitsAggregated]. *)
Definition month_step (dateRange : DateRange)
  (st : jsmap MonthBucket * Q) (row : MongoDataRow)
  : jsmap MonthBucket * Q :=
  let '(monthlyDataMap, totalUnitsAggregated) := st in
  match resolve_timestamp row with
  | None => st
  | Some timestamp =>
      if outside dateRange timestamp then st
      else
        let monthKey := Date.month_key timestamp in
        let monthLabel := Date.month_year_label timestamp in
        let monthlyDataMap :=
          ensure_bucket monthKey monthLabel monthlyDataMap in
        let '(monthlyDataMap, totalUnitsAggregated) :=
          match valid_positive D6 row with
          | Some d6Value =>
              (update_bucket monthKey (add_units d6Value) monthlyDataMap,
               totalUnitsAggregated + d6Value)
          | None => (monthlyDataMap, totalUnitsAggregated)
          end in
        let monthlyDataMap :=
          match valid_positive D52 row with
          | Some d52Value =>
              update_bucket monthKey (add_defects d52Value) monthlyDataMap
          | None => monthlyDataMap
          end in
        (monthlyDataMap, totalUnitsAggregated)
  end.

(** The comparator [a.monthKey.localeCompare(b.monthKey)] is positive. *)
Definition key_after (a b : string * MonthBucket) : bool :=
  match localeCompare (fst a) (fst b) with
  | Gt => true
  | _ => false
  end.

Definition chart_row (entry : string * MonthBucket) : MonthlyDefectRateData :=
  let data := snd entry in
  {| month := bucket_month data;
     unitsProduced := bucket_unitsProduced data;
     defectUnits := bucket_defectCount data;
     defectRate :=
       if Qltb 0 (bucket_unitsProduced data)
       then bucket_defectCount data / bucket_unitsProduced data * 100
       else 0 |}.

(** [Array.from(map.entries()).map(...).sort(...).map(...)]: the key
    travels with the row through the sort and is dropped after it. *)
Definition chart_output (monthlyDataMap : jsmap MonthBucket)
  : list MonthlyDefectRateData :=
  map chart_row (sort key_after monthlyDataMap).

(** The aggregation over the filtered documents: pre-population, then
    one turn per document; [None] when the pre-population does not end. *)
Definition monthly_aggregate (dateRange : DateRange)
  (mouldFilteredDocs : list MongoDataRow)
  : option (jsmap MonthBucket * Q) :=
  match prepopulate
          (months_spanned (startDate dateRange) (endDate dateRange))
          (startDate dateRange) (endDate dateRange) [] with
  | None => None
  | Some monthlyDataMap =>
      Some (fold_left (month_step dateRange) mouldFilteredDocs
                      (monthlyDataMap, 0))
  end.

Definition calculateMonthlyDefectRateData (machine mould : string)
  (dateRange : DateRange) : M MonthlyOutput :=
  _ <- log_toISOString [startDate dateRange; endDate dateRange] ;;
  let payload :=
    rows_request PUT machine (startDate dateRange) (endDate dateRange)
                 true in
  try_catch
    (body <- send payload ;;
     match response_data body with
     | DataMissing =>
         rows <- generateTestMonthlyData dateRange mould ;;
         ret (MonthlySeries rows)
     | f =>
         mongoRows <- as_array f ;;
         let mouldFilteredDocs := filter (mould_filter mould) mongoRows in
         if Nat.eqb (List.length mouldFilteredDocs) 0
         then
           ret (ReasonSeries
                  (generateTestDefectReasonData
                     mould default_totalRejectionUnits))
         else
           match monthly_aggregate dateRange mouldFilteredDocs with
           | None => diverge
           | Some (monthlyDataMap, totalUnitsAggregated) =>
               if Qeq_bool totalUnitsAggregated 0
               then
                 rows <- generateTestMonthlyData dateRange mould ;;
                 ret (MonthlySeries rows)
               else ret (MonthlySeries (chart_output monthlyDataMap))
           end
     end)
    (fun _ =>
       rows <- generateTestMonthlyData dateRange mould ;;
       ret (MonthlySeries rows)).

(** ** calculateDefectReasonBreakdown *)

(** One turn of the aggregation: the state is [defectReasonMap] and
    [totalRejectionUnits]. *)
Definition breakdown_step (dateRange : DateRange) (st : jsmap Q * Q)
  (row : MongoDataRow) : jsmap Q * Q :=
  let '(defectReasonMap, totalRejectionUnits) := st in
  if negb (truthy (timestamp row)) then st
  else
    match Date_new (timestamp row) with
    | None => st
    | Some timestamp =>
        if outside dateRange timestamp then st
        else
          let d52Value := fld D52 row in
          let d53Value := fld D53 row in
          if negb (present d52Value) then st
          else
            match Number d52Value with
            | NaN => st
            | Num rejectionUnits =>
                if Qleb rejectionUnits 0 then st
                else
                  let reasonStr := trim (String_ d53Value) in
                  let rejectionReason :=
                    if present d53Value
                       && negb (String.eqb reasonStr "")
                       && negb (String.eqb reasonStr "null")
                       && negb (String.eqb reasonStr "undefined")
                    then reasonStr
                    else "Unknown" in
                  let currentCount :=
                    match map_get rejectionReason defectReasonMap with
                    | Some c => c
                    | None => 0
                    end in
                  (map_set rejectionReason (currentCount + rejectionUnits)
                           defectReasonMap,
                   totalRejectionUnits + rejectionUnits)
            end
    end.

Definition breakdown_aggregate (dateRange : DateRange)
  (mouldFilteredDocs : list MongoDataRow) : jsmap Q * Q :=
  fold_left (breakdown_step dateRange) mouldFilteredDocs ([], 0).

Definition breakdown_rows (defectReasonMap : jsmap Q)
  (totalRejectionUnits : Q) : list DefectReasonData :=
  sort dr_count_after
       (map (fun '(reason, count) =>
               {| dr_name := reason;
                  dr_value :=
                    if Qltb 0 totalRejectionUnits
                    then count / totalRejectionUnits * 100
                    else 0;
                  dr_count := count |})
            defectReasonMap).

(** The fallback of every branch without usable data. *)
Definition test_breakdown (machine mould : string) (dateRange : DateRange)
  : M (list DefectReasonData) :=
  totalRejectionUnits <- getTotalRejectionUnits machine mould dateRange ;;
  ret (generateTestDefectReasonData mould totalRejectionUnits).

Definition calculateDefectReasonBreakdown (machine mould : string)
  (dateRange : DateRange) : M (list DefectReasonData) :=
  _ <- log_toISOString [startDate dateRange; endDate dateRange] ;;
  let payload :=
    rows_request PUT machine (startDate dateRange) (endDate dateRange)
                 true in
  try_catch
    (body <- send payload ;;
     match response_data body with
     | DataMissing => test_breakdown machine mould dateRange
     | f =>
         mongoRows <- as_array f ;;
         let mouldFilteredDocs := filter (mould_filter mould) mongoRows in
         if Nat.eqb (List.length mouldFilteredDocs) 0
         then test_breakdown machine mould dateRange
         else
           let '(defectReasonMap, totalRejectionUnits) :=
             breakdown_aggregate dateRange mouldFilteredDocs in
           if Qeq_bool totalRejectionUnits 0
              || Nat.eqb (List.length defectReasonMap) 0
           then test_breakdown machine mould dateRange
           else ret (breakdown_rows defectReasonMap totalRejectionUnits)
     end)
    (fun _ => test_breakdown machine mould dateRange).

(** ** generateTestProductionVsTargetData *)

Fixpoint test_pvt_rows (baseProduction baseTarget : Q)
  (months : list string) : M (list ProductionVsTargetData) :=
  match months with
  | [] => ret []
  | m :: rest =>
      r1 <- random ;;
      r2 <- random ;;
      rows <- test_pvt_rows baseProduction baseTarget rest ;;
      ret ({| pvt_month := m;
              production := baseProduction + Math_floor (r1 * 200);
              target := baseTarget + Math_floor (r2 * 150) |} :: rows)
  end.

Definition generateTestProductionVsTargetData (mould : string)
  : M (list ProductionVsTargetData) :=
  let baseProduction :=
    if String.eqb mould "PP TRAY NEW" then 1100 else 1200 in
  let baseTarget := baseProduction + 100 in
  test_pvt_rows baseProduction baseTarget
                ["Jan"; "Feb"; "Mar"; "Apr"; "May"; "Jun"; "Jul"].

(** ** calculateProductionVsTargetData *)

(** [v === s] for a string [s] *)
Definition strict_eq_string (v : value) (s : string) : bool :=
  match v with
  | VStr t => String.eqb t s
  | _ => false
  end.

(** [parseFloat(String(v || 0))] *)
Definition parse_or_zero (v : value) : number :=
  parseFloat_str (String_ (or_else v (VNum 0))).

Definition pvt_filter (mould : string) (row : MongoDataRow) : bool :=
  let mouldFromData := fld D17 row in
  let production := parse_or_zero (fld D6 row) in
  let target := parse_or_zero (fld D10 row) in
  let isValidMould := strict_eq_string mouldFromData mould in
  let hasProductionData := negb (isNaN production) && ge0 production in
  let hasTargetData := negb (isNaN target) && ge0 target in
  if negb isValidMould then false
  else if negb hasProductionData && negb hasTargetData then false
  else true.

Record PvtBucket : Type := {
  pb_production : Q;
  pb_target : Q;
  pb_count : Q
}.

Definition nan_as_zero (n : number) : Q :=
  match n with NaN => 0 | Num q => q end.

(** One turn of the monthly grouping.  The month is asked for in the
    zone Asia/Calcutta, which is the local zone of the embedding. *)
Definition pvt_step (m : jsmap PvtBucket) (row : MongoDataRow)
  : jsmap PvtBucket :=
  if negb (truthy (timestamp row)) then m
  else
    match Date_new (timestamp row) with
    | None => m
    | Some date =>
        let monthKey := Date.month_year_label date in
        let production := parse_or_zero (fld D6 row) in
        let target := parse_or_zero (fld D10 row) in
        let monthData :=
          match map_get monthKey m with
          | Some b => b
          | None => {| pb_production := 0; pb_target := 0; pb_count := 0 |}
          end in
        map_set monthKey
                {| pb_production :=
                     pb_production monthData + nan_as_zero production;
                   pb_target := pb_target monthData + nan_as_zero target;
                   pb_count := pb_count monthData + 1 |}
                m
    end.

(** [monthKey.split(' ')[0]] *)
Fixpoint before_space (s : string) : string :=
  match s with
  | EmptyString => EmptyString
  | String c s' =>
      if Ascii.eqb c " "%char then EmptyString
      else String c (before_space s')
  end.

Definition monthOrder : list string :=
  ["Jan"; "Feb"; "Mar"; "Apr"; "May"; "Jun";
   "Jul"; "Aug"; "Sep"; "Oct"; "Nov"; "Dec"].

Fixpoint indexOf_from (i : Z) (l : list string) (s : string) : Z :=
  match l with
  | [] => (-1)%Z
  | x :: l' => if String.eqb x s then i else indexOf_from (i + 1) l' s
  end.

Definition indexOf (l : list string) (s : string) : Z := indexOf_from 0 l s.

(** [monthOrder.indexOf(a.month) - monthOrder.indexOf(b.month)] is
    positive. *)
Definition month_after (a b : ProductionVsTargetData) : bool :=
  (indexOf monthOrder (pvt_month b) <? indexOf monthOrder (pvt_month a))%Z.

Definition pvt_rows (monthlyAggregation : jsmap PvtBucket)
  : list ProductionVsTargetData :=
  sort month_after
       (map (fun '(monthKey, data) =>
               {| pvt_month := before_space monthKey;
                  production := Math_round (pb_production data);
                  target := Math_round (pb_target data) |})
            monthlyAggregation).

Definition calculateProductionVsTargetData (machine mould : string)
  (dateRange : DateRange) : M (list ProductionVsTargetData) :=
  let adjustedStartDate := adjustStartDateToCycleTime (startDate dateRange) in
  let payload :=
    rows_request POST machine adjustedStartDate (endDate dateRange) false in
  try_catch
    (body <- send payload ;;
     apiData <-
       match body with
       | BodyObject (DataRows rows) => ret rows
       | BodyArray rows => ret rows
       | _ => throw InvalidFormat
       end ;;
     if Nat.eqb (List.length apiData) 0
     then generateTestProductionVsTargetData mould
     else
       let filteredData := filter (pvt_filter mould) apiData in
       if Nat.eqb (List.length filteredData) 0
       then generateTestProductionVsTargetData mould
       else
         let monthlyAggregation := fold_left pvt_step filteredData [] in
         let productionVsTargetData := pvt_rows monthlyAggregation in
         if Nat.ltb 0 (List.length productionVsTargetData)
         then ret productionVsTargetData
         else generateTestProductionVsTargetData mould)
    (fun _ => generateTestProductionVsTargetData mould).

End Engine.

(** ** A host for the examples

    It reads unsigned decimal integers and timestamps written
    [YYYY-MM-DDTHH:MM], and prints integers; that is all the examples
    below need. *)

Module ExampleHost.

Fixpoint digits (s : string) (acc : Z) : option Z :=
  match s with
  | EmptyString => Some acc
  | String c s' =>
      let n := Z.of_nat (nat_of_ascii c) in
      if (48 <=? n)%Z && (n <=? 57)%Z
      then digits s' (acc * 10 + (n - 48))%Z
      else None
  end.

Definition integer (s : string) : option Z :=
  match s with
  | EmptyString => None
  | _ => digits s 0
  end.

Definition number_of_text (s : string) : number :=
  match trim s with
  | EmptyString => Num 0
  | t =>
      match digits t 0 with
      | Some z => Num (inject_Z z)
      | None => NaN
      end
  end.

Definition float_of_text (s : string) : number :=
  match integer (trim s) with
  | Some z => Num (inject_Z z)
  | None => NaN
  end.

Definition text_of_number (q : Q) : string :=
  if Qeq_bool q (inject_Z (Qfloor q)) then Z_to_string (Qfloor q)
  else toFixed1 q.

Definition date_of_text (s : string) : option Date.t :=
  match integer (substring 0 4 s), integer (substring 5 2 s),
        integer (substring 8 2 s), integer (substring 11 2 s),
        integer (substring 14 2 s) with
  | Some y, Some m, Some d, Some h, Some mi =>
      if (Nat.eqb (String.length s) 16
          && String.eqb (substring 4 1 s) "-"
          && String.eqb (substring 7 1 s) "-"
          && String.eqb (substring 10 1 s) "T"
          && String.eqb (substring 13 1 s) ":"
          && (1 <=? m)%Z && (m <=? 12)%Z
          && (1 <=? d)%Z && (d <=? Date.days_in_month y (m - 1))%Z
          && (h <? 24)%Z && (mi <? 60)%Z)%bool
      then Some (Date.mk y (m - 1) d (Date.time_of_day h mi 0 0))
      else None
  | _, _, _, _, _ => None
  end.

Definition date_of_value (v : value) : option Date.t :=
  match v with
  | VStr s => date_of_text s
  | _ => None
  end.

#[export] Instance example : Host := {|
  Number_str := number_of_text;
  parseFloat_str := float_of_text;
  String_num := text_of_number;
  Date_new := date_of_value;
  Number_str_empty := eq_refl
|}.

(** A document of mould [mould], stamped [ts], with [units] produced and
    [rejections] rejected. *)
Definition doc (mould : value) (ts : value) (units rejections : value)
  : MongoDataRow :=
  {| _id := "";
     devID := "M1";
     data := Some {| D0 := VUndefined; D2 := VUndefined; D6 := units;
                     D9 := VUndefined; D10 := VUndefined; D17 := mould;
                     D51 := VUndefined; D52 := rejections;
                     D53 := VUndefined |};
     timestamp := ts;
     other := [] |}.


(** A store that holds [rows] for machine [M1], [mappings] as the mould
    mapping, and fails every other request; [Math.random()] is always
    one half. *)
Definition store (rows mappings : list MongoDataRow) : World :=
  {| axios := fun _ r =>
       if String.eqb (req_devID r) "M1"
       then Resolved (BodyObject (DataRows rows))
       else if String.eqb (req_devID r) "SDPLYPLC_AM2_MoldMapping"
       then Resolved (BodyObject (DataRows mappings))
       else Rejected;
     Math_random := fun _ => 1 # 2 |}.

(** A store out of reach. *)
Definition unreachable : World :=
  {| axios := fun _ _ => Rejected;
     Math_random := fun _ => 1 # 2 |}.

Definition range (startDate endDate : Date.t) : DateRange :=
  {| startDate := startDate;
     endDate := endDate;
     label := CustomLabel startDate endDate |}.

(** Q1 of 2025, as the calendar resolver gives it. *)
Definition q1_2025 : DateRange :=
  range (Date.mk 2025 0 1 Date.eight_am) (Date.mk 2025 2 31 Date.eight_am).

(** A custom range from 31 January to 15 March 2025. *)
Definition from_jan_31 : DateRange :=
  range (Date.mk 2025 0 31 Date.eight_am) (Date.mk 2025 2 15 Date.eight_am).

(** A custom range from 28 January to 15 March 2025. *)
Definition from_jan_28 : DateRange :=
  range (Date.mk 2025 0 28 Date.eight_am) (Date.mk 2025 2 15 Date.eight_am).

(** A document of mould TRAY-A. *)
Definition tray (ts : value) (units rejections : Q) : MongoDataRow :=
  doc (VStr "TRAY-A") ts (VNum units) (VNum rejections).

(** A clock value: 14 August 2025, 15:30. *)
Definition clock : Date.t := Date.mk 2025 7 14 (Date.time_of_day 15 30 0 0).

(** The range the calendar resolver gives at that clock value for a
    selector it does not know and the reference year 300000: the third
    quarter of a year no [Date] can hold, so an Invalid Date, to now. *)
Definition from_an_invalid_date : DateRange :=
  {| startDate := Date.mk 300000 6 1 Date.eight_am;
     endDate := clock;
     label := CurrentQuarterLabel 3 300000 |}.

End ExampleHost.

End KpiService.

(* ===================================================================== *)
(** * mouldService.ts: the mould list                                    *)
(* ===================================================================== *)

Module MouldService.

Import Js.
Import DateService.
Import KpiService.
Local Open Scope string_scope.

(** [Set<string>.add]: values in insertion order, each once. *)
Definition set_add (x : string) (s : list string) : list string :=
  if existsb (String.eqb x) s then s else (s ++ [x])%list.

(** The comparator of [sort()] without an argument is positive: the
    order of the code units. *)
Definition code_unit_after (a b : string) : bool :=
  match String.compare a b with
  | Gt => true
  | _ => false
  end.

(** An entry of the mould dropdown. *)
Record MouldOption : Type := {
  option_label : string;
  option_value : string
}.

Section Engine.

Context {host : Host}.

Definition mould_request : Request :=
  {| method := PUT;
     req_devID := "SDPLYPLC_AM2_MoldMapping";
     startTime := None;
     endTime := None;
     limit := 1000;
     userID_header := true |}.

(** One turn of [mongoRows.forEach]: the state is [d0Values]. *)
Definition collect_step (d0Values : list string) (row : MongoDataRow)
  : list string :=
  match data row with
  | None => d0Values
  | Some d =>
      if truthy (D0 d) then
        let d0Value := trim (String_ (D0 d)) in
        if negb (String.eqb d0Value "")
           && negb (String.eqb d0Value "null")
           && negb (String.eqb d0Value "undefined")
           && negb (String.eqb d0Value "")
        then set_add d0Value d0Values
        else d0Values
      else d0Values
  end.

Definition fetchMouldData : M (list string) :=
  try_catch
    (body <- send mould_request ;;
     match response_data body with
     | DataMissing => throw MissingData
     | f =>
         mongoRows <- as_array f ;;
         let d0Values := fold_left collect_step mongoRows [] in
         let uniqueMoulds := sort code_unit_after d0Values in
         ret uniqueMoulds
     end)
    (fun _ => ret []).

Definition transformMouldDataToOptions (moulds : list string)
  : list MouldOption :=
  map (fun mould => {| option_label := mould; option_value := mould |})
      moulds.

End Engine.

End MouldService.

(* ===================================================================== *)
(** * The vocabulary of the specification                                *)
(* ===================================================================== *)

Module Spec.

Import Js.
Import DateService.
Import KpiService.
Local Open Scope string_scope.
Local Open Scope list_scope.

(** The full range of a fixed quarter: from 08:00 on its first day to
    08:00 on its last day. *)
Definition fixed_range (n : Z) (year : Z) (startMonth endMonth endDay : Z)
  : DateRange :=
  {| startDate := Date.mk (Date.full_year year) startMonth 1 28800000;
     endDate := Date.mk (Date.full_year year) endMonth endDay 28800000;
     label := FixedQuarterLabel n year |}.

(** The reference years all of whose quarters a [Date] can hold; a year
    from 0 to 99 stands for 1900 + year. *)
Definition year_in_range (year : Z) : Prop :=
  (-271820 <= Date.full_year year <= 275759)%Z.

(** A date from the year 100 to the year 275759: it holds a time value,
    and so does 08:00 of its day. *)
Definition date_in_range (d : Date.t) : Prop :=
  Date.wf d /\ (100 <= Date.year d <= 275759)%Z.

(** A custom date is in range when it is given. *)
Definition custom_date_in_range (d : option Date.t) : Prop :=
  match d with Some x => date_in_range x | None => True end.

(** The reference years none of whose days a [Date] can hold. *)
Definition year_out_of_range (year : Z) : Prop :=
  (Date.full_year year <= -271822 \/ 275761 <= Date.full_year year)%Z.

Section WithHost.

Context {host : Host}.

(** The positions of the downtime-classified documents of a stream. *)
Definition downtime_positions (docs : list MongoDataRow) : list Z :=
  map fst (filter (fun p => isDowntime (snd p)) (indexed docs)).

(** The most recent downtime position seen once [docs] are scanned;
    [-1] when there is none. *)
Definition most_recent_downtime (docs : list MongoDataRow) : Z :=
  last (downtime_positions docs) (-1)%Z.



(** The rejection count a document carries: its rejection-count field
    read as a number, when that is positive. *)
Definition rejection_count (doc : MongoDataRow) : option Q :=
  match Number (fld D52 doc) with
  | Num q => if Qltb 0 q then Some q else None
  | NaN => None
  end.

(** The reason field is absent or blank. *)
Definition blank_reason (doc : MongoDataRow) : Prop :=
  match fld D53 doc with
  | VUndefined | VNull => True
  | VStr s => trim s = ""
  | VNum _ => False
  end.

(** [m'] is [m] with [q] more rejections under [reason]. *)
Definition credited (reason : string) (q : Q) (m m' : jsmap Q) : Prop :=
  (exists v,
     map_get reason m' = Some v
     /\ (v == match map_get reason m with Some c => c | None => 0 end + q)%Q)
  /\ forall k, k <> reason -> map_get k m' = map_get k m.

(** The document carries a timestamp that [new Date] accepts and that
    lies in the range, both ends included. *)
Definition dated_within (dateRange : DateRange) (doc : MongoDataRow) : Prop :=
  truthy (timestamp doc) = true
  /\ exists ts, Date_new (timestamp doc) = Some ts
                /\ outside dateRange ts = false.

(** The rejections a document carries: its count, or nothing. *)
Definition counted (doc : MongoDataRow) : Q :=
  match rejection_count doc with
  | Some q => q
  | None => 0%Q
  end.

(** The document carries rejections. *)
Definition has_rejections (doc : MongoDataRow) : bool :=
  match rejection_count doc with
  | Some _ => true
  | None => false
  end.

(** [blank_reason], decided. *)
Definition is_blank (doc : MongoDataRow) : bool :=
  match fld D53 doc with
  | VUndefined | VNull => true
  | VStr s => String.eqb (trim s) ""
  | VNum _ => false
  end.

(** [dated_within], decided. *)
Definition is_dated_within (dateRange : DateRange) (doc : MongoDataRow)
  : bool :=
  truthy (timestamp doc)
  && match Date_new (timestamp doc) with
     | Some ts => negb (outside dateRange ts)
     | None => false
     end.

(** The rejections of a list of documents, added up in the order of the
    list. *)
Definition rejections_of (docs : list MongoDataRow) : Q :=
  fold_left (fun sum doc => (sum + counted doc)%Q) docs 0%Q.

End WithHost.

(** The count a tally holds under a reason; 0 when the reason is not in
    it. *)
Definition tally_under (reason : string) (m : jsmap Q) : Q :=
  match map_get reason m with
  | Some c => c
  | None => 0%Q
  end.

(** A network error, or a payload without an array of rows. *)
Definition fault (r : Reply) : bool :=
  match r with
  | Rejected => true
  | Resolved BodyNone => true
  | Resolved (BodyObject DataMissing) => true
  | Resolved (BodyObject DataNotArray) => true
  | Resolved (BodyObject (DataRows _)) => false
  | Resolved (BodyArray _) => false
  end.

(** [a] does not come after [b] in the order of the month keys. *)
Definition key_le (a b : string * MonthBucket) : Prop :=
  localeCompare (fst a) (fst b) <> Gt.

(** The month labels of a returned monthly series, in order. *)
Definition months_of (o : outcome MonthlyOutput) : option (list string) :=
  match o with
  | Returned (MonthlySeries rows) => Some (map month rows)
  | _ => None
  end.

(** The sum of [unitsProduced] over a returned monthly series, in lowest
    terms. *)
Definition chart_total (o : outcome MonthlyOutput) : option Q :=
  match o with
  | Returned (MonthlySeries rows) => Some (Qred (sum_unitsProduced rows))
  | _ => None
  end.

(** The total units of a returned KPI snapshot, in lowest terms. *)
Definition kpi_total (o : outcome KPIResult) : option Q :=
  match o with
  | Returned result => Some (Qred (totalUnitsProduced result))
  | _ => None
  end.

(** The month labels of returned production-versus-target rows. *)
Definition pvt_months (o : outcome (list ProductionVsTargetData))
  : option (list string) :=
  match o with
  | Returned rows => Some (map pvt_month rows)
  | _ => None
  end.

(** Both ends of the range hold a time value: neither is an Invalid
    Date. *)
Definition valid_range (dateRange : DateRange) : Prop :=
  Date.representable (startDate dateRange) = true
  /\ Date.representable (endDate dateRange) = true.

(** A reason entry as the interface [TopRejectionReason] declares it:
    its [percentage] is text. *)
Definition declared_reason (r : TopRejectionReason) : bool :=
  match percentage r with
  | VStr _ => true
  | _ => false
  end.

(** A snapshot of the declared shape: every entry of its reasons is as
    the interface declares it. *)
Definition declared_snapshot (result : KPIResult) : bool :=
  forallb declared_reason (topRejectionReasons result).

(** Whether a returned snapshot is of the declared shape; nothing when no
    snapshot is returned. *)
Definition structurally_valid (o : outcome KPIResult) : option bool :=
  match o with
  | Returned result => Some (declared_snapshot result)
  | _ => None
  end.

(** The computation always returns normally. *)
Definition returns (A : Type) (m : M A) : Prop :=
  forall w c, exists a c', m w c = (Returned a, c').

(** The computation returns or throws: it has no loop that may not end. *)
Definition settles (A : Type) (m : M A) : Prop :=
  forall w c, fst (m w c) <> Diverged.

(** No error leaves the computation. *)
Definition never_throws (A : Type) (m : M A) : Prop :=
  forall w c e, fst (m w c) <> Thrown e.

(** ** The calendar *)

(** A quarter of [year] with its dates written out: from 08:00 on the
    first day of [startMonth] to 08:00 on [endDay] of [endMonth]. *)
Definition full_quarter (quarter : Q) (year : Z)
  (startMonth endMonth endDay : Z) : QuarterInfo :=
  {| quarter := quarter;
     year := year;
     q_startDate := Date.mk (Date.full_year year) startMonth 1 Date.eight_am;
     q_endDate := Date.mk (Date.full_year year) endMonth endDay Date.eight_am |}.

(** The selectors that stand for a quarter. *)
Definition quarter_selectors : list string :=
  ["current-quarter"; "last-quarter"; "q1"; "q2"; "q3"; "q4"].

(** ** Orders *)

(** [a] is not listed after [b] in the order of the month names. *)
Definition month_le (a b : ProductionVsTargetData) : Prop :=
  (indexOf monthOrder (pvt_month a) <= indexOf monthOrder (pvt_month b))%Z.

(** [a] is not after [b] in the order of the code units. *)
Definition name_le (a b : string) : Prop := String.compare a b <> Gt.

(** [a] is listed before [b] only if its count is not smaller. *)
Definition count_ge (A : Type) (count : A -> Q) (a b : A) : Prop :=
  (count b <= count a)%Q.

(** A name the mould list can hold: trimmed, not empty, and neither of
    the words [null] and [undefined]. *)
Definition usable_name (m : string) : Prop :=
  trim m = m /\ m <> "" /\ m <> "null" /\ m <> "undefined".

Section Documents.

Context {host : Host}.

(** [a] is not later than [b], when both timestamps are dates. *)
Definition time_le (a b : MongoDataRow) : Prop :=
  match Date_new (timestamp a), Date_new (timestamp b) with
  | Some ta, Some tb => Date.leb ta tb = true
  | _, _ => True
  end.



(** The row names the mould [m] in its [D0] field. *)
Definition names_mould (row : MongoDataRow) (m : string) : Prop :=
  exists d, data row = Some d /\ truthy (D0 d) = true
            /\ trim (String_ (D0 d)) = m.

End Documents.

(** ** Sums *)

Local Open Scope Q_scope.

(** The sum of a list of numbers. *)
Definition Qsum (l : list Q) : Q := fold_right Qplus 0 l.

(** A whole number. *)
Definition whole (q : Q) : Prop := exists z : Z, q == inject_Z z.

(** A tally of rejections by reason is consistent: the reasons are
    distinct, every count is positive and the counts add up to the grand
    total. *)
Definition consistent_tally (st : jsmap Q * Q) : Prop :=
  NoDup (map fst (fst st))
  /\ Forall (fun e : string * Q => 0 < snd e) (fst st)
  /\ Qsum (map snd (fst st)) == snd st.

(** The rounded shares of the reasons before the last one, in the
    synthetic breakdown of [t] rejections. *)
Definition rounded_shares (t : Q) (l : list (string * Q)) : Q :=
  Qsum (map (fun p => Math_round (t * snd p)) l).

(** Rows of a breakdown of [t] rejections: positive counts, each with its
    share of [t] as percentage. *)
Definition well_formed_rows (t : Q) (rows : list DefectReasonData) : Prop :=
  Forall (fun r => 0 < dr_count r /\ dr_value r == dr_count r / t * 100) rows.

(** The bands of a synthetic month. *)
Definition synthetic_month_bounds (r : MonthlyDefectRateData) : Prop :=
  (5600 <= unitsProduced r <= 15600)
  /\ defectRate r <= (425 # 100)
  /\ 0 <= defectUnits r <= unitsProduced r.




End Spec.

(* ===================================================================== *)
(** * Properties                                                         *)
(* ===================================================================== *)

Module QFacts.
Import Js.
Local Open Scope Q_scope.

Lemma Qltb_lt (a b : Q) : Qltb a b = true <-> a < b.
Proof.
  unfold Qltb. rewrite negb_true_iff.
  split; intro H.
  - apply Qnot_le_lt. intro Hle. apply Qle_bool_iff in Hle. congruence.
  - destruct (Qle_bool b a) eqn:E; [|reflexivity].
    apply Qle_bool_iff in E. exfalso. exact (Qlt_not_le _ _ H E).
Qed.

Lemma Qltb_ge (a b : Q) : Qltb a b = false <-> b <= a.
Proof.
  unfold Qltb. rewrite negb_false_iff. apply Qle_bool_iff.
Qed.

Lemma Qleb_le (a b : Q) : Qleb a b = true <-> a <= b.
Proof. apply Qle_bool_iff. Qed.

Lemma Qleb_gt (a b : Q) : Qleb a b = false <-> b < a.
Proof.
  unfold Qleb. split; intro H.
  - apply Qnot_le_lt. intro Hle. apply Qle_bool_iff in Hle. congruence.
  - destruct (Qle_bool a b) eqn:E; [|reflexivity].
    apply Qle_bool_iff in E. exfalso. exact (Qlt_not_le _ _ H E).
Qed.

Lemma Qdiv_nonneg (a b : Q) : 0 <= a -> 0 <= b -> 0 <= a / b.
Proof.
  intros Ha Hb. unfold Qdiv. apply Qmult_le_0_compat; [assumption|].
  apply Qinv_le_0_compat. assumption.
Qed.

Lemma Math_max_0_range (x : Q) : x <= 100 -> 0 <= Math_max 0 x <= 100.
Proof.
  intro H. unfold Math_max.
  destruct (Qltb 0 x) eqn:E.
  - apply Qltb_lt in E. split; [apply Qlt_le_weak; assumption | assumption].
  - split; [apply Qle_refl | discriminate].
Qed.

Lemma round2_range (x : Q) : 0 <= x <= 100 -> 0 <= round2 x <= 100.
Proof.
  intros [H0 H100]. unfold round2, Math_round.
  assert (Hlo : (0 <= Qfloor (x * 100 + (1 # 2)))%Z).
  { change 0%Z with (Qfloor 0). apply Qfloor_resp_le. lra. }
  assert (Hhi : (Qfloor (x * 100 + (1 # 2)) <= 10000)%Z).
  { change 10000%Z with (Qfloor (10000 + (1 # 2))).
    apply Qfloor_resp_le. lra. }
  set (z := Qfloor (x * 100 + (1 # 2))) in *.
  change (inject_Z z / 100) with (inject_Z z * (1 # 100)).
  assert (H1 : inject_Z 0 <= inject_Z z) by (rewrite <- Zle_Qle; assumption).
  assert (H2 : inject_Z z <= inject_Z 10000)
    by (rewrite <- Zle_Qle; assumption).
  change (inject_Z 0) with 0 in H1. change (inject_Z 10000) with 10000 in H2.
  lra.
Qed.

End QFacts.

Module HealthIndex.
Import Js KpiService QFacts.
Local Open Scope Q_scope.

Lemma rejectionPenalty_nonneg (u r : Q) : 0 <= r -> 0 <= rejectionPenalty u r.
Proof.
  intro Hr. unfold rejectionPenalty.
  destruct (Qltb 0 u) eqn:E; [|apply Qle_refl].
  apply Qltb_lt in E.
  apply Qmult_le_0_compat; [|discriminate].
  apply Qdiv_nonneg; [assumption | apply Qlt_le_weak; assumption].
Qed.

Lemma downtimePenalty_nonneg (u d c : Q) :
  0 <= d -> 0 <= downtimePenalty u d c.
Proof.
  intro Hd. unfold downtimePenalty.
  destruct (Qltb 0 (expectedRuntimeHours u c)) eqn:E; [|apply Qle_refl].
  apply Qltb_lt in E.
  apply Qmult_le_0_compat; [|discriminate].
  apply Qdiv_nonneg; [assumption | apply Qlt_le_weak; assumption].
Qed.

Lemma expectedRuntimeHours_pos (u c : Q) :
  0 < u -> 0 < c -> expectedRuntimeHours u c = c * u / 3600
                    /\ 0 < c * u / 3600.
Proof.
  intros Hu Hc. unfold expectedRuntimeHours.
  apply Qltb_lt in Hu as Hu'. apply Qltb_lt in Hc as Hc'.
  rewrite Hu', Hc'. split; [reflexivity|].
  change (c * u / 3600) with (c * u * (1 # 3600)).
  assert (0 < c * u) by (apply Qmult_lt_0_compat; assumption).
  lra.
Qed.

Lemma expectedRuntimeHours_zero (u c : Q) :
  u == 0 \/ c == 0 -> expectedRuntimeHours u c = 0.
Proof.
  intros H. unfold expectedRuntimeHours.
  destruct (Qltb 0 c) eqn:Ec; destruct (Qltb 0 u) eqn:Eu; try reflexivity.
  apply Qltb_lt in Ec, Eu. destruct H as [H|H]; rewrite H in *;
    exfalso; eapply Qlt_irrefl; eassumption.
Qed.

(** Rounding to two decimals gives a whole number of hundredths, at most
    half a hundredth away. *)
Lemma round2_nearest (x : Q) :
  (exists k : Z, round2 x == inject_Z k / 100)
  /\ Qabs (round2 x - x) <= 1 # 200.
Proof.
  unfold round2, Math_round. split.
  - exists (Qfloor (x * 100 + (1 # 2))). reflexivity.
  - pose proof (Qfloor_le (x * 100 + (1 # 2))) as Hlo.
    pose proof (Qlt_floor (x * 100 + (1 # 2))) as Hhi.
    rewrite inject_Z_plus in Hhi.
    set (f := inject_Z (Qfloor (x * 100 + (1 # 2)))) in *. clearbody f.
    apply Qabs_Qle_condition.
    change (f / 100) with (f * (1 # 100)).
    change (inject_Z 1) with 1 in Hhi.
    split; lra.
Qed.

(** C3: for non-negative inputs the mold health index lies in [0, 100]
    and is a whole number of hundredths; while the two penalties together
    are at most 100 it is within half a hundredth of
    [100 - (rejectionPenalty + downtimePenalty)], and from 100 on it is 0;
    each penalty is the ratio the specification gives when its denominator
    is positive and 0 when the denominator is 0 (a cycle time of 0
    included); and each penalty alone exceeds any bound.  Numbers are
    exact here: on a tie such as 160 units with 83 rejections (48.125)
    binary arithmetic may give the other neighbour (48.12 for 48.13), which
    is within the same half hundredth. *)
Theorem mold_health_index_range (u r d c : Q) :
  0 <= u -> 0 <= r -> 0 <= d -> 0 <= c ->
  0 <= calculateMoldHealthIndex u r d c <= 100
  /\ (exists k : Z, calculateMoldHealthIndex u r d c == inject_Z k / 100)
  /\ (rejectionPenalty u r + downtimePenalty u d c <= 100 ->
      Qabs (calculateMoldHealthIndex u r d c
            - (100 - (rejectionPenalty u r + downtimePenalty u d c)))
      <= 1 # 200)
  /\ (100 <= rejectionPenalty u r + downtimePenalty u d c ->
      calculateMoldHealthIndex u r d c == 0)
  /\ (0 < u -> rejectionPenalty u r = r / u * 100)
  /\ (u == 0 -> rejectionPenalty u r = 0)
  /\ (0 < u -> 0 < c ->
      downtimePenalty u d c = d / (c * u / 3600) * 100)
  /\ (u == 0 \/ c == 0 -> downtimePenalty u d c = 0)
  /\ (forall bound, 0 < u ->
      exists r', 0 <= r' /\ bound < rejectionPenalty u r')
  /\ (forall bound, 0 < u -> 0 < c ->
      exists d', 0 <= d' /\ bound < downtimePenalty u d' c).
Proof.
  intros Hu Hr Hd Hc.
  split.
  { unfold calculateMoldHealthIndex. apply round2_range.
    apply Math_max_0_range.
    pose proof (rejectionPenalty_nonneg u Hr).
    pose proof (downtimePenalty_nonneg u c Hd). lra. }
  split.
  { unfold calculateMoldHealthIndex. apply round2_nearest. }
  split.
  { intro Hp. unfold calculateMoldHealthIndex. cbv zeta. unfold Math_max.
    set (p := rejectionPenalty u r + downtimePenalty u d c) in *.
    destruct (Qltb 0 (100 - p)) eqn:E.
    - apply round2_nearest.
    - apply Qltb_ge in E. apply Qabs_Qle_condition.
      change (round2 0) with (0 / 100).
      change (0 / 100) with (0 * (1 # 100)).
      split; lra. }
  split.
  { intro Hp. unfold calculateMoldHealthIndex. cbv zeta. unfold Math_max.
    set (p := rejectionPenalty u r + downtimePenalty u d c) in *.
    assert (E : Qltb 0 (100 - p) = false) by (apply Qltb_ge; lra).
    rewrite E. reflexivity. }
  split.
  { intro H. unfold rejectionPenalty. apply Qltb_lt in H. rewrite H.
    reflexivity. }
  split.
  { intro H. unfold rejectionPenalty.
    destruct (Qltb 0 u) eqn:E; [|reflexivity].
    apply Qltb_lt in E. rewrite H in E. exfalso. exact (Qlt_irrefl _ E). }
  split.
  { intros H1 H2. unfold downtimePenalty.
    destruct (expectedRuntimeHours_pos H1 H2) as [-> Hpos].
    apply Qltb_lt in Hpos. rewrite Hpos. reflexivity. }
  split.
  { intro H. unfold downtimePenalty.
    rewrite (expectedRuntimeHours_zero H). reflexivity. }
  split.
  { intros bound H. exists ((Qabs bound + 1) * u). split.
    - apply Qmult_le_0_compat; [|assumption].
      pose proof (Qabs_nonneg bound). lra.
    - unfold rejectionPenalty. apply Qltb_lt in H as H'. rewrite H'.
      assert (E : (Qabs bound + 1) * u / u * 100 == (Qabs bound + 1) * 100).
      { field. intro Z. rewrite Z in H. exact (Qlt_irrefl _ H). }
      rewrite E. pose proof (Qle_Qabs bound). pose proof (Qabs_nonneg bound).
      lra. }
  { intros bound H1 H2. destruct (expectedRuntimeHours_pos H1 H2) as [Ee Hpos].
    exists ((Qabs bound + 1) * (c * u / 3600)). split.
    - apply Qmult_le_0_compat; [|apply Qlt_le_weak; assumption].
      pose proof (Qabs_nonneg bound). lra.
    - unfold downtimePenalty. rewrite Ee.
      apply Qltb_lt in Hpos as Hpos'. rewrite Hpos'.
      assert (E : (Qabs bound + 1) * (c * u / 3600) / (c * u / 3600) * 100
                  == (Qabs bound + 1) * 100).
      { field. split.
        - intro Z. rewrite Z in H1. exact (Qlt_irrefl _ H1).
        - intro Z. rewrite Z in H2. exact (Qlt_irrefl _ H2). }
      rewrite E. pose proof (Qle_Qabs bound). pose proof (Qabs_nonneg bound).
      lra. }
Qed.

End HealthIndex.

Module CalendarResolver.
Import Js DateService Spec.
Local Open Scope Z_scope.

Lemma make_wf (y m d ms : Z) :
  0 <= m <= 11 -> 1 <= d <= Date.days_in_month y m ->
  0 <= ms < Date.ms_per_day ->
  Date.make y m d ms = Date.mk y m d ms.
Proof.
  intros Hm Hd Hms. unfold Date.make.
  rewrite (Z.div_small ms), (Z.mod_small ms) by assumption.
  rewrite (Z.div_small m), (Z.mod_small m) by lia.
  rewrite !Z.add_0_r. cbn [Date.roll_days].
  destruct (Z.ltb_spec d 1) as [H|_]; [lia|].
  destruct (Z.ltb_spec (Date.days_in_month y m) d) as [H|_]; [lia|].
  reflexivity.
Qed.

Lemma quarter_months_spec (quarter : Q) :
  match quarter_months quarter with
  | Some _ => (quarter == 1 \/ quarter == 2 \/ quarter == 3 \/ quarter == 4)%Q
  | None => ~ (quarter == 1 \/ quarter == 2 \/ quarter == 3 \/ quarter == 4)%Q
  end.
Proof.
  unfold quarter_months.
  destruct (Qeq_bool quarter 1) eqn:E1; [apply Qeq_bool_iff in E1; tauto|].
  destruct (Qeq_bool quarter 2) eqn:E2; [apply Qeq_bool_iff in E2; tauto|].
  destruct (Qeq_bool quarter 3) eqn:E3; [apply Qeq_bool_iff in E3; tauto|].
  destruct (Qeq_bool quarter 4) eqn:E4; [apply Qeq_bool_iff in E4; tauto|].
  intros [H|[H|[H|H]]]; apply Qeq_bool_iff in H; congruence.
Qed.

(** C9: [getQuarterDates] returns exactly when the quarter number is 1,
    2, 3 or 4, and throws the invalid-quarter error exactly when it is
    none of them. *)
Theorem getQuarterDates_throws_iff_out_of_range (quarter : Q) (year : Z) :
  ((exists info, getQuarterDates quarter year = Returned info)
   <-> (quarter == 1 \/ quarter == 2 \/ quarter == 3 \/ quarter == 4)%Q)
  /\
  (getQuarterDates quarter year = Thrown (InvalidQuarter quarter)
   <-> ~ (quarter == 1 \/ quarter == 2 \/ quarter == 3 \/ quarter == 4)%Q).
Proof.
  pose proof (quarter_months_spec quarter) as H.
  unfold getQuarterDates.
  destruct (quarter_months quarter) as [[[sm em] ed]|].
  - split; split; intros; try tauto; try discriminate. eexists; reflexivity.
  - split; split; intros; try tauto.
    + destruct H0 as [? ?]; discriminate.
Qed.

Lemma days_from_epoch_in_range (y m d : Z) :
  -271821 <= y <= 275759 -> (y = -271821 -> 4 <= m) ->
  0 <= m <= 11 -> 1 <= d <= 31 ->
  -99999999 <= Date.days_from_epoch y m d <= 99999999.
Proof.
  intros. unfold Date.days_from_epoch. cbv zeta.
  destruct (Z.leb_spec m 1); Z.to_euclidean_division_equations; lia.
Qed.

Lemma days_from_epoch_below (y m d : Z) :
  y <= -271822 -> 0 <= m <= 11 -> 1 <= d <= 31 ->
  Date.days_from_epoch y m d < -100000000.
Proof.
  intros. unfold Date.days_from_epoch. cbv zeta.
  destruct (Z.leb_spec m 1); Z.to_euclidean_division_equations; lia.
Qed.

Lemma days_from_epoch_above (y m d : Z) :
  275761 <= y -> 0 <= m <= 11 -> 1 <= d <= 31 ->
  100000000 < Date.days_from_epoch y m d.
Proof.
  intros. unfold Date.days_from_epoch. cbv zeta.
  destruct (Z.leb_spec m 1); Z.to_euclidean_division_equations; lia.
Qed.

(** Every instant from May -271821 to the end of 275759 has a time
    value. *)
Lemma representable_from_May (y m d ms : Z) :
  -271821 <= y <= 275759 -> (y = -271821 -> 4 <= m) ->
  0 <= m <= 11 -> 1 <= d <= 31 ->
  0 <= ms < Date.ms_per_day ->
  Date.representable (Date.mk y m d ms) = true.
Proof.
  intros Hy Hy' Hm Hd Hms.
  pose proof (days_from_epoch_in_range Hy Hy' Hm Hd) as H.
  unfold Date.representable, Date.time_value, Date.max_time_value,
    Date.zone_offset, Date.ms_per_day in *.
  cbn [Date.year Date.month Date.day Date.msec].
  apply andb_true_intro; split; apply Z.leb_le; lia.
Qed.

Lemma representable_in_range (y m d ms : Z) :
  -271820 <= y <= 275759 -> 0 <= m <= 11 -> 1 <= d <= 31 ->
  0 <= ms < Date.ms_per_day ->
  Date.representable (Date.mk y m d ms) = true.
Proof. intros. apply representable_from_May; lia. Qed.

(** No instant of a year before -271821 or after 275760 has one. *)
Lemma not_representable_out_of_range (y m d ms : Z) :
  y <= -271822 \/ 275761 <= y -> 0 <= m <= 11 -> 1 <= d <= 31 ->
  0 <= ms < Date.ms_per_day ->
  Date.representable (Date.mk y m d ms) = false.
Proof.
  intros Hy Hm Hd Hms.
  unfold Date.representable, Date.time_value, Date.max_time_value,
    Date.zone_offset, Date.ms_per_day in *.
  cbn [Date.year Date.month Date.day Date.msec].
  destruct Hy as [Hy|Hy].
  - pose proof (days_from_epoch_below Hy Hm Hd).
    apply andb_false_intro1. apply Z.leb_gt. lia.
  - pose proof (days_from_epoch_above Hy Hm Hd).
    apply andb_false_intro2. apply Z.leb_gt. lia.
Qed.

Local Open Scope string_scope.

(** The resolver on a fixed selector, once the clock is logged. *)
Lemma fixed_quarter_resolved (n year sm em ed : Z) :
  quarter_months (inject_Z n) = Some (sm, em, ed) ->
  0 <= sm <= 11 -> 0 <= em <= 11 ->
  1 <= Date.days_in_month (Date.full_year year) sm ->
  1 <= ed <= Date.days_in_month (Date.full_year year) em ->
  fixed_quarter n year
  = logged [Date.mk (Date.full_year year) sm 1 28800000;
            Date.mk (Date.full_year year) em ed 28800000]
      (Returned (fixed_range n year sm em ed)).
Proof.
  intros E Hsm Hem Hsd Hed. unfold fixed_quarter, getQuarterDates.
  rewrite E. unfold Date.new_Date.
  rewrite !make_wf
    by (try assumption; unfold Date.ms_per_day, Date.time_of_day; lia).
  reflexivity.
Qed.

(** C8: while the clock holds a valid instant, the selector [q1] with
    the reference year 2025 resolves to
    [2025-01-01 08:00, 2025-03-31 08:00], whatever the clock and the
    custom dates; for every reference year from -271820 to 275759 each
    fixed selector [q1] .. [q4] resolves to its full quarter, from 08:00 on
    its first day to 08:00 on its last, whatever the clock; and for a
    reference year before -271821 or after 275760 each of them throws a
    [RangeError]. *)
Theorem fixed_quarters_ignore_the_clock
  (now : Date.t) (customStartDate customEndDate : option Date.t) (year : Z) :
  Date.representable now = true ->
  getDateRangeForTimePeriod now "q1" customStartDate customEndDate (Some 2025)
  = Returned {| startDate := Date.mk 2025 0 1 28800000;
                endDate := Date.mk 2025 2 31 28800000;
                label := FixedQuarterLabel 1 2025 |}
  /\ (year_in_range year ->
      getDateRangeForTimePeriod now "q1" customStartDate customEndDate
                                (Some year)
      = Returned (fixed_range 1 year 0 2 31)
      /\ getDateRangeForTimePeriod now "q2" customStartDate customEndDate
                                   (Some year)
         = Returned (fixed_range 2 year 3 5 30)
      /\ getDateRangeForTimePeriod now "q3" customStartDate customEndDate
                                   (Some year)
         = Returned (fixed_range 3 year 6 8 30)
      /\ getDateRangeForTimePeriod now "q4" customStartDate customEndDate
                                   (Some year)
         = Returned (fixed_range 4 year 9 11 31))
  /\ (year_out_of_range year ->
      forall timePeriod, In timePeriod ["q1"; "q2"; "q3"; "q4"] ->
      getDateRangeForTimePeriod now timePeriod customStartDate customEndDate
                                (Some year)
      = Thrown RangeError).
Proof.
  intro Hnow.
  assert (Hsel : forall y,
    getDateRangeForTimePeriod now "q1" customStartDate customEndDate (Some y)
    = fixed_quarter 1 y
    /\ getDateRangeForTimePeriod now "q2" customStartDate customEndDate
                                 (Some y)
       = fixed_quarter 2 y
    /\ getDateRangeForTimePeriod now "q3" customStartDate customEndDate
                                 (Some y)
       = fixed_quarter 3 y
    /\ getDateRangeForTimePeriod now "q4" customStartDate customEndDate
                                 (Some y)
       = fixed_quarter 4 y).
  { intro y. unfold getDateRangeForTimePeriod, logged.
    cbn [forallb]. rewrite Hnow.
    cbn [andb String.eqb Ascii.eqb Bool.eqb default_year].
    repeat split. }
  assert (Hq : forall y,
    fixed_quarter 1 y
    = logged [Date.mk (Date.full_year y) 0 1 28800000;
              Date.mk (Date.full_year y) 2 31 28800000]
        (Returned (fixed_range 1 y 0 2 31))
    /\ fixed_quarter 2 y
       = logged [Date.mk (Date.full_year y) 3 1 28800000;
                 Date.mk (Date.full_year y) 5 30 28800000]
           (Returned (fixed_range 2 y 3 5 30))
    /\ fixed_quarter 3 y
       = logged [Date.mk (Date.full_year y) 6 1 28800000;
                 Date.mk (Date.full_year y) 8 30 28800000]
           (Returned (fixed_range 3 y 6 8 30))
    /\ fixed_quarter 4 y
       = logged [Date.mk (Date.full_year y) 9 1 28800000;
                 Date.mk (Date.full_year y) 11 31 28800000]
           (Returned (fixed_range 4 y 9 11 31))).
  { intro y.
    repeat split; apply fixed_quarter_resolved;
      solve [reflexivity | lia | cbn; lia]. }
  split; [|split].
  - destruct (Hsel 2025%Z) as [-> _]. reflexivity.
  - intro Hy. destruct (Hsel year) as (-> & -> & -> & ->).
    destruct (Hq year) as (-> & -> & -> & ->).
    unfold logged. cbn [forallb].
    rewrite !representable_in_range
      by (try exact Hy; unfold Date.ms_per_day; lia).
    repeat split.
  - intros Hy timePeriod Hin.
    destruct (Hsel year) as (E1 & E2 & E3 & E4).
    destruct (Hq year) as (F1 & F2 & F3 & F4).
    assert (Hbad : forall m d,
      0 <= m <= 11 -> 1 <= d <= 31 ->
      Date.representable (Date.mk (Date.full_year year) m d 28800000)
      = false).
    { intros m d Hm Hd. apply not_representable_out_of_range;
        [exact Hy | exact Hm | exact Hd | unfold Date.ms_per_day; lia]. }
    cbn [In] in Hin.
    destruct Hin as [<-|[<-|[<-|[<-|[]]]]];
      [rewrite E1, F1 | rewrite E2, F2 | rewrite E3, F3 | rewrite E4, F4];
      unfold logged; cbn [forallb]; rewrite Hbad by lia; reflexivity.
Qed.

End CalendarResolver.

Module PostEvent.
Import Js KpiService Spec.
Section WithHost.
Context {host : Host}.

Lemma In_insert_sorted (A : Type) (after : A -> A -> bool) (x y : A)
  (l : list A) :
  In y (insert_sorted after x l) -> y = x \/ In y l.
Proof.
  induction l as [|z l IH]; cbn.
  - intros [H|[]]; auto.
  - destruct (after x z); cbn.
    + intros [H|H]; [auto | destruct (IH H); auto].
    + intros [H|[H|H]]; auto.
Qed.

Lemma In_sort (A : Type) (after : A -> A -> bool) (y : A) (l : list A) :
  In y (sort after l) -> In y l.
Proof.
  induction l as [|x l IH]; cbn; [tauto|].
  intro H. apply In_insert_sorted in H. destruct H; [subst; auto | auto].
Qed.

Lemma In_sortedDocs (doc : MongoDataRow) (documents : list MongoDataRow) :
  In doc (sortedDocs documents) -> In doc documents.
Proof.
  unfold sortedDocs. intro H. apply In_sort in H.
  apply filter_In in H. tauto.
Qed.

Lemma indexed_from_app (A : Type) (l1 l2 : list A) (i : Z) :
  indexed_from i (l1 ++ l2)
  = indexed_from i l1 ++ indexed_from (i + Z.of_nat (List.length l1)) l2.
Proof.
  revert i. induction l1 as [|x l1 IH]; intro i;
    cbn [indexed_from app List.length].
  - rewrite Z.add_0_r. reflexivity.
  - rewrite IH. do 3 f_equal. lia.
Qed.

Lemma scan_snoc (pre : list MongoDataRow) (doc : MongoDataRow) :
  scan (pre ++ [doc]) = scan_step (scan pre) (Z.of_nat (List.length pre), doc).
Proof.
  unfold scan, indexed. rewrite indexed_from_app, fold_left_app. reflexivity.
Qed.

Lemma last_cons (A : Type) (a d : A) (l : list A) : last (a :: l) d = last l a.
Proof.
  revert a d. induction l as [|b l IH]; intros a d; [reflexivity|].
  change (last (a :: b :: l) d) with (last (b :: l) d).
  rewrite !IH. reflexivity.
Qed.

Lemma scan_fst_from (docs : list MongoDataRow) (i last_seen : Z)
  (acc : list MongoDataRow) :
  fst (fold_left scan_step (indexed_from i docs) (last_seen, acc))
  = last (map fst (filter (fun p => isDowntime (snd p)) (indexed_from i docs)))
         last_seen.
Proof.
  revert i last_seen acc.
  induction docs as [|d docs IH]; intros i last_seen acc; [reflexivity|].
  cbn [indexed_from fold_left filter snd].
  unfold scan_step at 2.
  destruct (isDowntime d) eqn:Ed.
  - cbn [map fst]. rewrite last_cons.
    destruct (isProduction d && (0 <=? i)%Z && (i <? i)%Z); apply IH.
  - destruct (isProduction d && (0 <=? last_seen)%Z && (last_seen <? i)%Z);
      apply IH.
Qed.

Lemma scan_fst (docs : list MongoDataRow) :
  fst (scan docs) = most_recent_downtime docs.
Proof. apply scan_fst_from. Qed.

Lemma scan_turn (pre : list MongoDataRow) (doc : MongoDataRow) :
  snd (scan (pre ++ [doc]))
  = if isProduction doc
       && (0 <=? most_recent_downtime (pre ++ [doc]))%Z
       && (most_recent_downtime (pre ++ [doc]) <? Z.of_nat (List.length pre))%Z
    then snd (scan pre) ++ [doc]
    else snd (scan pre).
Proof.
  rewrite <- scan_fst, scan_snoc.
  destruct (scan pre) as [last_seen acc]. unfold scan_step.
  set (seen :=
         if isDowntime doc then Z.of_nat (List.length pre) else last_seen).
  destruct (isProduction doc && (0 <=? seen)%Z
            && (seen <? Z.of_nat (List.length pre))%Z) eqn:E;
    cbn [fst snd]; rewrite E; reflexivity.
Qed.

Lemma scan_no_downtime (docs : list MongoDataRow) :
  (forall doc, In doc docs -> isDowntime doc = false) ->
  scan docs = ((-1)%Z, []).
Proof.
  induction docs as [|doc pre IH] using rev_ind; intro H; [reflexivity|].
  rewrite scan_snoc, IH.
  - unfold scan_step.
    rewrite (H doc) by (apply in_or_app; right; left; reflexivity).
    rewrite andb_false_r. reflexivity.
  - intros d Hd. apply H. apply in_or_app. left. assumption.
Qed.

Lemma recorded_only_after_downtime (docs : list MongoDataRow)
  (doc : MongoDataRow) :
  In doc (snd (scan docs)) ->
  exists pre post,
    docs = pre ++ doc :: post
    /\ isProduction doc = true
    /\ (0 <= most_recent_downtime (pre ++ [doc])
         < Z.of_nat (List.length pre))%Z.
Proof.
  induction docs as [|x l IH] using rev_ind; [intros []|].
  rewrite scan_turn.
  destruct (isProduction x) eqn:Ep; cbn [andb].
  2:{ intro H. destruct (IH H) as (pre & post & -> & ? & ?).
      exists pre, (post ++ [x]). rewrite <- app_assoc. auto. }
  destruct (Z.leb_spec 0 (most_recent_downtime (l ++ [x]))) as [H0|H0];
    cbn [andb].
  2:{ intro H. destruct (IH H) as (pre & post & -> & ? & ?).
      exists pre, (post ++ [x]). rewrite <- app_assoc. auto. }
  destruct (Z.ltb_spec (most_recent_downtime (l ++ [x]))
                       (Z.of_nat (List.length l))) as [H1|H1].
  2:{ intro H. destruct (IH H) as (pre & post & -> & ? & ?).
      exists pre, (post ++ [x]). rewrite <- app_assoc. auto. }
  intro H. apply in_app_or in H. destruct H as [H|[H|[]]].
  - destruct (IH H) as (pre & post & -> & ? & ?).
    exists pre, (post ++ [x]). rewrite <- app_assoc. auto.
  - subst x. exists l, []. auto.
Qed.

Lemma downtime_turn_records_nothing (pre : list MongoDataRow)
  (doc : MongoDataRow) :
  isDowntime doc = true -> snd (scan (pre ++ [doc])) = snd (scan pre).
Proof.
  intro H. rewrite scan_snoc. destruct (scan pre) as [last_seen acc].
  unfold scan_step. rewrite H, Z.ltb_irrefl, andb_false_r. reflexivity.
Qed.

(** C4: when no document is downtime-classified the scan keeps no
    candidate and the rate is 0; at each turn the document scanned joins
    the candidates exactly when it is production-classified and the most
    recent downtime position seen so far (this turn included) exists and
    is strictly before the document's own position; a document that is
    itself downtime-classified is at that position, not after it, and is
    not recorded; so every candidate is a production-classified document
    strictly after the most recent downtime position. *)
Theorem post_event_detector (documents : list MongoDataRow) (mould : string) :
  ((forall doc, In doc documents -> isDowntime doc = false) ->
   postDowntimeDocs documents = []
   /\ calculatePostDowntimeDR documents mould = 0%Q)
  /\
  (forall (pre : list MongoDataRow) (doc : MongoDataRow),
     snd (scan (pre ++ [doc]))
     = if isProduction doc
          && (0 <=? most_recent_downtime (pre ++ [doc]))%Z
          && (most_recent_downtime (pre ++ [doc])
              <? Z.of_nat (List.length pre))%Z
       then snd (scan pre) ++ [doc]
       else snd (scan pre))
  /\
  (forall (pre : list MongoDataRow) (doc : MongoDataRow),
     isDowntime doc = true -> snd (scan (pre ++ [doc])) = snd (scan pre))
  /\
  (forall doc, In doc (postDowntimeDocs documents) ->
     exists pre post,
       sortedDocs documents = pre ++ doc :: post
       /\ isProduction doc = true
       /\ (0 <= most_recent_downtime (pre ++ [doc])
            < Z.of_nat (List.length pre))%Z).
Proof.
  split; [|split; [|split]].
  - intro H.
    assert (E : postDowntimeDocs documents = []).
    { unfold postDowntimeDocs. rewrite scan_no_downtime; [reflexivity|].
      intros doc Hd. apply H. apply In_sortedDocs. assumption. }
    split; [assumption|].
    unfold calculatePostDowntimeDR. rewrite E. reflexivity.
  - apply scan_turn.
  - apply downtime_turn_records_nothing.
  - intros doc. apply recorded_only_after_downtime.
Qed.

End WithHost.
End PostEvent.

Module CycleTime.
Import Js DateService KpiService Spec QFacts.
Local Open Scope string_scope.
Local Open Scope list_scope.
Section WithHost.
Context {host : Host}.





End WithHost.
End CycleTime.

Module Rejections.
Import Js DateService KpiService Spec QFacts.
Local Open Scope string_scope.
Local Open Scope list_scope.

Lemma map_get_set_eq (V : Type) (k : string) (v : V) (m : jsmap V) :
  map_get k (map_set k v m) = Some v.
Proof.
  induction m as [|[k' v'] m IH]; cbn.
  - rewrite String.eqb_refl. reflexivity.
  - destruct (String.eqb_spec k k') as [->|Hne]; cbn.
    + rewrite String.eqb_refl. reflexivity.
    + destruct (String.eqb_spec k k'); [contradiction | assumption].
Qed.

Lemma map_get_set_ne (V : Type) (k k' : string) (v : V) (m : jsmap V) :
  k' <> k -> map_get k' (map_set k v m) = map_get k' m.
Proof.
  intro Hne. induction m as [|[k0 v0] m IH]; cbn.
  - destruct (String.eqb_spec k' k); [contradiction | reflexivity].
  - destruct (String.eqb_spec k k0) as [->|Hk]; cbn.
    + destruct (String.eqb_spec k' k0); [contradiction | reflexivity].
    + destruct (String.eqb_spec k' k0); [reflexivity | assumption].
Qed.

Section WithHost.
Context {host : Host}.

(** A field that reads as a positive number is there and truthy. *)
Lemma positive_field (v : value) (q : Q) :
  Number v = Num q -> (0 < q)%Q -> truthy v = true /\ present v = true.
Proof.
  destruct v as [| |q'|s]; cbn; intros H Hq.
  - discriminate.
  - injection H as <-. exfalso. exact (Qlt_irrefl _ Hq).
  - injection H as ->. split; [|reflexivity].
    destruct (Qeq_bool q 0) eqn:E; [|reflexivity].
    apply Qeq_bool_iff in E. rewrite E in Hq. exfalso. exact (Qlt_irrefl _ Hq).
  - split; [|reflexivity].
    destruct (String.eqb_spec s "") as [->|]; [|reflexivity].
    rewrite Number_str_empty in H. injection H as <-.
    exfalso. exact (Qlt_irrefl _ Hq).
Qed.

Lemma rejection_count_some (doc : MongoDataRow) (q : Q) :
  rejection_count doc = Some q ->
  Number (fld D52 doc) = Num q /\ (0 < q)%Q.
Proof.
  unfold rejection_count.
  destruct (Number (fld D52 doc)) as [|c]; [discriminate|].
  destruct (Qltb 0 c) eqn:E; [|discriminate].
  intro H. injection H as <-. apply Qltb_lt in E. auto.
Qed.

Lemma blank_reason_top (doc : MongoDataRow) :
  blank_reason doc ->
  truthy (fld D53 doc) && negb (String.eqb (trim (String_ (fld D53 doc))) "")
  = false.
Proof.
  unfold blank_reason. destruct (fld D53 doc) as [| |q|s]; cbn -[trim];
    try tauto.
  intros ->. apply andb_false_r.
Qed.

Lemma blank_reason_breakdown (doc : MongoDataRow) :
  blank_reason doc ->
  present (fld D53 doc)
  && negb (String.eqb (trim (String_ (fld D53 doc))) "")
  && negb (String.eqb (trim (String_ (fld D53 doc))) "null")
  && negb (String.eqb (trim (String_ (fld D53 doc))) "undefined")
  = false.
Proof.
  unfold blank_reason. destruct (fld D53 doc) as [| |q|s]; cbn -[trim];
    try tauto.
  intros ->. reflexivity.
Qed.

Lemma top_reason_step_skips (st : jsmap Q * Q) (doc : MongoDataRow) :
  rejection_count doc = None -> top_reason_step st doc = st.
Proof.
  unfold rejection_count, top_reason_step. destruct st as [m total].
  destruct (Number (fld D52 doc)) as [|q] eqn:En; cbn.
  - rewrite orb_true_r. reflexivity.
  - destruct (Qltb 0 q) eqn:E; [discriminate|]. intros _.
    apply Qltb_ge in E. apply Qleb_le in E. rewrite E.
    rewrite orb_true_r. reflexivity.
Qed.

Lemma breakdown_step_skips (dateRange : DateRange) (st : jsmap Q * Q)
  (doc : MongoDataRow) :
  rejection_count doc = None -> breakdown_step dateRange st doc = st.
Proof.
  unfold rejection_count, breakdown_step. destruct st as [m total]. intro H.
  destruct (truthy (timestamp doc)); cbn; [|reflexivity].
  destruct (Date_new (timestamp doc)) as [ts|]; [|reflexivity].
  destruct (outside dateRange ts); [reflexivity|].
  destruct (present (fld D52 doc)); cbn; [|reflexivity].
  destruct (Number (fld D52 doc)) as [|q]; [reflexivity|].
  destruct (Qltb 0 q) eqn:E; [discriminate|].
  apply Qltb_ge in E. apply Qleb_le in E. rewrite E. reflexivity.
Qed.

Lemma breakdown_step_undated (dateRange : DateRange) (st : jsmap Q * Q)
  (doc : MongoDataRow) :
  ~ dated_within dateRange doc -> breakdown_step dateRange st doc = st.
Proof.
  unfold dated_within, breakdown_step. destruct st as [m total]. intro H.
  destruct (truthy (timestamp doc)); cbn; [|reflexivity].
  destruct (Date_new (timestamp doc)) as [ts|]; [|reflexivity].
  destruct (outside dateRange ts) eqn:E; [reflexivity|].
  exfalso. apply H. split; [reflexivity|]. exists ts. auto.
Qed.

Lemma top_reason_step_counts (st : jsmap Q * Q) (doc : MongoDataRow) (q : Q) :
  rejection_count doc = Some q -> blank_reason doc ->
  credited "Unknown Reason" q (fst st) (fst (top_reason_step st doc))
  /\ snd (top_reason_step st doc) = (snd st + q)%Q.
Proof.
  intros Hc Hb. apply rejection_count_some in Hc. destruct Hc as [Hn Hq].
  destruct (positive_field _ Hn Hq) as [Ht _].
  unfold top_reason_step. destruct st as [m total].
  rewrite Hn, Ht. cbn [negb orb isNaN le0].
  apply Qleb_gt in Hq. rewrite Hq. rewrite blank_reason_top by assumption.
  cbn [fst snd]. split; [|reflexivity].
  unfold credited.
  destruct (map_get "Unknown Reason" m) as [c|] eqn:Em; split.
  - exists (c + q)%Q. rewrite map_get_set_eq. split; reflexivity.
  - intros k Hk. apply map_get_set_ne. assumption.
  - exists q. rewrite map_get_set_eq. split; [reflexivity|]. ring.
  - intros k Hk. apply map_get_set_ne. assumption.
Qed.

Lemma breakdown_step_counts (dateRange : DateRange) (st : jsmap Q * Q)
  (doc : MongoDataRow) (q : Q) :
  rejection_count doc = Some q -> blank_reason doc ->
  dated_within dateRange doc ->
  credited "Unknown" q (fst st) (fst (breakdown_step dateRange st doc))
  /\ snd (breakdown_step dateRange st doc) = (snd st + q)%Q.
Proof.
  intros Hc Hb (Ht & ts & Hts & Hin).
  apply rejection_count_some in Hc. destruct Hc as [Hn Hq].
  destruct (positive_field _ Hn Hq) as [_ Hp].
  unfold breakdown_step. destruct st as [m total].
  rewrite Ht, Hts, Hin, Hp, Hn. cbn [negb].
  apply Qleb_gt in Hq. rewrite Hq. rewrite blank_reason_breakdown by assumption.
  cbn [fst snd]. split; [|reflexivity].
  unfold credited. split.
  - eexists. rewrite map_get_set_eq. split; reflexivity.
  - intros k Hk. apply map_get_set_ne. assumption.
Qed.

(** ** The two aggregations over a list of documents *)

Lemma fold_left_skips (A B : Type) (step : A -> B -> A) (keep : B -> bool)
  (l : list B) (st : A) :
  (forall st x, keep x = false -> step st x = st) ->
  fold_left step l st = fold_left step (filter keep l) st.
Proof.
  intro Hskip. revert st. induction l as [|x l IH]; intro st; cbn.
  - reflexivity.
  - destruct (keep x) eqn:E; cbn.
    + apply IH.
    + rewrite (Hskip st x E). apply IH.
Qed.

Lemma has_rejections_false (doc : MongoDataRow) :
  has_rejections doc = false -> rejection_count doc = None.
Proof.
  unfold has_rejections. destruct (rejection_count doc); [discriminate|].
  reflexivity.
Qed.

Lemma is_blank_iff (doc : MongoDataRow) :
  is_blank doc = true <-> blank_reason doc.
Proof.
  unfold is_blank, blank_reason.
  destruct (fld D53 doc) as [| |q|s]; try tauto.
  - split; [discriminate | tauto].
  - apply String.eqb_eq.
Qed.

Lemma is_dated_within_iff (dateRange : DateRange) (doc : MongoDataRow) :
  is_dated_within dateRange doc = true <-> dated_within dateRange doc.
Proof.
  unfold is_dated_within, dated_within. split.
  - intro H. apply andb_prop in H. destruct H as [Ht H].
    split; [exact Ht|].
    destruct (Date_new (timestamp doc)) as [ts|]; [|discriminate].
    exists ts. split; [reflexivity|].
    destruct (outside dateRange ts); [discriminate | reflexivity].
  - intros (Ht & ts & Hts & Hin). rewrite Ht, Hts, Hin. reflexivity.
Qed.

Lemma counted_nonneg (doc : MongoDataRow) : (0 <= counted doc)%Q.
Proof.
  unfold counted. destruct (rejection_count doc) as [q|] eqn:E.
  - apply rejection_count_some in E. apply Qlt_le_weak. tauto.
  - apply Qle_refl.
Qed.

(** Sums in the order of the list, from any start. *)
Lemma sum_from_shift (f : MongoDataRow -> Q) (l : list MongoDataRow)
  (a b : Q) :
  (fold_left (fun sum doc => sum + f doc) l (a + b)
   == a + fold_left (fun sum doc => sum + f doc) l b)%Q.
Proof.
  revert b. induction l as [|x l IH]; intro b; cbn.
  - reflexivity.
  - rewrite <- IH.
    assert (E : forall u v : Q, (u == v)%Q ->
              (fold_left (fun sum doc => sum + f doc) l u
               == fold_left (fun sum doc => sum + f doc) l v)%Q).
    { clear. induction l as [|y l IH]; intros u v H; cbn; [exact H|].
      apply IH. rewrite H. reflexivity. }
    apply E. ring.
Qed.

Lemma sum_from_compat (f : MongoDataRow -> Q) (l : list MongoDataRow)
  (a b : Q) :
  (a == b)%Q ->
  (fold_left (fun sum doc => sum + f doc) l a
   == fold_left (fun sum doc => sum + f doc) l b)%Q.
Proof.
  revert a b. induction l as [|y l IH]; intros u v H; cbn; [exact H|].
  apply IH. rewrite H. reflexivity.
Qed.

Lemma rejections_of_cons (doc : MongoDataRow) (l : list MongoDataRow) :
  (rejections_of (doc :: l) == counted doc + rejections_of l)%Q.
Proof.
  unfold rejections_of. cbn [fold_left].
  rewrite <- sum_from_shift. apply sum_from_compat. ring.
Qed.

Lemma rejections_of_nonneg (l : list MongoDataRow) :
  (0 <= rejections_of l)%Q.
Proof.
  induction l as [|x l IH].
  - apply Qle_refl.
  - rewrite rejections_of_cons. pose proof (counted_nonneg x). lra.
Qed.

Lemma rejections_of_In (doc : MongoDataRow) (l : list MongoDataRow) :
  In doc l -> (counted doc <= rejections_of l)%Q.
Proof.
  induction l as [|x l IH]; [intros []|].
  intros [->|H]; rewrite rejections_of_cons.
  - pose proof (rejections_of_nonneg l). lra.
  - specialize (IH H). pose proof (counted_nonneg x). lra.
Qed.

(** One turn of either aggregation adds the document's rejections to the
    total. *)
Lemma top_reason_step_total (st : jsmap Q * Q) (doc : MongoDataRow) :
  (snd (top_reason_step st doc) == snd st + counted doc)%Q.
Proof.
  unfold counted. destruct (rejection_count doc) as [q|] eqn:E.
  - apply rejection_count_some in E. destruct E as [Hn Hq].
    destruct (positive_field _ Hn Hq) as [Ht _].
    unfold top_reason_step. destruct st as [m total].
    rewrite Hn, Ht. cbn [negb orb isNaN le0].
    apply Qleb_gt in Hq. rewrite Hq. reflexivity.
  - rewrite top_reason_step_skips by exact E. ring.
Qed.

Lemma breakdown_step_total (dateRange : DateRange) (st : jsmap Q * Q)
  (doc : MongoDataRow) :
  is_dated_within dateRange doc = true ->
  (snd (breakdown_step dateRange st doc) == snd st + counted doc)%Q.
Proof.
  intro Hd. apply is_dated_within_iff in Hd.
  destruct Hd as (Ht & ts & Hts & Hin).
  unfold counted. destruct (rejection_count doc) as [q|] eqn:E.
  - apply rejection_count_some in E. destruct E as [Hn Hq].
    destruct (positive_field _ Hn Hq) as [_ Hp].
    unfold breakdown_step. destruct st as [m total].
    rewrite Ht, Hts, Hin, Hp, Hn. cbn [negb].
    apply Qleb_gt in Hq. rewrite Hq. reflexivity.
  - rewrite breakdown_step_skips by exact E. ring.
Qed.

Lemma aggregate_total (step : jsmap Q * Q -> MongoDataRow -> jsmap Q * Q)
  (l : list MongoDataRow) (st : jsmap Q * Q) :
  (forall st doc, In doc l -> (snd (step st doc) == snd st + counted doc)%Q) ->
  (snd (fold_left step l st)
   == fold_left (fun sum doc => sum + counted doc) l (snd st))%Q.
Proof.
  revert st. induction l as [|x l IH]; intros st Hstep; cbn [fold_left].
  - reflexivity.
  - rewrite IH by (intros; apply Hstep; right; assumption).
    apply sum_from_compat. apply Hstep. left. reflexivity.
Qed.

(** One turn never lowers the count under a sentinel, and raises it by
    the rejections of a document without a reason. *)
Lemma tally_under_set (reason k : string) (v : Q) (m : jsmap Q) :
  tally_under k (map_set reason v m)
  = if String.eqb k reason then v else tally_under k m.
Proof.
  unfold tally_under. destruct (String.eqb_spec k reason) as [->|Hne].
  - rewrite map_get_set_eq. reflexivity.
  - rewrite map_get_set_ne by exact Hne. reflexivity.
Qed.

Lemma top_reason_step_sentinel (st : jsmap Q * Q) (doc : MongoDataRow) :
  (tally_under "Unknown Reason" (fst st)
   + (if is_blank doc then counted doc else 0)
   <= tally_under "Unknown Reason" (fst (top_reason_step st doc)))%Q.
Proof.
  pose proof (counted_nonneg doc) as Hc. revert Hc.
  unfold counted. destruct (rejection_count doc) as [q|] eqn:E.
  - intros _. pose proof E as E'.
    apply rejection_count_some in E'. destruct E' as [Hn Hq].
    destruct (is_blank doc) eqn:Eb.
    + apply is_blank_iff in Eb.
      destruct (@top_reason_step_counts st doc q E Eb) as [[(v & Hv & Hvq) _] _].
      unfold tally_under at 2. rewrite Hv. rewrite Hvq.
      unfold tally_under. apply Qle_refl.
    + destruct (positive_field _ Hn Hq) as [Ht _].
      unfold top_reason_step. destruct st as [m total].
      rewrite Hn, Ht. cbn [negb orb isNaN le0].
      apply Qleb_gt in Hq as Hq'. rewrite Hq'. cbn [fst].
      match goal with
      | |- context [map_get ?r m] => set (reason := r)
      end.
      destruct (map_get reason m) as [c|] eqn:Em;
        rewrite tally_under_set;
        destruct (String.eqb_spec "Unknown Reason" reason) as [<-|Hne];
        try (unfold tally_under; rewrite ?Em; lra).
      all: lra.
  - intros _. rewrite top_reason_step_skips by exact E.
    destruct (is_blank doc); lra.
Qed.

Lemma breakdown_step_sentinel (dateRange : DateRange) (st : jsmap Q * Q)
  (doc : MongoDataRow) :
  is_dated_within dateRange doc = true ->
  (tally_under "Unknown" (fst st)
   + (if is_blank doc then counted doc else 0)
   <= tally_under "Unknown" (fst (breakdown_step dateRange st doc)))%Q.
Proof.
  intro Hd. pose proof Hd as Hd'. apply is_dated_within_iff in Hd'.
  unfold counted. destruct (rejection_count doc) as [q|] eqn:E.
  - pose proof E as E'.
    apply rejection_count_some in E'. destruct E' as [Hn Hq].
    destruct (is_blank doc) eqn:Eb.
    + apply is_blank_iff in Eb.
      destruct (@breakdown_step_counts dateRange st doc q E Eb Hd') as [[(v & Hv & Hvq) _] _].
      unfold tally_under at 2. rewrite Hv. rewrite Hvq.
      unfold tally_under. apply Qle_refl.
    + destruct Hd' as (Ht & ts & Hts & Hin).
      destruct (positive_field _ Hn Hq) as [_ Hp].
      unfold breakdown_step. destruct st as [m total].
      rewrite Ht, Hts, Hin, Hp, Hn. cbn [negb].
      apply Qleb_gt in Hq as Hq'. rewrite Hq'. cbn [fst].
      match goal with
      | |- context [map_set ?r _ m] => set (reason := r)
      end.
      rewrite tally_under_set.
      destruct (String.eqb_spec "Unknown" reason) as [<-|Hne];
        unfold tally_under;
        destruct (map_get "Unknown" m); lra.
  - rewrite breakdown_step_skips by exact E.
    destruct (is_blank doc); lra.
Qed.

Lemma aggregate_sentinel (sentinel : string)
  (step : jsmap Q * Q -> MongoDataRow -> jsmap Q * Q)
  (l : list MongoDataRow) (st : jsmap Q * Q) :
  (forall st doc, In doc l ->
     (tally_under sentinel (fst st)
      + (if is_blank doc then counted doc else 0)
      <= tally_under sentinel (fst (step st doc)))%Q) ->
  (tally_under sentinel (fst st) + rejections_of (filter is_blank l)
   <= tally_under sentinel (fst (fold_left step l st)))%Q.
Proof.
  revert st. induction l as [|x l IH]; intros st Hstep; cbn [fold_left filter].
  - unfold rejections_of. cbn. lra.
  - specialize (IH (step st x)
                   (fun st doc H => Hstep st doc (or_intror H))).
    specialize (Hstep st x (or_introl eq_refl)).
    destruct (is_blank x).
    + rewrite rejections_of_cons. lra.
    + lra.
Qed.

Lemma In_insert_sorted_intro (A : Type) (after : A -> A -> bool) (x y : A)
  (l : list A) :
  y = x \/ In y l -> In y (insert_sorted after x l).
Proof.
  induction l as [|z l IH]; cbn.
  - intros [H|[]]; auto.
  - destruct (after x z); cbn; intros [H|[H|H]]; auto.
Qed.

Lemma In_sort_intro (A : Type) (after : A -> A -> bool) (y : A)
  (l : list A) :
  In y l -> In y (sort after l).
Proof.
  induction l as [|x l IH]; cbn; [tauto|].
  intros [H|H]; apply In_insert_sorted_intro; auto.
Qed.

Lemma insert_sorted_length (A : Type) (after : A -> A -> bool) (x : A)
  (l : list A) :
  List.length (insert_sorted after x l) = S (List.length l).
Proof.
  induction l as [|z l IH]; cbn; [reflexivity|].
  destruct (after x z); cbn; [rewrite IH|]; reflexivity.
Qed.

Lemma sort_length (A : Type) (after : A -> A -> bool) (l : list A) :
  List.length (sort after l) = List.length l.
Proof.
  induction l as [|x l IH]; [reflexivity|].
  change (sort after (x :: l)) with (insert_sorted after x (sort after l)).
  rewrite insert_sorted_length, IH. reflexivity.
Qed.

Lemma map_get_In (V : Type) (k : string) (v : V) (m : jsmap V) :
  map_get k m = Some v -> In (k, v) m.
Proof.
  induction m as [|[k' v'] m IH]; cbn; [discriminate|].
  destruct (String.eqb_spec k k') as [->|Hne].
  - intro H. injection H as ->. left. reflexivity.
  - intro H. right. apply IH. exact H.
Qed.

(** C6, amended: over any list of documents, in both aggregations the
    documents whose rejection count is missing, not numeric or not
    positive contribute nothing: dropping them changes neither the
    per-reason counts nor the total, and the total is the sum of the
    rejection counts of the documents of the mould (for the breakdown: of
    those that carry a valid timestamp inside the range), added in their
    order.  The documents with a rejection count and an absent or blank
    reason are counted in full under the sentinel, [Unknown Reason] in the
    top-reasons aggregation and [Unknown] in the breakdown: the count
    under the sentinel is at least the sum of their counts, each such
    document is under it with its count or more, and it is listed by
    [breakdown_rows], and by [calculateTopRejectionReasons] whenever there
    are at most three reasons. *)
Theorem rejection_aggregation (documents : list MongoDataRow)
  (mould : string) (dateRange : DateRange) :
  (top_reason_aggregate documents mould
   = fold_left top_reason_step
       (filter has_rejections (filter (mould_filter mould) documents))
       ([], 0%Q)
   /\ breakdown_aggregate dateRange (filter (mould_filter mould) documents)
      = fold_left (breakdown_step dateRange)
          (filter has_rejections
             (filter (is_dated_within dateRange)
                (filter (mould_filter mould) documents)))
          ([], 0%Q))
  /\ ((snd (top_reason_aggregate documents mould)
       == rejections_of (filter (mould_filter mould) documents))%Q
      /\ (snd (breakdown_aggregate dateRange
                 (filter (mould_filter mould) documents))
          == rejections_of
               (filter (is_dated_within dateRange)
                  (filter (mould_filter mould) documents)))%Q)
  /\ ((rejections_of
         (filter is_blank (filter (mould_filter mould) documents))
       <= tally_under "Unknown Reason"
            (fst (top_reason_aggregate documents mould)))%Q
      /\ (rejections_of
            (filter is_blank
               (filter (is_dated_within dateRange)
                  (filter (mould_filter mould) documents)))
          <= tally_under "Unknown"
               (fst (breakdown_aggregate dateRange
                       (filter (mould_filter mould) documents))))%Q)
  /\ (forall doc q,
        In doc documents -> mould_filter mould doc = true ->
        rejection_count doc = Some q -> blank_reason doc ->
        (exists v,
           map_get "Unknown Reason"
                   (fst (top_reason_aggregate documents mould)) = Some v
           /\ (q <= v)%Q
           /\ ((List.length (fst (top_reason_aggregate documents mould))
                <= 3)%nat ->
               exists e,
                 In e (calculateTopRejectionReasons documents mould)
                 /\ reason e = "Unknown Reason" /\ count e = v))
        /\ (dated_within dateRange doc ->
            exists v,
              map_get "Unknown"
                (fst (breakdown_aggregate dateRange
                        (filter (mould_filter mould) documents))) = Some v
              /\ (q <= v)%Q
              /\ exists row,
                   In row
                     (breakdown_rows
                        (fst (breakdown_aggregate dateRange
                                (filter (mould_filter mould) documents)))
                        (snd (breakdown_aggregate dateRange
                                (filter (mould_filter mould) documents))))
                   /\ dr_name row = "Unknown" /\ dr_count row = v)).
Proof.
  set (selected := filter (mould_filter mould) documents).
  set (dated := filter (is_dated_within dateRange) selected).
  assert (Hbd : breakdown_aggregate dateRange selected
                = fold_left (breakdown_step dateRange) dated ([], 0%Q)).
  { unfold breakdown_aggregate, dated. apply fold_left_skips.
    intros st x Hx. apply breakdown_step_undated.
    intro H. apply is_dated_within_iff in H. congruence. }
  assert (Htop_blank :
    (rejections_of (filter is_blank selected)
     <= tally_under "Unknown Reason"
          (fst (top_reason_aggregate documents mould)))%Q).
  { unfold top_reason_aggregate. fold selected.
    pose proof (@aggregate_sentinel "Unknown Reason" top_reason_step selected
                  ([], 0%Q)
                  (fun st doc _ => top_reason_step_sentinel st doc)) as H.
    unfold tally_under at 1 in H. cbn [fst map_get] in H. lra. }
  assert (Hbd_blank :
    (rejections_of (filter is_blank dated)
     <= tally_under "Unknown"
          (fst (breakdown_aggregate dateRange selected)))%Q).
  { rewrite Hbd.
    assert (Hstep : forall st doc, In doc dated ->
      (tally_under "Unknown" (fst st)
       + (if is_blank doc then counted doc else 0)
       <= tally_under "Unknown" (fst (breakdown_step dateRange st doc)))%Q).
    { intros st doc Hin. apply breakdown_step_sentinel.
      unfold dated in Hin. apply filter_In in Hin. tauto. }
    pose proof (@aggregate_sentinel "Unknown" (breakdown_step dateRange)
                  dated ([], 0%Q) Hstep) as H.
    unfold tally_under at 1 in H. cbn [fst map_get] in H. lra. }
  split; [|split; [|split; [|]]].
  - split.
    + unfold top_reason_aggregate. fold selected. apply fold_left_skips.
      intros st x Hx. apply top_reason_step_skips, has_rejections_false, Hx.
    + rewrite Hbd. apply fold_left_skips.
      intros st x Hx.
      apply breakdown_step_skips, has_rejections_false, Hx.
  - split.
    + unfold top_reason_aggregate. fold selected.
      apply (@aggregate_total top_reason_step selected ([], 0%Q)).
      intros st doc _. apply top_reason_step_total.
    + rewrite Hbd.
      apply (@aggregate_total (breakdown_step dateRange) dated ([], 0%Q)).
      intros st doc Hin. apply breakdown_step_total.
      unfold dated in Hin. apply filter_In in Hin. tauto.
  - split; assumption.
  - intros doc q Hin Hmould Hq Hblank.
    assert (Hsel : In doc selected) by (apply filter_In; auto).
    assert (Hc : counted doc = q) by (unfold counted; rewrite Hq; reflexivity).
    pose proof (proj2 (rejection_count_some _ Hq)) as Hpos.
    apply is_blank_iff in Hblank.
    split.
    + assert (Hle : (q <= rejections_of (filter is_blank selected))%Q).
      { rewrite <- Hc. apply rejections_of_In. apply filter_In. auto. }
      unfold tally_under in Htop_blank.
      destruct (map_get "Unknown Reason"
                  (fst (top_reason_aggregate documents mould)))
        as [v|] eqn:Ev; [|lra].
      exists v. split; [reflexivity|]. split; [lra|].
      intro Hlen. unfold calculateTopRejectionReasons.
      destruct (top_reason_aggregate documents mould) as [m total].
      cbn [fst] in *. unfold slice0.
      rewrite firstn_all2 by (rewrite sort_length, length_map; exact Hlen).
      eexists. split.
      * apply In_sort_intro. apply in_map_iff.
        exists ("Unknown Reason", v). split; [reflexivity|].
        apply map_get_In. exact Ev.
      * split; reflexivity.
    + intro Hdated. apply is_dated_within_iff in Hdated.
      assert (Hle : (q <= rejections_of (filter is_blank dated))%Q).
      { rewrite <- Hc. apply rejections_of_In. apply filter_In.
        split; [|assumption]. apply filter_In. auto. }
      unfold tally_under in Hbd_blank.
      destruct (map_get "Unknown"
                  (fst (breakdown_aggregate dateRange selected)))
        as [v|] eqn:Ev; [|lra].
      exists v. split; [reflexivity|]. split; [lra|].
      unfold breakdown_rows.
      destruct (breakdown_aggregate dateRange selected) as [m total].
      cbn [fst snd] in *.
      eexists. split.
      * apply In_sort_intro. apply in_map_iff.
        exists ("Unknown", v). split; [reflexivity|].
        apply map_get_In. exact Ev.
      * split; reflexivity.
Qed.

End WithHost.
End Rejections.

Module Faults.
Import Js DateService KpiService Spec.
Local Open Scope string_scope.
Local Open Scope list_scope.

Lemma returns_ret (A : Type) (a : A) : returns (ret a).
Proof. intros w c. exists a, c. reflexivity. Qed.

Lemma returns_bind (A B : Type) (m : M A) (k : A -> M B) :
  returns m -> (forall a, returns (k a)) -> returns (bind m k).
Proof.
  intros Hm Hk w c. unfold bind.
  destruct (Hm w c) as (a & c' & ->). apply Hk.
Qed.

Lemma returns_random : returns random.
Proof. intros w c. eexists. eexists. reflexivity. Qed.

Lemma returns_settles (A : Type) (m : M A) : returns m -> settles m.
Proof. intros H w c. destruct (H w c) as (a & c' & ->). discriminate. Qed.

Lemma settles_bind (A B : Type) (m : M A) (k : A -> M B) :
  settles m -> (forall a, settles (k a)) -> settles (bind m k).
Proof.
  intros Hm Hk w c. unfold bind. specialize (Hm w c).
  destruct (m w c) as [[a|e|] c']; cbn in *.
  - apply Hk.
  - discriminate.
  - exfalso. apply Hm. reflexivity.
Qed.

Lemma settles_throw (A : Type) (e : exn) : settles (@throw A e).
Proof. intros w c. discriminate. Qed.

Lemma settles_send (r : Request) : settles (send r).
Proof.
  intros w c. unfold send. destruct (axios w (requests c) r); discriminate.
Qed.

Lemma settles_as_array (f : DataField) : settles (as_array f).
Proof. destruct f; intros w c; discriminate. Qed.

(** A [try] whose handler always returns lets no error out. *)
Lemma try_catch_never_throws (A : Type) (m : M A) (h : exn -> M A) :
  (forall e, returns (h e)) -> never_throws (try_catch m h).
Proof.
  intros Hh w c e. unfold try_catch.
  destruct (m w c) as [[a|e'|] c']; cbn; try discriminate.
  destruct (Hh e' w c') as (a & c'' & ->). discriminate.
Qed.

Lemma try_catch_returns (A : Type) (m : M A) (h : exn -> M A) :
  settles m -> (forall e, returns (h e)) -> returns (try_catch m h).
Proof.
  intros Hm Hh w c. unfold try_catch. specialize (Hm w c).
  destruct (m w c) as [[a|e'|] c']; cbn in *.
  - eexists. eexists. reflexivity.
  - apply Hh.
  - contradiction.
Qed.

Ltac returns_steps :=
  repeat first
    [ apply returns_ret
    | apply returns_random
    | apply returns_bind; [|intro] ].

Section WithHost.
Context {host : Host}.

Lemma returns_test_months (remaining : nat) (baseUnits baseDefectRate : Q)
  (currentDate endDate : Date.t) :
  returns (test_months remaining baseUnits baseDefectRate currentDate endDate).
Proof.
  revert currentDate.
  induction remaining as [|n IH]; intro currentDate; cbn [test_months].
  - apply returns_ret.
  - destruct (Date.leb currentDate endDate); [|apply returns_ret].
    returns_steps. apply IH.
Qed.

Lemma returns_generateTestMonthlyData (dateRange : DateRange) (mould : string) :
  returns (generateTestMonthlyData dateRange mould).
Proof.
  unfold generateTestMonthlyData. returns_steps. apply returns_test_months.
Qed.

Lemma returns_generateTestKPIData (machine mould : string)
  (dateRange : DateRange) :
  returns (generateTestKPIData machine mould dateRange).
Proof.
  unfold generateTestKPIData.
  apply returns_bind; [apply returns_generateTestMonthlyData | intro].
  returns_steps.
Qed.

(** The synthetic snapshot stores its reason percentages as numbers. *)
Lemma synthetic_snapshot_undeclared (machine mould : string)
  (dateRange : DateRange) (w : World) (c : Counters) :
  exists result c',
    generateTestKPIData machine mould dateRange w c = (Returned result, c')
    /\ declared_snapshot result = false.
Proof.
  unfold generateTestKPIData. unfold bind at 1.
  destruct (returns_generateTestMonthlyData dateRange mould w c)
    as (rows & c1 & ->).
  unfold bind, random, ret. cbn [requests draws].
  eexists; eexists. split; reflexivity.
Qed.

Lemma returns_monthly_fallback (dateRange : DateRange) (mould : string) :
  returns (rows <- generateTestMonthlyData dateRange mould ;;
           ret (MonthlySeries rows)).
Proof.
  apply returns_bind; [apply returns_generateTestMonthlyData | intro].
  apply returns_ret.
Qed.

Lemma returns_test_total_defects (dateRange : DateRange) (mould : string) :
  returns (test_total_defects dateRange mould).
Proof.
  unfold test_total_defects.
  apply returns_bind; [apply returns_generateTestMonthlyData | intro].
  apply returns_ret.
Qed.

Lemma returns_getTotalRejectionUnits (machine mould : string)
  (dateRange : DateRange) :
  returns (getTotalRejectionUnits machine mould dateRange).
Proof.
  unfold getTotalRejectionUnits. apply try_catch_returns.
  - apply settles_bind; [apply settles_send | intro body].
    destruct (response_data body) as [| |rows].
    + apply returns_settles, returns_test_total_defects.
    + apply settles_bind; [apply settles_as_array | intro].
      destruct (Nat.eqb _ 0);
        apply returns_settles;
        [apply returns_test_total_defects | apply returns_ret].
    + apply settles_bind; [apply settles_as_array | intro].
      destruct (Nat.eqb _ 0);
        apply returns_settles;
        [apply returns_test_total_defects | apply returns_ret].
  - intro. apply returns_test_total_defects.
Qed.

Lemma returns_test_breakdown (machine mould : string) (dateRange : DateRange) :
  returns (test_breakdown machine mould dateRange).
Proof.
  unfold test_breakdown.
  apply returns_bind; [apply returns_getTotalRejectionUnits | intro].
  apply returns_ret.
Qed.

Lemma returns_test_pvt_rows (baseProduction baseTarget : Q)
  (months : list string) :
  returns (test_pvt_rows baseProduction baseTarget months).
Proof.
  induction months as [|m months IH]; cbn [test_pvt_rows].
  - apply returns_ret.
  - returns_steps. apply IH.
Qed.

Lemma returns_generateTestProductionVsTargetData (mould : string) :
  returns (generateTestProductionVsTargetData mould).
Proof. apply returns_test_pvt_rows. Qed.

(** What a faulty first reply makes of each operation. *)
Lemma fault_cases (r : Reply) :
  fault r = true ->
  r = Rejected \/ r = Resolved BodyNone
  \/ r = Resolved (BodyObject DataMissing)
  \/ r = Resolved (BodyObject DataNotArray).
Proof.
  destruct r as [|[|[| |rows]|rows]]; cbn; intro H; try discriminate; auto.
Qed.

(** The log line of the monthly and the breakdown operation passes on
    a range of valid dates. *)
Lemma log_toISOString_valid (A : Type) (dateRange : DateRange)
  (k : unit -> M A) :
  valid_range dateRange ->
  bind (log_toISOString [startDate dateRange; endDate dateRange]) k = k tt.
Proof.
  intros [Hs He]. unfold log_toISOString. cbn [forallb].
  rewrite Hs, He. reflexivity.
Qed.

Lemma returns_fetchCycleTime (mould : string) :
  returns (fetchCycleTime mould).
Proof.
  unfold fetchCycleTime. apply try_catch_returns; [|intro; apply returns_ret].
  apply settles_bind; [apply settles_send | intro body].
  destruct (response_data body) as [| |rows];
    [ apply settles_throw
    | apply settles_bind;
      [apply settles_as_array | intro; apply returns_settles, returns_ret] ..].
Qed.

Lemma returns_calculateKPIs (machine mould : string)
  (dateRange : DateRange) :
  returns (calculateKPIs machine mould dateRange).
Proof.
  unfold calculateKPIs. cbv zeta.
  apply try_catch_returns; [|intro; apply returns_generateTestKPIData].
  apply settles_bind; [apply settles_send | intro body].
  assert (Hrows : forall f,
    settles
      (mongoRows <- as_array f ;;
       if Nat.eqb (List.length (filter (mould_filter mould) mongoRows)) 0
       then generateTestKPIData machine mould dateRange
       else
         cycleTimeSeconds <- fetchCycleTime mould ;;
         if Qeq_bool
              (fold_left (add_valid D6)
                         (filter (mould_filter mould) mongoRows) 0) 0
         then generateTestKPIData machine mould dateRange
         else
           ret {| totalUnitsProduced :=
                    fold_left (add_valid D6)
                              (filter (mould_filter mould) mongoRows) 0;
                  totalRejection :=
                    fold_left (add_valid D52)
                              (filter (mould_filter mould) mongoRows) 0;
                  postDowntimeDR := calculatePostDowntimeDR mongoRows mould;
                  totalDowntime := calculateTotalDowntime mongoRows mould;
                  moldHealthIndex :=
                    calculateMoldHealthIndex
                      (fold_left (add_valid D6)
                                 (filter (mould_filter mould) mongoRows) 0)
                      (fold_left (add_valid D52)
                                 (filter (mould_filter mould) mongoRows) 0)
                      (calculateTotalDowntime mongoRows mould)
                      cycleTimeSeconds;
                  topRejectionReasons :=
                    calculateTopRejectionReasons mongoRows mould;
                  documentCount :=
                    inject_Z
                      (Z.of_nat
                         (List.length
                            (filter (mould_filter mould) mongoRows)));
                  kpi_dateRange :=
                    formatDateForMongoDB
                      (adjustStartDateToCycleTime (startDate dateRange))
                    ++ " - " ++ formatDateForMongoDB (endDate dateRange);
                  kpi_machine := machine;
                  kpi_mould := mould |})).
  { intro f. apply settles_bind; [apply settles_as_array | intro rows].
    destruct (Nat.eqb _ 0);
      [apply returns_settles, returns_generateTestKPIData|].
    apply settles_bind;
      [apply returns_settles, returns_fetchCycleTime | intro q].
    destruct (Qeq_bool _ 0); apply returns_settles;
      [apply returns_generateTestKPIData | apply returns_ret]. }
  destruct (response_data body) as [| |rows];
    [apply settles_throw | apply Hrows | apply Hrows].
Qed.

Lemma returns_calculateDefectReasonBreakdown (machine mould : string)
  (dateRange : DateRange) :
  valid_range dateRange ->
  returns (calculateDefectReasonBreakdown machine mould dateRange).
Proof.
  intro Hvalid. unfold calculateDefectReasonBreakdown.
  rewrite log_toISOString_valid by exact Hvalid. cbv zeta.
  apply try_catch_returns; [|intro; apply returns_test_breakdown].
  apply settles_bind; [apply settles_send | intro body].
  assert (Hrows : forall f,
    settles
      (mongoRows <- as_array f ;;
       if Nat.eqb (List.length (filter (mould_filter mould) mongoRows)) 0
       then test_breakdown machine mould dateRange
       else
         let '(defectReasonMap, totalRejectionUnits) :=
           breakdown_aggregate dateRange
             (filter (mould_filter mould) mongoRows) in
         if Qeq_bool totalRejectionUnits 0
            || Nat.eqb (List.length defectReasonMap) 0
         then test_breakdown machine mould dateRange
         else ret (breakdown_rows defectReasonMap totalRejectionUnits))).
  { intro f. apply settles_bind; [apply settles_as_array | intro rows].
    destruct (Nat.eqb _ 0);
      [apply returns_settles, returns_test_breakdown|].
    destruct (breakdown_aggregate _ _) as [m total].
    destruct (_ || _); apply returns_settles;
      [apply returns_test_breakdown | apply returns_ret]. }
  destruct (response_data body) as [| |rows];
    [ apply returns_settles, returns_test_breakdown
    | apply Hrows | apply Hrows ].
Qed.

Lemma returns_calculateProductionVsTargetData (machine mould : string)
  (dateRange : DateRange) :
  returns (calculateProductionVsTargetData machine mould dateRange).
Proof.
  unfold calculateProductionVsTargetData. cbv zeta.
  apply try_catch_returns;
    [|intro; apply returns_generateTestProductionVsTargetData].
  apply settles_bind; [apply settles_send | intro body].
  apply settles_bind.
  - destruct body as [|[| |rows]|rows];
      first [apply settles_throw | apply returns_settles, returns_ret].
  - intro apiData.
    repeat match goal with
           | |- settles (if ?b then _ else _) => destruct b
           end;
      apply returns_settles;
      first [ apply returns_generateTestProductionVsTargetData
            | apply returns_ret ].
Qed.

(** What each operation makes of a faulty first reply. *)
Lemma operations_on_a_fault (w : World) (machine mould : string)
  (dateRange : DateRange) :
  valid_range dateRange ->
  (forall r, fault (axios w 0 r) = true) ->
  (exists result,
     run (calculateKPIs machine mould dateRange) w = Returned result
     /\ declared_snapshot result = false)
  /\ (exists rows,
        run (calculateMonthlyDefectRateData machine mould dateRange) w
        = Returned (MonthlySeries rows))
  /\ (exists rows,
        run (calculateDefectReasonBreakdown machine mould dateRange) w
        = Returned rows)
  /\ (exists rows,
        run (calculateProductionVsTargetData machine mould dateRange) w
        = Returned rows).
Proof.
  intros Hvalid Hfault. repeat split.
  - unfold run, calculateKPIs, try_catch, bind, send. cbn [requests draws].
    match goal with |- context [axios w 0 ?r] =>
      destruct (fault_cases _ (Hfault r)) as [E|[E|[E|E]]]; rewrite E end;
      cbn -[generateTestKPIData generateTestMonthlyData test_breakdown
            generateTestProductionVsTargetData];
      match goal with |- context [generateTestKPIData ?a ?b ?c ?w ?k] =>
        destruct (synthetic_snapshot_undeclared a b c w k)
          as (x & c' & -> & Hx) end;
      exists x; (split; [reflexivity | exact Hx]).
  - unfold run, calculateMonthlyDefectRateData.
    rewrite log_toISOString_valid by exact Hvalid.
    unfold try_catch, bind, send.
    cbn [requests draws].
    match goal with |- context [axios w 0 ?r] =>
      destruct (fault_cases _ (Hfault r)) as [E|[E|[E|E]]]; rewrite E end;
      cbn -[generateTestKPIData generateTestMonthlyData test_breakdown
            generateTestProductionVsTargetData];
      match goal with |- context [generateTestMonthlyData ?a ?b ?w ?k] =>
        destruct (returns_generateTestMonthlyData a b w k) as (x & c' & ->) end;
      exists x; reflexivity.
  - unfold run, calculateDefectReasonBreakdown.
    rewrite log_toISOString_valid by exact Hvalid.
    unfold try_catch, bind, send.
    cbn [requests draws].
    match goal with |- context [axios w 0 ?r] =>
      destruct (fault_cases _ (Hfault r)) as [E|[E|[E|E]]]; rewrite E end;
      cbn -[generateTestKPIData generateTestMonthlyData test_breakdown
            generateTestProductionVsTargetData];
      match goal with |- context [test_breakdown ?a ?b ?c ?w ?k] =>
        destruct (returns_test_breakdown a b c w k) as (x & c' & ->) end;
      exists x; reflexivity.
  - unfold run, calculateProductionVsTargetData, try_catch, bind, send.
    cbn [requests draws].
    match goal with |- context [axios w 0 ?r] =>
      destruct (fault_cases _ (Hfault r)) as [E|[E|[E|E]]]; rewrite E end;
      cbn -[generateTestKPIData generateTestMonthlyData test_breakdown
            generateTestProductionVsTargetData];
      match goal with
      | |- context [generateTestProductionVsTargetData ?a ?w ?k] =>
          destruct (returns_generateTestProductionVsTargetData a w k)
            as (x & c' & ->)
      end;
      exists x; reflexivity.
Qed.

End WithHost.
End Faults.

Module Monthly.
Import Js DateService KpiService Spec CalendarResolver Faults.
Local Open Scope Z_scope.

Lemma days_in_month_bounds (y m : Z) : 28 <= Date.days_in_month y m <= 31.
Proof.
  unfold Date.days_in_month.
  destruct m as [|p|p]; try lia.
  destruct (Date.is_leap y);
    repeat (destruct p as [p|p|]; try lia).
Qed.

(** Stepping to the next month from a date a [Date] can hold: the first
    day of one of the next two months, at the same time of day. *)
Lemma next_month_start_wf (d : Date.t) :
  Date.wf d ->
  Date.wf (next_month_start d)
  /\ Date.day (next_month_start d) = 1
  /\ Date.msec (next_month_start d) = Date.msec d
  /\ month_index d + 1 <= month_index (next_month_start d)
     <= month_index d + 2.
Proof.
  destruct d as [y m day ms]. unfold Date.wf, month_index.
  cbn [Date.year Date.month Date.day Date.msec].
  intros (Hm & Hd & Hms).
  unfold next_month_start, Date.setMonth, Date.getMonth.
  cbn [Date.year Date.month Date.day Date.msec].
  pose proof (days_in_month_bounds y m) as Hb.
  assert (Hstep : exists y' m',
             Date.make y (m + 1) day ms
             = Date.mk y' m' (Date.day (Date.make y (m + 1) day ms)) ms
             /\ 0 <= m' <= 11
             /\ y * 12 + m + 1 <= y' * 12 + m' <= y * 12 + m + 2).
  { unfold Date.make.
    rewrite (Z.div_small ms), (Z.mod_small ms) by assumption.
    rewrite Z.add_0_r.
    assert (Hyear : (y + (m + 1) / 12) * 12 + (m + 1) mod 12 = y * 12 + m + 1).
    { pose proof (Z.div_mod (m + 1) 12). lia. }
    assert (Hmod : 0 <= (m + 1) mod 12 <= 11).
    { pose proof (Z.mod_pos_bound (m + 1) 12). lia. }
    set (y1 := y + (m + 1) / 12) in *. set (m1 := (m + 1) mod 12) in *.
    destruct (Z.to_nat (Z.abs day)) as [|k] eqn:Ek; [lia|].
    cbn [Date.roll_days].
    destruct (Z.ltb_spec day 1) as [?|_]; [lia|].
    pose proof (days_in_month_bounds y1 m1) as Hb1.
    destruct (Z.ltb_spec (Date.days_in_month y1 m1) day) as [Hover|Hfit].
    - unfold Date.next_month.
      destruct (Z.eqb_spec m1 11) as [E|E].
      + cbn [Date.roll_days].
        destruct (Z.ltb_spec (day - Date.days_in_month y1 m1) 1) as [?|_];
          [lia|].
        pose proof (days_in_month_bounds (y1 + 1) 0).
        destruct (Z.ltb_spec (Date.days_in_month (y1 + 1) 0)
                             (day - Date.days_in_month y1 m1)) as [?|_]; [lia|].
        exists (y1 + 1), 0. cbn [Date.day]. split; [reflexivity|]. lia.
      + cbn [Date.roll_days].
        destruct (Z.ltb_spec (day - Date.days_in_month y1 m1) 1) as [?|_];
          [lia|].
        pose proof (days_in_month_bounds y1 (m1 + 1)).
        destruct (Z.ltb_spec (Date.days_in_month y1 (m1 + 1))
                             (day - Date.days_in_month y1 m1)) as [?|_]; [lia|].
        exists y1, (m1 + 1). cbn [Date.day]. split; [reflexivity|]. lia.
    - exists y1, m1. cbn [Date.day]. split; [reflexivity|]. lia. }
  destruct Hstep as (y' & m' & E & Hm' & Hidx).
  unfold Date.setDate. rewrite E.
  cbn [Date.year Date.month Date.day Date.msec].
  pose proof (days_in_month_bounds y' m').
  rewrite make_wf by lia.
  cbn [Date.year Date.month Date.day Date.msec].
  repeat split; lia.
Qed.

Lemma leb_month_index (a b : Date.t) :
  0 <= Date.month a <= 11 -> 0 <= Date.month b <= 11 ->
  Date.leb a b = true -> month_index a <= month_index b.
Proof.
  unfold Date.leb, Date.compare, month_index. intros Ha Hb.
  destruct (Z.compare_spec (Date.year a) (Date.year b)) as [E|E|E];
    try discriminate; try lia.
  destruct (Z.compare_spec (Date.month a) (Date.month b)) as [E'|E'|E'];
    try discriminate; lia.
Qed.

(** The pre-population loop exits within [months_spanned] turns. *)
Lemma prepopulate_exits (fuel : nat) (currentDate endDate : Date.t)
  (m : jsmap MonthBucket) :
  Date.wf currentDate -> 0 <= Date.month endDate <= 11 ->
  month_index endDate - month_index currentDate + 1 <= Z.of_nat fuel ->
  exists m', prepopulate fuel currentDate endDate m = Some m'.
Proof.
  revert currentDate m.
  induction fuel as [|fuel IH]; intros currentDate m Hwf Hend Hfuel;
    cbn [prepopulate];
    destruct (Date.leb currentDate endDate) eqn:E;
    try (eexists; reflexivity).
  - apply leb_month_index in E; [lia | apply Hwf | assumption].
  - apply leb_month_index in E; [| apply Hwf | assumption].
    destruct (next_month_start_wf Hwf) as (Hwf' & _ & _ & Hidx).
    apply IH; [assumption | assumption | lia].
Qed.

Local Open Scope string_scope.
Local Open Scope list_scope.

Lemma key_after_false (a b : string * MonthBucket) :
  key_after a b = false -> key_le a b.
Proof.
  unfold key_after, key_le. destruct (localeCompare (fst a) (fst b));
    intros H; congruence.
Qed.

Lemma key_after_true (a b : string * MonthBucket) :
  key_after a b = true -> key_le b a.
Proof.
  unfold key_after, key_le, localeCompare.
  destruct (String.compare (fst a) (fst b)) eqn:E; try discriminate.
  intros _. rewrite String.compare_antisym, E. discriminate.
Qed.

Lemma insert_sorted_HdRel (a x : string * MonthBucket)
  (l : list (string * MonthBucket)) :
  key_le a x -> HdRel key_le a l ->
  HdRel key_le a (insert_sorted key_after x l).
Proof.
  intros Hax Hal. destruct l as [|y l]; cbn.
  - constructor. assumption.
  - destruct (key_after x y); constructor; [|assumption].
    inversion Hal. assumption.
Qed.

Lemma insert_sorted_Sorted (x : string * MonthBucket)
  (l : list (string * MonthBucket)) :
  Sorted key_le l -> Sorted key_le (insert_sorted key_after x l).
Proof.
  induction l as [|y l IH]; cbn; intro Hs.
  - constructor; constructor.
  - inversion Hs as [|? ? Hl Hy]; subst.
    destruct (key_after x y) eqn:E.
    + constructor; [apply IH; assumption|].
      apply insert_sorted_HdRel; [apply key_after_true|]; assumption.
    + constructor; [assumption|]. constructor.
      apply key_after_false. assumption.
Qed.

Lemma sort_Sorted (l : list (string * MonthBucket)) :
  Sorted key_le (sort key_after l).
Proof.
  induction l as [|x l IH]; cbn; [constructor|].
  apply insert_sorted_Sorted. assumption.
Qed.

Lemma insert_sorted_Permutation (A : Type) (after : A -> A -> bool) (x : A)
  (l : list A) : Permutation (insert_sorted after x l) (x :: l).
Proof.
  induction l as [|y l IH]; cbn; [reflexivity|].
  destruct (after x y); [|reflexivity].
  rewrite IH. apply perm_swap.
Qed.

Lemma sort_Permutation (A : Type) (after : A -> A -> bool) (l : list A) :
  Permutation (sort after l) l.
Proof.
  induction l as [|x l IH]; cbn; [reflexivity|].
  rewrite insert_sorted_Permutation. constructor. assumption.
Qed.

Lemma map_set_keys (V : Type) (k : string) (v : V) (m : jsmap V) :
  map fst (map_set k v m)
  = if map_has k m then map fst m else map fst m ++ [k].
Proof.
  unfold map_has. induction m as [|[k' v'] m IH]; cbn; [reflexivity|].
  destruct (String.eqb_spec k k') as [->|Hne]; cbn; [reflexivity|].
  rewrite IH. destruct (map_get k m); reflexivity.
Qed.

Lemma map_has_In (V : Type) (k : string) (m : jsmap V) :
  map_has k m = true <-> In k (map fst m).
Proof.
  unfold map_has. induction m as [|[k' v'] m IH]; cbn.
  - split; [discriminate | tauto].
  - destruct (String.eqb_spec k k') as [->|Hne].
    + split; auto.
    + rewrite IH. split; [auto | intros [E|H]; [congruence | assumption]].
Qed.

Lemma map_set_NoDup (V : Type) (k : string) (v : V) (m : jsmap V) :
  NoDup (map fst m) -> NoDup (map fst (map_set k v m)).
Proof.
  intro H. rewrite map_set_keys.
  destruct (map_has k m) eqn:E; [assumption|].
  apply NoDup_app; [assumption | repeat constructor; intros [] |].
  intros x Hx [<-|[]]. apply map_has_In in Hx. congruence.
Qed.

Lemma ensure_bucket_NoDup (monthKey monthLabel : string)
  (m : jsmap MonthBucket) :
  NoDup (map fst m) -> NoDup (map fst (ensure_bucket monthKey monthLabel m)).
Proof.
  intro H. unfold ensure_bucket. destruct (map_has monthKey m); [assumption|].
  apply map_set_NoDup. assumption.
Qed.

Lemma update_bucket_NoDup (monthKey : string) (f : MonthBucket -> MonthBucket)
  (m : jsmap MonthBucket) :
  NoDup (map fst m) -> NoDup (map fst (update_bucket monthKey f m)).
Proof.
  intro H. unfold update_bucket. destruct (map_get monthKey m); [|assumption].
  apply map_set_NoDup. assumption.
Qed.

Lemma prepopulate_NoDup (fuel : nat) (currentDate endDate : Date.t)
  (m m' : jsmap MonthBucket) :
  NoDup (map fst m) -> prepopulate fuel currentDate endDate m = Some m' ->
  NoDup (map fst m').
Proof.
  revert currentDate m. induction fuel as [|fuel IH]; intros currentDate m Hm;
    cbn [prepopulate]; destruct (Date.leb currentDate endDate);
    try discriminate; try (intro E; injection E as <-; assumption).
  apply IH. apply ensure_bucket_NoDup. assumption.
Qed.

Section WithHost.
Context {host : Host}.

(** On a range whose ends are dates a [Date] can hold, the turns given
    to the pre-population loop are enough: the aggregation ends. *)
Theorem monthly_aggregate_exits (dateRange : DateRange)
  (mouldFilteredDocs : list MongoDataRow) :
  Date.wf (startDate dateRange) -> Date.wf (endDate dateRange) ->
  exists r, monthly_aggregate dateRange mouldFilteredDocs = Some r.
Proof.
  intros Hs He. unfold monthly_aggregate.
  assert (Hfuel : month_index (endDate dateRange)
                  - month_index (startDate dateRange) + 1
                  <= Z.of_nat (months_spanned (startDate dateRange)
                                              (endDate dateRange))).
  { unfold months_spanned. lia. }
  destruct He as (He & _).
  destruct (@prepopulate_exits _ _ _ [] Hs He Hfuel) as (m' & ->).
  eexists. reflexivity.
Qed.

Lemma month_step_NoDup (dateRange : DateRange) (st : jsmap MonthBucket * Q)
  (row : MongoDataRow) :
  NoDup (map fst (fst st)) ->
  NoDup (map fst (fst (month_step dateRange st row))).
Proof.
  destruct st as [m total]. unfold month_step. cbn [fst]. intro H.
  destruct (resolve_timestamp row) as [ts|]; [|assumption].
  destruct (outside dateRange ts); [assumption|].
  destruct (valid_positive D6 row); destruct (valid_positive D52 row);
    cbn [fst];
    repeat first [ apply update_bucket_NoDup | apply ensure_bucket_NoDup ];
    assumption.
Qed.

Lemma month_steps_NoDup (dateRange : DateRange) (rows : list MongoDataRow)
  (st : jsmap MonthBucket * Q) :
  NoDup (map fst (fst st)) ->
  NoDup (map fst (fst (fold_left (month_step dateRange) rows st))).
Proof.
  revert st. induction rows as [|row rows IH]; intros st H; [assumption|].
  cbn [fold_left]. apply IH. apply month_step_NoDup. assumption.
Qed.

(** The buckets of the monthly aggregation have distinct month keys, and
    the chart rows are the buckets in ascending order of their keys. *)
Theorem monthly_buckets_distinct_and_ordered (dateRange : DateRange)
  (mouldFilteredDocs : list MongoDataRow) (monthlyDataMap : jsmap MonthBucket)
  (totalUnitsAggregated : Q) :
  monthly_aggregate dateRange mouldFilteredDocs
  = Some (monthlyDataMap, totalUnitsAggregated) ->
  NoDup (map fst monthlyDataMap)
  /\ Sorted key_le (sort key_after monthlyDataMap)
  /\ Permutation (sort key_after monthlyDataMap) monthlyDataMap
  /\ chart_output monthlyDataMap
     = map chart_row (sort key_after monthlyDataMap).
Proof.
  unfold monthly_aggregate.
  destruct (prepopulate _ _ _ []) as [m0|] eqn:E0; [|discriminate].
  intro H. injection H as H.
  split; [|split; [apply sort_Sorted|]; split;
           [apply sort_Permutation | reflexivity]].
  apply prepopulate_NoDup in E0; [|constructor].
  pose proof (month_steps_NoDup dateRange mouldFilteredDocs (m0, 0%Q) E0) as Hn.
  rewrite H in Hn. assumption.
Qed.

(** When the store answers with rows none of which is of the mould,
    [calculateMonthlyDefectRateData], on a range of valid dates, hands
    back defect-reason rows (the synthetic breakdown of 72 rejections),
    not a monthly series. *)
Theorem monthly_without_matching_documents (w : World)
  (machine mould : string) (dateRange : DateRange)
  (rows : list MongoDataRow) :
  axios w 0%nat
        (rows_request PUT machine (startDate dateRange) (endDate dateRange)
                      true)
  = Resolved (BodyObject (DataRows rows)) ->
  filter (mould_filter mould) rows = [] ->
  valid_range dateRange ->
  run (calculateMonthlyDefectRateData machine mould dateRange) w
  = Returned (ReasonSeries (generateTestDefectReasonData mould 72)).
Proof.
  intros Hreply Hnone Hvalid.
  unfold run, calculateMonthlyDefectRateData.
  rewrite log_toISOString_valid by exact Hvalid.
  unfold try_catch, bind, send.
  cbn [requests draws]. rewrite Hreply.
  cbn [response_data as_array ret]. rewrite Hnone. reflexivity.
Qed.

Lemma returns_calculateMonthlyDefectRateData (machine mould : string)
  (dateRange : DateRange) :
  Date.wf (startDate dateRange) -> Date.wf (endDate dateRange) ->
  valid_range dateRange ->
  returns (calculateMonthlyDefectRateData machine mould dateRange).
Proof.
  intros Hs He Hvalid. unfold calculateMonthlyDefectRateData.
  rewrite log_toISOString_valid by exact Hvalid.
  apply try_catch_returns; [|intro; apply returns_monthly_fallback].
  apply settles_bind; [apply settles_send | intro body].
  assert (Hrows : forall rows : list MongoDataRow,
             settles
               (let mouldFilteredDocs := filter (mould_filter mould) rows in
                if Nat.eqb (List.length mouldFilteredDocs) 0
                then
                  ret (ReasonSeries
                         (generateTestDefectReasonData
                            mould default_totalRejectionUnits))
                else
                  match monthly_aggregate dateRange mouldFilteredDocs with
                  | None => diverge
                  | Some (monthlyDataMap, totalUnitsAggregated) =>
                      if Qeq_bool totalUnitsAggregated 0
                      then
                        rows <- generateTestMonthlyData dateRange mould ;;
                        ret (MonthlySeries rows)
                      else ret (MonthlySeries (chart_output monthlyDataMap))
                  end)).
  { intro rows. cbv zeta.
    destruct (Nat.eqb _ 0); [apply returns_settles, returns_ret|].
    destruct (monthly_aggregate_exits dateRange
                (filter (mould_filter mould) rows) Hs He) as ([m total] & ->).
    destruct (Qeq_bool total 0); apply returns_settles;
      [apply returns_monthly_fallback | apply returns_ret]. }
  destruct (response_data body) as [| |rows].
  - apply returns_settles, returns_monthly_fallback.
  - apply settles_bind; [apply settles_as_array | intro rows]. apply Hrows.
  - apply settles_bind; [apply settles_as_array | intro rows0]. apply Hrows.
Qed.

(** On a range whose two ends are valid dates
    [calculateMonthlyDefectRateData] always returns: it neither throws nor
    loops, whatever the store answers. *)
Theorem calculateMonthlyDefectRateData_returns (machine mould : string)
  (dateRange : DateRange) :
  Date.wf (startDate dateRange) -> Date.wf (endDate dateRange) ->
  valid_range dateRange ->
  returns (calculateMonthlyDefectRateData machine mould dateRange).
Proof. apply returns_calculateMonthlyDefectRateData. Qed.

(** On a range whose two ends are valid dates each of the four public
    KPI operations returns, whatever the store and the mapping lookup
    answer: none throws and none loops.  When the store's first answer is
    a fault (a network error or a payload without an array of rows) what
    is returned is synthetic: the monthly operation gives a monthly
    series, and the snapshot of [calculateKPIs] carries its reason
    percentages as numbers, not as the text its interface declares. *)
Theorem kpi_operations_always_return (machine mould : string)
  (dateRange : DateRange) :
  Date.wf (startDate dateRange) -> Date.wf (endDate dateRange) ->
  valid_range dateRange ->
  (returns (calculateKPIs machine mould dateRange)
   /\ returns (calculateMonthlyDefectRateData machine mould dateRange)
   /\ returns (calculateDefectReasonBreakdown machine mould dateRange)
   /\ returns (calculateProductionVsTargetData machine mould dateRange))
  /\
  (forall w : World,
   (forall r, fault (axios w 0 r) = true) ->
   (exists result,
      run (calculateKPIs machine mould dateRange) w = Returned result
      /\ declared_snapshot result = false)
   /\ (exists rows,
         run (calculateMonthlyDefectRateData machine mould dateRange) w
         = Returned (MonthlySeries rows))
   /\ (exists rows,
         run (calculateDefectReasonBreakdown machine mould dateRange) w
         = Returned rows)
   /\ (exists rows,
         run (calculateProductionVsTargetData machine mould dateRange) w
         = Returned rows)).
Proof.
  intros Hs He Hvalid. split.
  - split; [|split; [|split]].
    + apply returns_calculateKPIs.
    + apply returns_calculateMonthlyDefectRateData; assumption.
    + apply returns_calculateDefectReasonBreakdown; assumption.
    + apply returns_calculateProductionVsTargetData.
  - intros w Hfault. apply operations_on_a_fault; assumption.
Qed.

End WithHost.
End Monthly.

Module MouldFilter.
Import Js DateService KpiService Spec.
Local Open Scope string_scope.
Local Open Scope list_scope.

Section WithHost.
Context {host : Host}.

(** The mould filter of the KPI, monthly, breakdown, downtime and
    top-reasons paths selects the documents whose mould field is there,
    not empty, and equal to the key once both are trimmed; the
    Production-vs-Target filter only lets through documents whose mould
    field is the key itself. *)
Theorem mould_filter_selects (mould : string) (row : MongoDataRow) :
  (mould_filter mould row = true
   <-> exists d, data row = Some d
                 /\ truthy (D17 d) = true
                 /\ trim (String_ (D17 d)) = trim mould)
  /\ (pvt_filter mould row = true -> fld D17 row = VStr mould).
Proof.
  split.
  - unfold mould_filter. destruct (data row) as [d|].
    + destruct (truthy (D17 d)) eqn:Et; cbn [negb].
      * destruct (String.eqb_spec (trim (String_ (D17 d))) (trim mould))
          as [E|E].
        -- split; [intros _; exists d; auto | reflexivity].
        -- split; [discriminate|].
           intros (d' & Hd & _ & E'). injection Hd as <-. contradiction.
      * split; [discriminate|].
        intros (d' & Hd & Ht & _). injection Hd as <-. congruence.
    + split; [discriminate|]. intros (d' & Hd & _). discriminate.
  - unfold pvt_filter, strict_eq_string.
    destruct (fld D17 row) as [| |q|s]; cbn [negb]; try discriminate.
    destruct (String.eqb_spec s mould) as [->|]; [reflexivity|].
    discriminate.
Qed.

End WithHost.
End MouldFilter.

(* ===================================================================== *)
(** * Further properties of the services                                 *)
(* ===================================================================== *)

(** Sorting with a comparator, sums of rationals and maps. *)
Module SortFacts.
Import Js Spec.
Local Open Scope list_scope.

Section SortBy.
Variable A : Type.
Variable after : A -> A -> bool.
Variable R : A -> A -> Prop.
Hypothesis after_false : forall x y, after x y = false -> R x y.
Hypothesis after_true : forall x y, after x y = true -> R y x.

Lemma insert_sorted_HdRel_by (a x : A) (l : list A) :
  R a x -> HdRel R a l -> HdRel R a (insert_sorted after x l).
Proof.
  intros Hax Hal. destruct l as [|y l]; cbn.
  - constructor. assumption.
  - destruct (after x y); constructor; [|assumption].
    inversion Hal. assumption.
Qed.

Lemma insert_sorted_Sorted_by (x : A) (l : list A) :
  Sorted R l -> Sorted R (insert_sorted after x l).
Proof.
  induction l as [|y l IH]; cbn; intro Hs.
  - constructor; constructor.
  - inversion Hs as [|? ? Hl Hy]; subst.
    destruct (after x y) eqn:E.
    + constructor; [apply IH; assumption|].
      apply insert_sorted_HdRel_by; [apply after_true|]; assumption.
    + constructor; [assumption|]. constructor.
      apply after_false. assumption.
Qed.

Lemma sort_Sorted_by (l : list A) : Sorted R (sort after l).
Proof.
  induction l as [|x l IH]; cbn; [constructor|].
  apply insert_sorted_Sorted_by. assumption.
Qed.
End SortBy.

Lemma Sorted_firstn (A : Type) (R : A -> A -> Prop) (n : nat) (l : list A) :
  Sorted R l -> Sorted R (firstn n l).
Proof.
  revert l. induction n as [|n IH]; intros l Hs; [constructor|].
  destruct l as [|x l]; [constructor|]. cbn [firstn].
  inversion Hs as [|? ? Hl Hx]; subst.
  constructor; [apply IH; assumption|].
  destruct n; [constructor|].
  destruct l as [|y l]; [constructor|]. cbn [firstn].
  inversion Hx. constructor. assumption.
Qed.

Lemma Forall_firstn_of (A : Type) (P : A -> Prop) (n : nat) (l : list A) :
  Forall P l -> Forall P (firstn n l).
Proof.
  intro H. rewrite <- (firstn_skipn n l) in H.
  apply Forall_app in H. apply H.
Qed.

Lemma NoDup_firstn_of (A : Type) (n : nat) (l : list A) :
  NoDup l -> NoDup (firstn n l).
Proof.
  revert l. induction n as [|n IH]; intros l Hn; [constructor|].
  destruct l as [|x l]; [constructor|]. cbn [firstn].
  inversion Hn as [|? ? Hx Hl]; subst.
  constructor; [|apply IH; assumption].
  intro Hin. apply Hx. revert Hin. clear.
  revert l; induction n as [|n IH]; intros l; [intros []|].
  destruct l as [|y l]; [intros []|]. cbn [firstn].
  intros [E|H]; [left; assumption | right; apply IH; assumption].
Qed.

Local Open Scope Q_scope.

Lemma Qsum_nil : Qsum [] = 0.
Proof. reflexivity. Qed.

Lemma Qsum_cons (x : Q) (l : list Q) : Qsum (x :: l) = x + Qsum l.
Proof. reflexivity. Qed.

Lemma Qsum_app (l1 l2 : list Q) : Qsum (l1 ++ l2) == Qsum l1 + Qsum l2.
Proof.
  induction l1 as [|x l1 IH]; cbn [app]; rewrite ?Qsum_cons, ?Qsum_nil;
    [lra|]. rewrite IH. lra.
Qed.

Lemma Qsum_Permutation (l1 l2 : list Q) :
  Permutation l1 l2 -> Qsum l1 == Qsum l2.
Proof.
  induction 1; rewrite ?Qsum_cons; lra.
Qed.

Lemma Qsum_nonneg (l : list Q) : Forall (fun q => 0 <= q) l -> 0 <= Qsum l.
Proof.
  induction 1; rewrite ?Qsum_cons, ?Qsum_nil; lra.
Qed.

Lemma Qsum_firstn (n : nat) (l : list Q) :
  Forall (fun q => 0 <= q) l -> Qsum (firstn n l) <= Qsum l.
Proof.
  intro H. rewrite <- (firstn_skipn n l) at 2. rewrite Qsum_app.
  assert (0 <= Qsum (skipn n l)).
  { apply Qsum_nonneg. rewrite <- (firstn_skipn n l) in H.
    apply Forall_app in H. apply H. }
  lra.
Qed.

Lemma Qsum_scaled (f : Q) (l : list Q) :
  Qsum (map (fun c => c * f) l) == Qsum l * f.
Proof.
  induction l as [|x l IH]; cbn [map]; rewrite ?Qsum_cons, ?Qsum_nil;
    [lra|]. rewrite IH. lra.
Qed.

(** The sum of the values of a map after [map.set(k, v)]. *)
Lemma Qsum_map_set (k : string) (v : Q) (m : jsmap Q) :
  Qsum (map snd (map_set k v m))
  == Qsum (map snd m)
     - match map_get k m with Some c => c | None => 0 end + v.
Proof.
  induction m as [|[k' v'] m IH]; cbn [map_set map_get map snd];
    rewrite ?Qsum_cons, ?Qsum_nil; [lra|].
  destruct (String.eqb k k'); cbn [map snd]; rewrite ?Qsum_cons; [lra|].
  rewrite IH. lra.
Qed.

Lemma Forall_map_set (V : Type) (P : string * V -> Prop) (k : string) (v : V)
  (m : jsmap V) :
  P (k, v) -> Forall P m -> Forall P (map_set k v m).
Proof.
  intros Hv. induction 1 as [|[k' v'] m Hx Hm IH]; cbn.
  - repeat constructor. assumption.
  - destruct (String.eqb k k'); constructor; assumption.
Qed.

Lemma map_get_Forall (V : Type) (P : string * V -> Prop) (k : string) (v : V)
  (m : jsmap V) :
  Forall P m -> map_get k m = Some v -> exists k', P (k', v).
Proof.
  induction 1 as [|[k' v'] m Hx Hm IH]; cbn; [discriminate|].
  destruct (String.eqb k k'); [|assumption].
  intro E; injection E as <-. exists k'. assumption.
Qed.

End SortFacts.

(** The calendar resolver: totality, alignment on 08:00, order. *)
Module Resolver.
Import Js DateService KpiService Spec CalendarResolver.
Local Open Scope Z_scope.



Lemma getQuarterDates_full (year : Z) :
  getQuarterDates 1 year = Returned (full_quarter 1 year 0 2 31)
  /\ getQuarterDates 2 year = Returned (full_quarter 2 year 3 5 30)
  /\ getQuarterDates 3 year = Returned (full_quarter 3 year 6 8 30)
  /\ getQuarterDates 4 year = Returned (full_quarter 4 year 9 11 31).
Proof.
  unfold getQuarterDates, full_quarter, Date.new_Date.
  cbn -[Date.make Date.full_year Date.time_of_day].
  rewrite !make_wf
    by (unfold Date.days_in_month, Date.ms_per_day, Date.time_of_day; lia).
  repeat split.
Qed.

(** The quarter of the clock's month, in the reference year. *)
Lemma getCurrentQuarter_cases (now : Date.t) (year : option Z) :
  let y := default_year now year in
  getCurrentQuarter now year = Returned (full_quarter 1 y 0 2 31)
  \/ getCurrentQuarter now year = Returned (full_quarter 2 y 3 5 30)
  \/ getCurrentQuarter now year = Returned (full_quarter 3 y 6 8 30)
  \/ getCurrentQuarter now year = Returned (full_quarter 4 y 9 11 31).
Proof.
  intro y. unfold getCurrentQuarter. fold y.
  destruct (getQuarterDates_full y) as (H1 & H2 & H3 & H4).
  unfold current_quarter_number.
  repeat match goal with |- context [if ?b then _ else _] => destruct b end;
    tauto.
Qed.

Ltac previous_quarter_dates :=
  unfold getQuarterDates;
  match goal with
  | |- context [quarter_months ?q] =>
      let r := eval vm_compute in (quarter_months q) in
      change (quarter_months q) with r
  end;
  unfold full_quarter, Date.new_Date;
  rewrite !make_wf
    by (unfold Date.days_in_month, Date.ms_per_day, Date.time_of_day; lia);
  reflexivity.

Lemma getPreviousQuarter_cases (now : Date.t) (year : option Z) :
  let y := default_year now year in
  (getCurrentQuarter now year = Returned (full_quarter 1 y 0 2 31)
   /\ getPreviousQuarter now year = Returned (full_quarter 4 (y - 1) 9 11 31))
  \/ (getCurrentQuarter now year = Returned (full_quarter 2 y 3 5 30)
      /\ exists q, (q == 1)%Q /\
         getPreviousQuarter now year = Returned (full_quarter q y 0 2 31))
  \/ (getCurrentQuarter now year = Returned (full_quarter 3 y 6 8 30)
      /\ exists q, (q == 2)%Q /\
         getPreviousQuarter now year = Returned (full_quarter q y 3 5 30))
  \/ (getCurrentQuarter now year = Returned (full_quarter 4 y 9 11 31)
      /\ exists q, (q == 3)%Q /\
         getPreviousQuarter now year = Returned (full_quarter q y 6 8 30)).
Proof.
  intro y. unfold getPreviousQuarter. fold y.
  assert (E : getCurrentQuarter now (Some y) = getCurrentQuarter now year).
  { unfold getCurrentQuarter. reflexivity. }
  rewrite E.
  destruct (getQuarterDates_full (y - 1)) as (_ & _ & _ & H4).
  destruct (getCurrentQuarter_cases now year) as [H|[H|[H|H]]];
    fold y in H; rewrite H; cbn [quarter full_quarter];
    match goal with
    | |- context [Qeq_bool ?a ?b] =>
        let r := eval vm_compute in (Qeq_bool a b) in
        change (Qeq_bool a b) with r
    end; cbv iota;
    [left | right; left | right; right; left | right; right; right].
  - split; [reflexivity | exact H4].
  - split; [reflexivity|]. exists (2 - 1)%Q. split; [reflexivity|].
    previous_quarter_dates.
  - split; [reflexivity|]. exists (3 - 1)%Q. split; [reflexivity|].
    previous_quarter_dates.
  - split; [reflexivity|]. exists (4 - 1)%Q. split; [reflexivity|].
    previous_quarter_dates.
Qed.

Local Open Scope string_scope.

Lemma getCurrentQuarter_year (now : Date.t) (year : option Z) :
  getCurrentQuarter now (Some (default_year now year))
  = getCurrentQuarter now year.
Proof. reflexivity. Qed.

Lemma getPreviousQuarter_year (now : Date.t) (year : option Z) :
  getPreviousQuarter now (Some (default_year now year))
  = getPreviousQuarter now year.
Proof. reflexivity. Qed.

Lemma logged_returned (A : Type) (dates : list Date.t) (k : outcome A)
  (r : A) :
  logged dates k = Returned r ->
  forallb Date.representable dates = true /\ k = Returned r.
Proof. unfold logged. destruct (forallb _ _); [auto | discriminate]. Qed.

Lemma logged_representable (A : Type) (dates : list Date.t)
  (k : outcome A) :
  forallb Date.representable dates = true -> logged dates k = k.
Proof. unfold logged. intros ->. reflexivity. Qed.

Lemma logged_outcome (A : Type) (dates : list Date.t) (k : outcome A) :
  (exists r, k = Returned r) \/ k = Thrown RangeError ->
  (exists r, logged dates k = Returned r)
  \/ logged dates k = Thrown RangeError.
Proof. unfold logged. destruct (forallb _ _); auto. Qed.

Lemma logged_pair (a b : Date.t) :
  forallb Date.representable [a; b] = true ->
  Date.representable a = true /\ Date.representable b = true.
Proof.
  cbn [forallb]. rewrite andb_true_r. intro H.
  apply andb_prop in H. exact H.
Qed.


(** Splits on the selector and on the quarter of the clock, in a goal
    about the resolver's outcome. *)
Ltac resolver_outcome_cases now timePeriod year :=
  unfold getDateRangeForTimePeriod; cbv zeta;
  rewrite ?getCurrentQuarter_year, ?getPreviousQuarter_year;
  destruct (getQuarterDates_full (default_year now year))
    as (Hq1 & Hq2 & Hq3 & Hq4);
  unfold fixed_quarter;
  change (inject_Z 1) with 1%Q; change (inject_Z 2) with 2%Q;
  change (inject_Z 3) with 3%Q; change (inject_Z 4) with 4%Q;
  rewrite ?Hq1, ?Hq2, ?Hq3, ?Hq4;
  destruct (String.eqb_spec timePeriod "current-quarter") as [Ecq|Ncq];
  [ destruct (getCurrentQuarter_cases now year) as [Hc|[Hc|[Hc|Hc]]];
    cbv zeta in Hc; rewrite Hc
  | destruct (String.eqb_spec timePeriod "last-quarter") as [Elq|Nlq];
    [ destruct (getPreviousQuarter_cases now year)
        as [[_ Hp]|[[_ (q & Hq & Hp)]|[[_ (q & Hq & Hp)]|[_ (q & Hq & Hp)]]]];
      cbv zeta in Hp; rewrite Hp
    | destruct (String.eqb_spec timePeriod "q1") as [E1|N1];
      [ | destruct (String.eqb_spec timePeriod "q2") as [E2|N2];
          [ | destruct (String.eqb_spec timePeriod "q3") as [E3|N3];
              [ | destruct (String.eqb_spec timePeriod "q4") as [E4|N4];
                  [ | destruct (String.eqb_spec timePeriod "custom")
                        as [Ec|Nc];
                      [ | destruct (getCurrentQuarter_cases now year)
                            as [Hc|[Hc|[Hc|Hc]]];
                          cbv zeta in Hc; rewrite Hc ] ] ] ] ] ] ];
  cbv beta iota.

(** The same on a hypothesis [H] that the resolver returned: every date
    a log line printed held a time value. *)
Ltac resolver_cases now timePeriod year H :=
  unfold getDateRangeForTimePeriod in H; cbv zeta in H;
  apply logged_returned in H; destruct H as [Hnow H];
  rewrite ?getCurrentQuarter_year, ?getPreviousQuarter_year in H;
  destruct (getQuarterDates_full (default_year now year))
    as (Hq1 & Hq2 & Hq3 & Hq4);
  unfold fixed_quarter in H;
  change (inject_Z 1) with 1%Q in H; change (inject_Z 2) with 2%Q in H;
  change (inject_Z 3) with 3%Q in H; change (inject_Z 4) with 4%Q in H;
  rewrite ?Hq1, ?Hq2, ?Hq3, ?Hq4 in H;
  destruct (String.eqb_spec timePeriod "current-quarter") as [Ecq|Ncq];
  [ destruct (getCurrentQuarter_cases now year) as [Hc|[Hc|[Hc|Hc]]];
    cbv zeta in Hc; rewrite Hc in H; cbv beta iota in H;
    apply logged_returned in H; destruct H as [Hlog H]
  | destruct (String.eqb_spec timePeriod "last-quarter") as [Elq|Nlq];
    [ destruct (getPreviousQuarter_cases now year)
        as [[_ Hp]|[[_ (q & Hq & Hp)]|[[_ (q & Hq & Hp)]|[_ (q & Hq & Hp)]]]];
      cbv zeta in Hp; rewrite Hp in H; cbv beta iota in H;
      apply logged_returned in H; destruct H as [Hlog H]
    | destruct (String.eqb_spec timePeriod "q1") as [E1|N1];
      [ cbv beta iota in H;
        apply logged_returned in H; destruct H as [Hlog H]
      | destruct (String.eqb_spec timePeriod "q2") as [E2|N2];
        [ cbv beta iota in H;
          apply logged_returned in H; destruct H as [Hlog H]
        | destruct (String.eqb_spec timePeriod "q3") as [E3|N3];
          [ cbv beta iota in H;
            apply logged_returned in H; destruct H as [Hlog H]
          | destruct (String.eqb_spec timePeriod "q4") as [E4|N4];
            [ cbv beta iota in H;
              apply logged_returned in H; destruct H as [Hlog H]
            | destruct (String.eqb_spec timePeriod "custom") as [Ec|Nc];
              [ apply logged_returned in H; destruct H as [Hlog H];
                apply logged_pair in Hlog; destruct Hlog as [Hlog1 Hlog2]
              | destruct (getCurrentQuarter_cases now year)
                  as [Hc|[Hc|[Hc|Hc]]];
                cbv zeta in Hc; rewrite Hc in H;
                cbv beta iota in H ] ] ] ] ] ] ].

Lemma at_8AM_wf (d : Date.t) :
  Date.wf d -> (100 <= Date.year d)%Z ->
  at_8AM d = Date.mk (Date.year d) (Date.month d) (Date.day d) Date.eight_am.
Proof.
  intros (Hm & Hd & _) Hy. unfold at_8AM, Date.new_Date, Date.getFullYear,
    Date.getMonth, Date.getDate, Date.full_year.
  destruct (Z.leb_spec (Date.year d) 99) as [?|_]; [lia|].
  rewrite andb_false_r.
  apply make_wf; [assumption | assumption |].
  unfold Date.ms_per_day, Date.eight_am, Date.time_of_day. lia.
Qed.

(** A date in range holds a time value, and so does 08:00 of its day. *)
Lemma date_in_range_representable (d : Date.t) :
  date_in_range d ->
  Date.representable d = true /\ Date.representable (at_8AM d) = true.
Proof.
  intros [Hwf Hy]. rewrite (at_8AM_wf Hwf) by lia.
  destruct Hwf as (Hm & Hd & Hms).
  pose proof (Monthly.days_in_month_bounds (Date.year d) (Date.month d)).
  destruct d as [y m dd ms]. cbn [Date.year Date.month Date.day Date.msec] in *.
  split; apply representable_in_range; try lia.
  unfold Date.eight_am, Date.time_of_day, Date.ms_per_day. lia.
Qed.

(** The dates of the quarters of a reference year in range hold time
    values, and so do those of the last quarter of the year before. *)
Lemma quarter_representable (q : Q) (y sm em ed : Z) :
  year_in_range y ->
  (0 <= sm <= 11)%Z -> (0 <= em <= 11)%Z -> (1 <= ed <= 31)%Z ->
  forallb Date.representable
    [q_startDate (full_quarter q y sm em ed);
     q_endDate (full_quarter q y sm em ed)] = true.
Proof.
  intros Hy Hsm Hem Hed. cbn [forallb q_startDate q_endDate full_quarter].
  rewrite !representable_in_range;
    try reflexivity; try exact Hy; try lia;
    unfold Date.eight_am, Date.time_of_day, Date.ms_per_day; lia.
Qed.

Lemma previous_year_representable (q : Q) (y : Z) :
  year_in_range y ->
  forallb Date.representable
    [q_startDate (full_quarter q (y - 1) 9 11 31);
     q_endDate (full_quarter q (y - 1) 9 11 31)] = true.
Proof.
  intro Hy. cbn [forallb q_startDate q_endDate full_quarter].
  assert (H : (-271821 <= Date.full_year (y - 1) <= 275759)%Z).
  { unfold year_in_range, Date.full_year in *.
    repeat match goal with
           | _ : context [(?a <=? ?b)%Z] |- _ => destruct (Z.leb_spec a b)
           | |- context [(?a <=? ?b)%Z] => destruct (Z.leb_spec a b)
           end; cbn [andb] in *; lia. }
  rewrite !representable_from_May;
    try reflexivity; try exact H; try lia;
    unfold Date.eight_am, Date.time_of_day, Date.ms_per_day; lia.
Qed.

(** [getCurrentQuarter] and [getPreviousQuarter] return for every clock
    and reference year: the quarter numbers they pass to [getQuarterDates]
    are always 1 to 4, so its error is never raised, and the current
    quarter carries the number [getCurrentQuarterNumber] gives.
    [getDateRangeForTimePeriod] never raises that error either: for every
    clock, selector, custom dates and reference year it returns a range or
    throws the [RangeError] of a log line that prints an Invalid Date.  It
    returns a range whenever the clock is a date of the years 100 to
    275759, so are the custom dates that are given, and the reference year
    is between -271820 and 275759. *)
Theorem resolver_outcomes (now : Date.t) (timePeriod : string)
  (customStartDate customEndDate : option Date.t) (year : option Z) :
  (exists q, getCurrentQuarter now year = Returned q
             /\ quarter q = getCurrentQuarterNumber now)
  /\ (exists q, getPreviousQuarter now year = Returned q)
  /\ ((exists r, getDateRangeForTimePeriod now timePeriod customStartDate
                                           customEndDate year = Returned r)
      \/ getDateRangeForTimePeriod now timePeriod customStartDate
                                   customEndDate year = Thrown RangeError)
  /\ (date_in_range now -> year_in_range (default_year now year) ->
      custom_date_in_range customStartDate ->
      custom_date_in_range customEndDate ->
      exists r, getDateRangeForTimePeriod now timePeriod customStartDate
                                          customEndDate year = Returned r).
Proof.
  split; [|split; [|split]].
  - destruct (getQuarterDates_full (default_year now year))
      as (H1 & H2 & H3 & H4).
    unfold getCurrentQuarter, getCurrentQuarterNumber, current_quarter_number.
    repeat match goal with |- context [if ?b then _ else _] => destruct b end;
      rewrite ?H1, ?H2, ?H3, ?H4; eexists; split; reflexivity.
  - destruct (getPreviousQuarter_cases now year)
      as [[_ H]|[[_ (q & _ & H)]|[[_ (q & _ & H)]|[_ (q & _ & H)]]]];
      eexists; exact H.
  - resolver_outcome_cases now timePeriod year;
      apply logged_outcome; try apply logged_outcome;
      left; eexists; reflexivity.
  - intros Hnow Hy Hcs Hce.
    destruct (date_in_range_representable Hnow) as [Rnow Rnow8].
    assert (Rcs : forall d, customStartDate = Some d ->
              Date.representable (custom_at_8AM d) = true).
    { intros d ->. unfold custom_at_8AM.
      destruct (date_in_range_representable Hcs) as [-> ->]. reflexivity. }
    assert (Rce : forall d, customEndDate = Some d ->
              Date.representable (custom_at_8AM d) = true).
    { intros d ->. unfold custom_at_8AM.
      destruct (date_in_range_representable Hce) as [-> ->]. reflexivity. }
    assert (Rjan : Date.representable
                     (Date.new_Date (default_year now year) 0 1 8 0 0 0)
                   = true).
    { unfold Date.new_Date.
      rewrite make_wf
        by (unfold Date.days_in_month, Date.ms_per_day, Date.time_of_day;
            lia).
      apply representable_in_range; try exact Hy; try lia.
      unfold Date.time_of_day, Date.ms_per_day. lia. }
    resolver_outcome_cases now timePeriod year;
      rewrite (@logged_representable _ [now])
        by (cbn [forallb]; rewrite Rnow; reflexivity);
      try (rewrite logged_representable;
           [eexists; reflexivity
           | first [ apply quarter_representable; [exact Hy|lia|lia|lia]
                   | apply previous_year_representable; exact Hy ]]);
      try (eexists; reflexivity).
    all: try (match goal with
              | |- context [full_quarter ?q ?y ?sm ?em ?ed] =>
                  destruct (@logged_pair _ _
                              (@quarter_representable q y sm em ed Hy
                                 ltac:(lia) ltac:(lia) ltac:(lia)))
                    as [Rs Re]
              end;
              match goal with
              | |- context [if ?b then at_8AM _ else _] => destruct b
              end;
              rewrite logged_representable
                by (cbn [forallb]; rewrite Rs, ?Re, ?Rnow8; reflexivity);
              eexists; reflexivity).
    destruct customStartDate as [d1|], customEndDate as [d2|];
      rewrite logged_representable
        by (cbn [forallb];
            rewrite ?(Rcs _ eq_refl), ?(Rce _ eq_refl), ?Rjan, ?Rnow8;
            reflexivity);
      eexists; reflexivity.
Qed.


Lemma adjust_wf (d : Date.t) :
  Date.wf d ->
  adjustStartDateToCycleTime d
  = Date.mk (Date.year d) (Date.month d) (Date.day d) Date.eight_am.
Proof.
  intros (Hm & Hd & _). unfold adjustStartDateToCycleTime, Date.setHours.
  apply make_wf; [assumption | assumption |].
  unfold Date.ms_per_day, Date.eight_am, Date.time_of_day. lia.
Qed.

(** For every selector other than [custom], the start of the resolved
    range is left as it is by [adjustStartDateToCycleTime]: the operations
    that adjust the start ([calculateKPIs],
    [calculateProductionVsTargetData]) and those that do not query the same
    window. *)
Theorem quarter_starts_need_no_adjustment (now : Date.t) (timePeriod : string)
  (customStartDate customEndDate : option Date.t) (year : option Z)
  (r : DateRange) :
  timePeriod <> "custom" ->
  getDateRangeForTimePeriod now timePeriod customStartDate customEndDate year
  = Returned r ->
  adjustStartDateToCycleTime (startDate r) = startDate r
  /\ forall (m : Method) (machine : string) (userID : bool),
       rows_request m machine (adjustStartDateToCycleTime (startDate r))
                    (endDate r) userID
       = rows_request m machine (startDate r) (endDate r) userID.
Proof.
  intro Hcustom.
  assert (Hgoal : forall y sm, (0 <= sm <= 11)%Z ->
            adjustStartDateToCycleTime (Date.mk y sm 1 Date.eight_am)
            = Date.mk y sm 1 Date.eight_am).
  { intros y sm Hsm. apply adjust_wf. unfold Date.wf.
    cbn [Date.year Date.month Date.day Date.msec].
    pose proof (Monthly.days_in_month_bounds y sm).
    unfold Date.eight_am, Date.time_of_day, Date.ms_per_day. lia. }
  intro H.
  resolver_cases now timePeriod year H; try congruence;
    injection H as <-;
    cbn [startDate endDate q_startDate full_quarter];
    rewrite !Hgoal by lia; split; reflexivity.
Qed.

Lemma leb_floor_8AM (a b : Date.t) :
  Date.msec a = Date.eight_am -> Date.leb a b = true ->
  Date.leb a (Date.mk (Date.year b) (Date.month b) (Date.day b) Date.eight_am)
  = true.
Proof.
  unfold Date.leb, Date.compare. cbn [Date.year Date.month Date.day Date.msec].
  intros ->.
  destruct (Date.year a ?= Date.year b)%Z; try tauto.
  destruct (Date.month a ?= Date.month b)%Z; try tauto.
  destruct (Date.day a ?= Date.day b)%Z; tauto.
Qed.

(** For the six quarter selectors the resolved range is ordered: its
    start is not after its end, also when the current quarter is cut at
    today 08:00. *)
Theorem quarter_ranges_are_ordered (now : Date.t) (timePeriod : string)
  (customStartDate customEndDate : option Date.t) (year : option Z)
  (r : DateRange) :
  Date.wf now -> (100 <= Date.year now)%Z ->
  In timePeriod quarter_selectors ->
  getDateRangeForTimePeriod now timePeriod customStartDate customEndDate year
  = Returned r ->
  Date.leb (startDate r) (endDate r) = true.
Proof.
  intros Hwf Hyear Hin H. unfold quarter_selectors in Hin.
  resolver_cases now timePeriod year H;
    try (exfalso; cbn in Hin; intuition congruence);
    injection H as <-;
    cbn [startDate endDate q_startDate q_endDate full_quarter].
  all: try (unfold Date.leb, Date.compare;
            cbn [Date.year Date.month Date.day Date.msec];
            rewrite Z.compare_refl; reflexivity).
  all: destruct (Date.lte _ now) eqn:Ea; cbn [andb];
    [destruct (Date.lte now _)|];
    try (unfold Date.leb, Date.compare;
         cbn [Date.year Date.month Date.day Date.msec];
         rewrite Z.compare_refl; reflexivity).
  all: unfold Date.lte in Ea; apply andb_prop in Ea; destruct Ea as [_ Ea];
    rewrite at_8AM_wf by assumption; apply leb_floor_8AM;
    [reflexivity | assumption].
Qed.


End Resolver.

(** The query window as text. *)
Module Windows.
Import Js DateService KpiService Spec CalendarResolver.
Local Open Scope Z_scope.
Local Open Scope string_scope.

(** A date at 08:00 local time is written into the query with the
    fixed offset of five and a half hours added to its local time: the
    same calendar day, at 13:30:00. *)
Theorem formatDateForMongoDB_at_8AM (d : Date.t) :
  Date.wf d -> Date.msec d = Date.eight_am ->
  formatDateForMongoDB d
  = Z_to_string (Date.year d) ++ "-" ++ pad2 (Date.month d + 1) ++ "-"
    ++ pad2 (Date.day d) ++ " 13:30:00".
Proof.
  intros (Hm & Hd & _) Hms. unfold formatDateForMongoDB, Date.add_ms.
  rewrite Hms. rewrite make_wf; [|assumption|assumption|].
  - reflexivity.
  - unfold Date.eight_am, Date.time_of_day, istOffset, Date.ms_per_day. lia.
Qed.

End Windows.

(** [calculateTotalDowntime]. *)
Module Downtime.
Import Js DateService KpiService Spec QFacts SortFacts.
Local Open Scope list_scope.
Local Open Scope Q_scope.

Lemma round2_nonneg (x : Q) : 0 <= x -> 0 <= round2 x.
Proof.
  intro H. unfold round2, Math_round.
  assert (Hlo : (0 <= Qfloor (x * 100 + (1 # 2)))%Z).
  { change 0%Z with (Qfloor 0). apply Qfloor_resp_le. lra. }
  set (z := Qfloor (x * 100 + (1 # 2))) in *.
  change (inject_Z z / 100) with (inject_Z z * (1 # 100)).
  assert (H1 : inject_Z 0 <= inject_Z z) by (rewrite <- Zle_Qle; assumption).
  change (inject_Z 0) with 0 in H1. lra.
Qed.

Section WithHost.
Context {host : Host}.

Lemma valid_positive_pos (f : Data -> value) (row : MongoDataRow) (q : Q) :
  valid_positive f row = Some q -> 0 < q.
Proof.
  unfold valid_positive. destruct (valid_number f row) as [q'|]; [|discriminate].
  destruct (Qltb 0 q') eqn:E; [|discriminate].
  intro H. injection H as <-. apply Qltb_lt. exact E.
Qed.

Lemma add_positive_nonneg (f : Data -> value) (rows : list MongoDataRow)
  (acc : Q) :
  0 <= acc -> 0 <= fold_left (add_positive f) rows acc.
Proof.
  revert acc. induction rows as [|row rows IH]; intros acc H; [assumption|].
  cbn [fold_left]. apply IH. unfold add_positive.
  destruct (valid_positive f row) as [q|] eqn:E; [|assumption].
  apply valid_positive_pos in E. lra.
Qed.

Lemma add_positive_none (f : Data -> value) (rows : list MongoDataRow)
  (acc : Q) :
  Forall (fun row => valid_positive f row = None) rows ->
  fold_left (add_positive f) rows acc = acc.
Proof.
  intro H. revert acc. induction H as [|row rows Hrow _ IH]; intro acc;
    [reflexivity|].
  cbn [fold_left]. rewrite IH. unfold add_positive. rewrite Hrow. reflexivity.
Qed.

(** The downtime total is never negative, and it is zero when no
    document of the mould carries a positive numeric downtime. *)
Theorem total_downtime_is_never_negative (documents : list MongoDataRow)
  (mould : string) :
  0 <= calculateTotalDowntime documents mould
  /\ (Forall (fun doc => valid_positive D9 doc = None)
             (filter (mould_filter mould) documents) ->
      calculateTotalDowntime documents mould == 0).
Proof.
  unfold calculateTotalDowntime. cbv zeta. split.
  - apply round2_nonneg. apply Qdiv_nonneg; [|discriminate].
    apply add_positive_nonneg. apply Qle_refl.
  - intro H. rewrite add_positive_none by assumption. reflexivity.
Qed.

End WithHost.
End Downtime.

(** The tallies of rejections by reason and what is listed from them. *)
Module Ranking.
Import Js DateService KpiService Spec QFacts SortFacts.
Local Open Scope string_scope.
Local Open Scope list_scope.
Local Open Scope Q_scope.

Lemma Qsum_map_ext (A : Type) (f g : A -> Q) (l : list A) :
  (forall x, f x == g x) -> Qsum (map f l) == Qsum (map g l).
Proof.
  intro H. induction l as [|x l IH]; cbn [map]; rewrite ?Qsum_cons;
    [reflexivity|]. rewrite IH, H. reflexivity.
Qed.

(** Crediting [q] more rejections to [reason] keeps a tally consistent. *)
Lemma credit_consistent (reason : string) (q v : Q) (m : jsmap Q) (total : Q) :
  0 < q ->
  v == match map_get reason m with Some c => c | None => 0 end + q ->
  consistent_tally (m, total) ->
  consistent_tally (map_set reason v m, total + q).
Proof.
  intros Hq Hv (Hn & Hp & Hs). cbn [fst snd] in *. repeat split; cbn [fst snd].
  - apply Monthly.map_set_NoDup. assumption.
  - apply Forall_map_set; [|assumption]. cbn [snd]. rewrite Hv.
    destruct (map_get reason m) as [c|] eqn:E; [|lra].
    destruct (@map_get_Forall Q _ reason c m Hp E) as (k' & Hc).
    cbn [snd] in Hc. lra.
  - rewrite Qsum_map_set, Hs, Hv.
    destruct (map_get reason m); lra.
Qed.

Section WithHost.
Context {host : Host}.

Lemma top_reason_step_consistent (st : jsmap Q * Q) (doc : MongoDataRow) :
  consistent_tally st -> consistent_tally (top_reason_step st doc).
Proof.
  destruct st as [m total]. intro H. unfold top_reason_step.
  destruct (negb (truthy (fld D52 doc)) || isNaN (Number (fld D52 doc))
            || le0 (Number (fld D52 doc))) eqn:E; [assumption|].
  destruct (Number (fld D52 doc)) as [|q]; [assumption|].
  apply orb_false_iff in E. destruct E as [_ E]. cbn [le0] in E.
  apply Qleb_gt in E.
  cbv zeta.
  match goal with |- context [map_get ?r m] => set (reason := r) end.
  destruct (map_get reason m) as [c|] eqn:Eg;
    apply credit_consistent; try assumption; rewrite Eg; lra.
Qed.

Lemma breakdown_step_consistent (dateRange : DateRange) (st : jsmap Q * Q)
  (row : MongoDataRow) :
  consistent_tally st -> consistent_tally (breakdown_step dateRange st row).
Proof.
  destruct st as [m total]. intro H. unfold breakdown_step.
  destruct (negb (truthy (timestamp row))); [assumption|].
  destruct (Date_new (timestamp row)) as [ts|]; [|assumption].
  destruct (outside dateRange ts); [assumption|].
  cbv zeta.
  destruct (negb (present (fld D52 row))); [assumption|].
  destruct (Number (fld D52 row)) as [|q]; [assumption|].
  destruct (Qleb q 0) eqn:E; [assumption|]. apply Qleb_gt in E.
  apply credit_consistent; [assumption | reflexivity | assumption].
Qed.

Lemma fold_consistent (A : Type) (step : jsmap Q * Q -> A -> jsmap Q * Q)
  (l : list A) (st : jsmap Q * Q) :
  (forall st x, consistent_tally st -> consistent_tally (step st x)) ->
  consistent_tally st -> consistent_tally (fold_left step l st).
Proof.
  intro Hstep. revert st. induction l as [|x l IH]; intros st H; [assumption|].
  cbn [fold_left]. apply IH, Hstep, H.
Qed.

Lemma empty_tally_consistent : consistent_tally ([], 0).
Proof.
  unfold consistent_tally. cbn [fst snd map].
  split; [constructor | split; [constructor | reflexivity]].
Qed.

Lemma count_after_false (A : Type) (count : A -> Q) (x y : A) :
  Qltb (count x) (count y) = false -> count_ge count x y.
Proof. intro H. apply Qltb_ge in H. exact H. Qed.

Lemma count_after_true (A : Type) (count : A -> Q) (x y : A) :
  Qltb (count x) (count y) = true -> count_ge count y x.
Proof. intro H. apply Qltb_lt in H. apply Qlt_le_weak. exact H. Qed.

(** The reasons [calculateTopRejectionReasons] returns: at most three,
    pairwise distinct, each with a positive count, in descending order of
    count, and their counts add up to no more than the grand total of the
    rejections counted. *)
Theorem top_rejection_reasons_shape (documents : list MongoDataRow)
  (mould : string) :
  let top := calculateTopRejectionReasons documents mould in
  (List.length top <= 3)%nat
  /\ NoDup (map reason top)
  /\ Forall (fun r => 0 < count r) top
  /\ Sorted (count_ge count) top
  /\ Qsum (map count top) <= snd (top_reason_aggregate documents mould).
Proof.
  assert (H : consistent_tally (top_reason_aggregate documents mould)).
  { apply fold_consistent;
      [apply top_reason_step_consistent | apply empty_tally_consistent]. }
  unfold calculateTopRejectionReasons.
  destruct (top_reason_aggregate documents mould) as [m total].
  destruct H as (Hn & Hp & Hs). cbn [fst snd] in *.
  set (f := fun '(reason, count) => _).
  assert (Hperm : Permutation (sort count_after (map f m)) (map f m))
    by apply Monthly.sort_Permutation.
  assert (Hreason : map reason (map f m) = map fst m).
  { rewrite map_map. apply map_ext. intros [k v]. reflexivity. }
  assert (Hcount : map count (map f m) = map snd m).
  { rewrite map_map. apply map_ext. intros [k v]. reflexivity. }
  assert (Hpos : Forall (fun r => 0 < count r) (sort count_after (map f m))).
  { eapply Permutation_Forall; [symmetry; exact Hperm|].
    apply Forall_map. eapply Forall_impl; [|exact Hp].
    intros [k v]. cbn. tauto. }
  cbv zeta. unfold slice0. repeat split.
  - apply firstn_le_length.
  - rewrite <- firstn_map. apply NoDup_firstn_of.
    eapply Permutation_NoDup;
      [symmetry; apply Permutation_map; exact Hperm|].
    rewrite Hreason. assumption.
  - apply Forall_firstn_of. assumption.
  - apply Sorted_firstn. apply sort_Sorted_by.
    + intros x y. apply count_after_false.
    + intros x y. apply count_after_true.
  - rewrite <- firstn_map.
    eapply Qle_trans; [apply Qsum_firstn|].
    + apply Forall_map. eapply Forall_impl; [|exact Hpos].
      intros r Hr. apply Qlt_le_weak. exact Hr.
    + rewrite (Qsum_Permutation (Permutation_map count Hperm)).
      rewrite Hcount, Hs. apply Qle_refl.
Qed.

Lemma Qsum_member (l : list Q) (x : Q) :
  Forall (fun y => 0 <= y) l -> In x l -> x <= Qsum l.
Proof.
  intro H. induction H as [|y l Hy Hl IH]; [intros []|].
  rewrite Qsum_cons. pose proof (Qsum_nonneg Hl) as Hs.
  intros [->|Hin]; [lra|]. specialize (IH Hin). lra.
Qed.

(** The share of a positive count in a total that is no smaller. *)
Lemma share_bounds (c t : Q) :
  0 < c -> c <= t -> 0 < c / t * 100 /\ c / t * 100 <= 100.
Proof.
  intros Hc Hle. assert (Ht : 0 < t) by lra.
  assert (H0 : 0 < c / t) by (apply Qlt_shift_div_l; lra).
  assert (H1 : c / t <= 1) by (apply Qle_shift_div_r; lra).
  set (x := c / t) in *. clearbody x. split; lra.
Qed.

Lemma share_mono (c1 c2 t : Q) :
  0 < t -> c1 <= c2 -> c1 / t * 100 <= c2 / t * 100.
Proof.
  intros Ht Hle.
  assert (H : c1 / t <= c2 / t).
  { apply Qle_shift_div_l; [exact Ht|].
    assert (E : c1 / t * t == c1) by (field; lra). rewrite E. exact Hle. }
  set (x := c1 / t) in *. set (y := c2 / t) in *. clearbody x y. lra.
Qed.

Lemma Sorted_In_impl (A : Type) (R R' : A -> A -> Prop) (l : list A) :
  (forall x y, In x l -> In y l -> R x y -> R' x y) ->
  Sorted R l -> Sorted R' l.
Proof.
  intros Himpl Hs. induction Hs as [|a l Hs IH Hd]; [constructor|].
  constructor.
  - apply IH. intros x y Hx Hy. apply Himpl; right; assumption.
  - destruct Hd as [|b l Hab]; constructor.
    apply Himpl; [left; reflexivity | right; left; reflexivity | exact Hab].
Qed.

(** The rows [calculateDefectReasonBreakdown] builds from the documents:
    distinct reasons; counts that are positive, none above the total of
    the rejections counted, in descending order; percentages above 0 and
    at most 100, in descending order too.  When the rejection counts of
    the documents are whole numbers and the total is at most 2^53 (the
    range in which the additions are exact), the counts of the rows add up
    to that total. *)
Theorem breakdown_rows_add_up (dateRange : DateRange)
  (mouldFilteredDocs : list MongoDataRow) :
  let st := breakdown_aggregate dateRange mouldFilteredDocs in
  let rows := breakdown_rows (fst st) (snd st) in
  NoDup (map dr_name rows)
  /\ Forall (fun r => 0 < dr_count r /\ dr_count r <= snd st) rows
  /\ Forall (fun r => 0 < dr_value r /\ dr_value r <= 100) rows
  /\ Sorted (count_ge dr_count) rows
  /\ Sorted (count_ge dr_value) rows
  /\ (Forall (fun doc => whole (counted doc)) mouldFilteredDocs ->
      snd st <= inject_Z (2 ^ 53) ->
      Qsum (map dr_count rows) == snd st).
Proof.
  assert (H : consistent_tally
                (breakdown_aggregate dateRange mouldFilteredDocs)).
  { apply fold_consistent;
      [apply breakdown_step_consistent | apply empty_tally_consistent]. }
  destruct (breakdown_aggregate dateRange mouldFilteredDocs) as [m total].
  destruct H as (Hn & Hp & Hs). cbn [fst snd] in *.
  unfold breakdown_rows.
  set (f := fun '(reason, count) => _).
  assert (Hperm : Permutation (sort dr_count_after (map f m)) (map f m))
    by apply Monthly.sort_Permutation.
  assert (Hname : map dr_name (map f m) = map fst m).
  { rewrite map_map. apply map_ext. intros [k v]. reflexivity. }
  assert (Hcount : map dr_count (map f m) = map snd m).
  { rewrite map_map. apply map_ext. intros [k v]. reflexivity. }
  assert (Hle : Forall (fun e : string * Q => 0 < snd e /\ snd e <= total) m).
  { apply Forall_forall. intros e He. split.
    - exact (proj1 (Forall_forall _ _) Hp e He).
    - rewrite <- Hs. apply Qsum_member.
      + apply Forall_map. eapply Forall_impl; [|exact Hp].
        intros x Hx. apply Qlt_le_weak. exact Hx.
      + apply in_map. exact He. }
  assert (Hrows : Forall (fun r => (0 < dr_count r /\ dr_count r <= total)
                                   /\ (0 < dr_value r /\ dr_value r <= 100)
                                   /\ 0 < total
                                   /\ dr_value r = dr_count r / total * 100)
                         (map f m)).
  { apply Forall_map. eapply Forall_impl; [|exact Hle].
    intros [k v] [Hv Hvt]. unfold f. cbn [snd dr_count dr_value] in *.
    assert (Ht : 0 < total) by lra.
    apply Qltb_lt in Ht as Ht'. rewrite Ht'.
    split; [split; assumption|]. split; [apply share_bounds; assumption|].
    split; [exact Ht | reflexivity]. }
  assert (Hsorted : Forall (fun r => (0 < dr_count r /\ dr_count r <= total)
                                     /\ (0 < dr_value r /\ dr_value r <= 100)
                                     /\ 0 < total
                                     /\ dr_value r = dr_count r / total * 100)
                           (sort dr_count_after (map f m))).
  { eapply Permutation_Forall; [symmetry; exact Hperm | exact Hrows]. }
  assert (Hdesc : Sorted (count_ge dr_count) (sort dr_count_after (map f m))).
  { apply sort_Sorted_by.
    - intros x y. apply count_after_false.
    - intros x y. apply count_after_true. }
  cbv zeta. split; [|split; [|split; [|split; [|split]]]].
  - eapply Permutation_NoDup;
      [symmetry; apply Permutation_map; exact Hperm|].
    rewrite Hname. assumption.
  - eapply Forall_impl; [|exact Hsorted]. intros r (H1 & _). exact H1.
  - eapply Forall_impl; [|exact Hsorted]. intros r (_ & H2 & _). exact H2.
  - exact Hdesc.
  - eapply Sorted_In_impl; [|exact Hdesc].
    intros x y Hx Hy Hxy. unfold count_ge in *.
    destruct (proj1 (Forall_forall _ _) Hsorted x Hx) as (_ & _ & Ht & ->).
    destruct (proj1 (Forall_forall _ _) Hsorted y Hy) as (_ & _ & _ & ->).
    apply share_mono; assumption.
  - intros _ _.
    rewrite (Qsum_Permutation (Permutation_map dr_count Hperm)).
    rewrite Hcount. exact Hs.
Qed.

End WithHost.
End Ranking.

(** The synthesizers of the degraded mode. *)
Module Synthetic.
Import Js DateService KpiService Spec QFacts SortFacts Ranking.
Local Open Scope string_scope.
Local Open Scope list_scope.
Local Open Scope Q_scope.

Lemma Math_round_le (x : Q) : Math_round x <= x + (1 # 2).
Proof. unfold Math_round. apply Qfloor_le. Qed.

Lemma Math_round_nonneg (x : Q) : 0 <= x -> 0 <= Math_round x.
Proof.
  intro H. unfold Math_round. change 0 with (inject_Z 0) at 1.
  rewrite <- Zle_Qle. change 0%Z with (Qfloor 0).
  apply Qfloor_resp_le. lra.
Qed.

(** Rounding a number that is at most a whole number does not go above
    that whole number. *)
Lemma Math_round_le_whole (x : Q) (z : Z) :
  x <= inject_Z z -> Math_round x <= inject_Z z.
Proof.
  intro H. unfold Math_round. rewrite <- Zle_Qle.
  pose proof (Qfloor_le (x + (1 # 2))) as Hf.
  assert (Hlt : inject_Z (Qfloor (x + (1 # 2))) < inject_Z (z + 1)).
  { rewrite inject_Z_plus. change (inject_Z 1) with 1. lra. }
  rewrite <- Zlt_Qlt in Hlt. lia.
Qed.

Lemma step_before_last (t : Q) (len i : Z) (a : Q)
  (acc : list DefectReasonData) (name : string) (pct : Q) :
  i <> (len - 1)%Z ->
  test_reason_step t len (a, acc) (i, (name, pct))
  = if Qltb 0 (Math_round (t * pct))
    then (a + Math_round (t * pct),
          acc ++ [ {| dr_name := name;
                      dr_value := Math_round (t * pct) / t * 100;
                      dr_count := Math_round (t * pct) |} ])
    else (a + Math_round (t * pct), acc).
Proof.
  intro H. unfold test_reason_step.
  destruct (Z.eqb_spec i (len - 1)) as [E|_]; [contradiction|]. reflexivity.
Qed.

Lemma step_last (t : Q) (len : Z) (a : Q) (acc : list DefectReasonData)
  (name : string) (pct : Q) :
  test_reason_step t len (a, acc) ((len - 1)%Z, (name, pct))
  = if Qltb 0 (t - a)
    then (a, acc ++ [ {| dr_name := name;
                         dr_value := (t - a) / t * 100;
                         dr_count := t - a |} ])
    else (a, acc).
Proof.
  unfold test_reason_step. rewrite Z.eqb_refl. reflexivity.
Qed.

Lemma prefix_steps (t : Q) (len : Z) (l : list (string * Q)) :
  0 <= t -> Forall (fun p => 0 <= snd p) l ->
  forall (i : Z) (a : Q) (acc : list DefectReasonData),
  (i + Z.of_nat (List.length l) <= len - 1)%Z ->
  well_formed_rows t acc ->
  let st := fold_left (test_reason_step t len) (indexed_from i l) (a, acc) in
  fst st == a + rounded_shares t l
  /\ Qsum (map dr_count (snd st))
     == Qsum (map dr_count acc) + rounded_shares t l
  /\ well_formed_rows t (snd st).
Proof.
  intros Ht Hl. induction Hl as [|[name pct] l Hp Hl IH];
    intros i a acc Hi Hacc; cbn [indexed_from fold_left].
  - unfold rounded_shares. cbn [map fst snd]. rewrite Qsum_nil.
    repeat split; try lra. assumption.
  - cbn [List.length] in Hi. cbn [snd] in Hp.
    rewrite step_before_last by lia.
    pose proof (Math_round_nonneg (Qmult_le_0_compat _ _ Ht Hp)) as Hr.
    unfold rounded_shares. cbn [map snd]. rewrite Qsum_cons.
    fold (rounded_shares t l).
    destruct (Qltb 0 (Math_round (t * pct))) eqn:E.
    + apply Qltb_lt in E.
      destruct (IH (i + 1)%Z (a + Math_round (t * pct))
                  (acc ++ [ {| dr_name := name;
                               dr_value := Math_round (t * pct) / t * 100;
                               dr_count := Math_round (t * pct) |} ]))
        as (H1 & H2 & H3).
      * lia.
      * apply Forall_app. split; [assumption|].
        constructor; [|constructor].
        split; cbn [dr_count dr_value]; [assumption | reflexivity].
      * cbv zeta in *. rewrite H1, H2. rewrite map_app, Qsum_app.
        cbn [map dr_count]. rewrite Qsum_cons, Qsum_nil.
        repeat split; try lra. assumption.
    + apply Qltb_ge in E.
      destruct (IH (i + 1)%Z (a + Math_round (t * pct)) acc)
        as (H1 & H2 & H3); [lia | assumption |].
      cbv zeta in *. rewrite H1, H2.
      repeat split; try lra. assumption.
Qed.

(** Once every reason but the last has its rounded share, the last one
    takes the remainder: the counts add up to the total whenever the
    rounded shares have not gone past it. *)
Lemma distribution_adds_up (t : Q) (init : list (string * Q)) (name : string)
  (pct : Q) :
  0 < t -> Forall (fun p => 0 <= snd p) init -> rounded_shares t init <= t ->
  let distribution := init ++ [(name, pct)] in
  let rows :=
    snd (fold_left
           (test_reason_step t (Z.of_nat (List.length distribution)))
           (indexed distribution) (0, [])) in
  Qsum (map dr_count rows) == t /\ well_formed_rows t rows.
Proof.
  intros Ht Hinit Hle distribution rows. subst rows distribution.
  unfold indexed. rewrite PostEvent.indexed_from_app, fold_left_app.
  rewrite length_app. cbn [List.length indexed_from fold_left].
  set (len := Z.of_nat (List.length init + 1)).
  assert (Hlen : (0 + Z.of_nat (List.length init))%Z = (len - 1)%Z)
    by (unfold len; lia).
  destruct (@prefix_steps t len init (Qlt_le_weak _ _ Ht) Hinit 0%Z 0 [])
    as (H1 & H2 & H3); [lia | constructor |].
  cbv zeta in H1, H2, H3.
  destruct (fold_left (test_reason_step t len) (indexed_from 0 init) (0, []))
    as [a acc].
  cbn [fst snd map] in H1, H2, H3. rewrite Qsum_nil in H2.
  rewrite Hlen, step_last.
  destruct (Qltb 0 (t - a)) eqn:E; cbn [snd].
  - apply Qltb_lt in E. split.
    + rewrite map_app, Qsum_app. cbn [map dr_count].
      rewrite Qsum_cons, Qsum_nil, H2. lra.
    + apply Forall_app. split; [assumption|].
      constructor; [|constructor].
      split; cbn [dr_count dr_value]; [assumption | reflexivity].
  - apply Qltb_ge in E. split; [|assumption]. rewrite H2. lra.
Qed.

Lemma reasonDistribution_cases (t : Q) :
  (t <= 100 /\ reasonDistribution t = reasonDistribution 1)
  \/ (100 < t <= 500 /\ reasonDistribution t = reasonDistribution 101)
  \/ (500 < t /\ reasonDistribution t = reasonDistribution 501).
Proof.
  unfold reasonDistribution.
  destruct (Qltb 100 t) eqn:E1; destruct (Qltb 500 t) eqn:E2;
    try apply Qltb_lt in E1; try apply Qltb_lt in E2;
    try apply Qltb_ge in E1; try apply Qltb_ge in E2.
  - right; right. split; [assumption | reflexivity].
  - right; left. split; [split; assumption | reflexivity].
  - exfalso. lra.
  - left. split; [assumption | reflexivity].
Qed.

Ltac bound_rounds :=
  repeat match goal with
         | |- context [Math_round ?x] =>
             let H := fresh "Hround" in
             let r := fresh "r" in
             pose proof (Math_round_le x) as H;
             set (r := Math_round x) in *; clearbody r
         end.

(** The rounded shares given out before the last reason never exceed a
    whole positive total. *)
Lemma rounded_shares_fit (n : positive) :
  let t := inject_Z (Z.pos n) in
  exists init name pct,
    reasonDistribution t = init ++ [(name, pct)]
    /\ Forall (fun p => 0 <= snd p) init
    /\ rounded_shares t init <= t.
Proof.
  intro t.
  assert (Ht : 1 <= t).
  { unfold t. change 1 with (inject_Z 1). rewrite <- Zle_Qle. lia. }
  destruct (reasonDistribution_cases t) as [[Hc ->]|[[Hc ->]|[Hc ->]]].
  - exists (firstn 1 (reasonDistribution 1)), "Black Spot", (139 # 1000).
    split; [reflexivity|]. split.
    + repeat constructor; discriminate.
    + unfold rounded_shares.
      vm_compute (firstn 1 (reasonDistribution 1)).
      cbn [map snd]. rewrite Qsum_cons, Qsum_nil.
      assert (H : Math_round (t * (861 # 1000)) <= t).
      { apply Math_round_le_whole. fold t. lra. }
      lra.
  - eexists (firstn 3 (reasonDistribution 101)), _, _.
    split; [vm_compute; reflexivity|]. split.
    + vm_compute (firstn 3 (reasonDistribution 101)).
      repeat constructor; discriminate.
    + unfold rounded_shares.
      vm_compute (firstn 3 (reasonDistribution 101)).
      cbn [map snd]. rewrite !Qsum_cons, Qsum_nil.
      bound_rounds. lra.
  - eexists (firstn 5 (reasonDistribution 501)), _, _.
    split; [vm_compute; reflexivity|]. split.
    + vm_compute (firstn 5 (reasonDistribution 501)).
      repeat constructor; discriminate.
    + unfold rounded_shares.
      vm_compute (firstn 5 (reasonDistribution 501)).
      cbn [map snd]. rewrite !Qsum_cons, Qsum_nil.
      bound_rounds. lra.
Qed.

Lemma whole_plus (a b : Q) : whole a -> whole b -> whole (a + b).
Proof.
  intros [x Hx] [y Hy]. exists (x + y)%Z.
  rewrite inject_Z_plus, Hx, Hy. reflexivity.
Qed.

Lemma whole_minus (a b : Q) : whole a -> whole b -> whole (a - b).
Proof.
  intros [x Hx] [y Hy]. exists (x - y)%Z.
  unfold Z.sub. rewrite inject_Z_plus, inject_Z_opp, Hx, Hy. reflexivity.
Qed.

Lemma whole_Math_round (x : Q) : whole (Math_round x).
Proof. eexists. reflexivity. Qed.

(** The counts the distribution hands out are whole numbers when the
    total is. *)
Lemma test_reason_steps_whole (t : Q) (len : Z)
  (l : list (Z * (string * Q))) (st : Q * list DefectReasonData) :
  whole t -> whole (fst st) ->
  Forall (fun r => whole (dr_count r)) (snd st) ->
  whole (fst (fold_left (test_reason_step t len) l st))
  /\ Forall (fun r => whole (dr_count r))
            (snd (fold_left (test_reason_step t len) l st)).
Proof.
  intro Ht. revert st.
  induction l as [|[i [name pct]] l IH]; intros [a acc] Ha Hacc;
    cbn [fold_left]; [split; assumption|].
  cbn [fst snd] in Ha, Hacc.
  apply IH; unfold test_reason_step;
    destruct (i =? len - 1)%Z;
    match goal with
    | |- context [if Qltb 0 ?c then _ else _] => destruct (Qltb 0 c)
    end; cbn [fst snd];
    try assumption;
    try (apply whole_plus; [assumption | apply whole_Math_round]);
    apply Forall_app; (split; [assumption|]);
    (constructor; [|constructor]); cbn [dr_count];
    first [apply whole_minus; assumption | apply whole_Math_round].
Qed.

(** The synthetic breakdown of a whole positive number of rejections:
    the counts are whole numbers, positive and none above the total,
    listed in descending order; the percentages are above 0 and at most
    100; and, the total being at most 2^53 (the range in which the
    additions are exact), the counts add up to the total exactly.  For a
    total that is not positive there are no rows. *)
Theorem synthetic_breakdown_adds_up (mould : string) (n : positive) :
  let total := inject_Z (Z.pos n) in
  let rows := generateTestDefectReasonData mould total in
  Forall (fun r => 0 < dr_count r /\ dr_count r <= total) rows
  /\ Forall (fun r => whole (dr_count r)) rows
  /\ Forall (fun r => 0 < dr_value r /\ dr_value r <= 100) rows
  /\ Sorted (count_ge dr_count) rows
  /\ ((Z.pos n <= 2 ^ 53)%Z -> Qsum (map dr_count rows) == total)
  /\ forall t, t <= 0 -> generateTestDefectReasonData mould t = [].
Proof.
  intros total rows.
  assert (Ht : 0 < total).
  { unfold total. change 0 with (inject_Z 0). rewrite <- Zlt_Qlt. lia. }
  destruct (rounded_shares_fit n) as (init & name & pct & Hd & Hinit & Hfit).
  fold total in Hd, Hfit.
  destruct (@distribution_adds_up total init name pct Ht Hinit Hfit)
    as (Hsum & Hrows).
  assert (Hwhole :
    Forall (fun r => whole (dr_count r))
      (snd (fold_left
              (test_reason_step total
                 (Z.of_nat (List.length (init ++ [(name, pct)]))))
              (indexed (init ++ [(name, pct)])) (0, [])))).
  { apply test_reason_steps_whole.
    - exists (Z.pos n). reflexivity.
    - exists 0%Z. reflexivity.
    - constructor. }
  subst rows. unfold generateTestDefectReasonData.
  apply Qleb_gt in Ht. rewrite Ht. apply Qleb_gt in Ht.
  cbv zeta. rewrite Hd.
  set (built := snd (fold_left _ _ _)) in *.
  pose proof (Monthly.sort_Permutation dr_count_after built) as Hperm.
  assert (Hwf : well_formed_rows total (sort dr_count_after built)).
  { eapply Permutation_Forall; [symmetry; exact Hperm | exact Hrows]. }
  assert (Hcounts : Qsum (map dr_count (sort dr_count_after built)) == total).
  { rewrite (Qsum_Permutation (Permutation_map dr_count Hperm)). exact Hsum. }
  assert (Hbound : Forall (fun r => 0 < dr_count r /\ dr_count r <= total)
                          (sort dr_count_after built)).
  { apply Forall_forall. intros r Hr.
    destruct (proj1 (Forall_forall _ _) Hwf r Hr) as [Hpos _].
    split; [exact Hpos|]. rewrite <- Hcounts. apply Qsum_member.
    - apply Forall_map. eapply Forall_impl; [|exact Hwf].
      intros x [Hx _]. apply Qlt_le_weak. exact Hx.
    - apply in_map. exact Hr. }
  split; [|split; [|split; [|split; [|split]]]].
  - exact Hbound.
  - eapply Permutation_Forall; [symmetry; exact Hperm | exact Hwhole].
  - apply Forall_forall. intros r Hr.
    destruct (proj1 (Forall_forall _ _) Hwf r Hr) as [_ Hv].
    destruct (proj1 (Forall_forall _ _) Hbound r Hr) as [Hpos Hle].
    rewrite Hv. apply share_bounds; assumption.
  - apply sort_Sorted_by.
    + intros x y. apply count_after_false.
    + intros x y. apply count_after_true.
  - intros _. exact Hcounts.
  - intros t Hle. apply Qleb_le in Hle.
    unfold generateTestDefectReasonData. rewrite Hle. reflexivity.
Qed.

Section WithHost.
Context {host : Host}.

Lemma Math_round_lower (x : Q) (z : Z) :
  inject_Z z <= x -> inject_Z z <= Math_round x.
Proof.
  intro H. unfold Math_round. rewrite <- Zle_Qle.
  replace z with (Qfloor (inject_Z z)) by apply Qfloor_Z.
  apply Qfloor_resp_le. lra.
Qed.

Lemma Math_max_bounds (a x lo hi : Q) :
  lo <= a <= hi -> x <= hi -> lo <= Math_max a x <= hi.
Proof.
  intros Ha Hx. unfold Math_max. destruct (Qltb a x) eqn:E; [|assumption].
  apply Qltb_lt in E. lra.
Qed.

Lemma Qmult_bounds (a b la ha lb hb : Q) :
  0 <= la -> la <= a <= ha -> 0 <= lb -> lb <= b <= hb ->
  la * lb <= a * b <= ha * hb.
Proof.
  intros Hla Ha Hlb Hb.
  assert (H1 : 0 <= (a - la) * b) by (apply Qmult_le_0_compat; lra).
  assert (H2 : 0 <= la * (b - lb)) by (apply Qmult_le_0_compat; lra).
  assert (H3 : 0 <= (ha - a) * b) by (apply Qmult_le_0_compat; lra).
  assert (H4 : 0 <= ha * (hb - b)) by (apply Qmult_le_0_compat; lra).
  split; lra.
Qed.

Lemma synthetic_month_in_bounds (baseUnits baseDefectRate r1 r2 : Q) :
  0 <= r1 < 1 -> 0 <= r2 < 1 ->
  8000 <= baseUnits <= 12000 -> (15 # 10) <= baseDefectRate <= (35 # 10) ->
  let unitsProduced := Math_round (baseUnits * ((7 # 10) + r1 * (6 # 10))) in
  let defectRate :=
    Math_max (1 # 10) (baseDefectRate + (r2 - (1 # 2)) * (15 # 10)) in
  let defectUnits := Math_round (unitsProduced * (defectRate / 100)) in
  (5600 <= unitsProduced <= 15600)
  /\ defectRate <= (425 # 100)
  /\ 0 <= defectUnits <= unitsProduced.
Proof.
  intros Hr1 Hr2 Hb Hd unitsProduced defectRate defectUnits.
  assert (Hprod : 8000 * (7 # 10)
                  <= baseUnits * ((7 # 10) + r1 * (6 # 10))
                  <= 12000 * (13 # 10)).
  { apply Qmult_bounds; lra. }
  assert (Hu : 5600 <= unitsProduced <= 15600).
  { subst unitsProduced. split.
    - change 5600 with (inject_Z 5600). apply Math_round_lower.
      change (inject_Z 5600) with 5600. lra.
    - change 15600 with (inject_Z 15600). apply Math_round_le_whole.
      change (inject_Z 15600) with 15600. lra. }
  assert (Hrate : (1 # 10) <= defectRate <= (425 # 100)).
  { subst defectRate. apply Math_max_bounds; lra. }
  split; [assumption|]. split; [apply Hrate|].
  subst defectUnits. split.
  - apply Math_round_nonneg.
    apply Qmult_le_0_compat; [lra|]. apply Qdiv_nonneg; lra.
  - assert (Hshare : unitsProduced * (defectRate / 100) <= unitsProduced).
    { assert (H : 0 <= unitsProduced * (1 - defectRate / 100)).
      { apply Qmult_le_0_compat; [lra|].
        assert (defectRate / 100 <= 1); [|lra].
        apply Qle_shift_div_r; lra. }
      lra. }
    assert (Hz : exists z, unitsProduced = inject_Z z)
      by (eexists; reflexivity).
    destruct Hz as [z Hz]. clearbody unitsProduced. subst unitsProduced.
    apply Math_round_le_whole. exact Hshare.
Qed.

Lemma test_months_bounded (w : World) (remaining : nat) :
  forall (baseUnits baseDefectRate : Q) (currentDate endDate : Date.t)
         (c : Counters),
  exists rows c',
    test_months remaining baseUnits baseDefectRate currentDate endDate w c
    = (Returned rows, c')
    /\ (List.length rows <= remaining)%nat
    /\ Forall (fun r => (1 # 10) <= defectRate r) rows
    /\ ((forall n, 0 <= Math_random w n < 1) ->
        8000 <= baseUnits <= 12000 ->
        (15 # 10) <= baseDefectRate <= (35 # 10) ->
        Forall synthetic_month_bounds rows).
Proof.
  induction remaining as [|remaining IH];
    intros baseUnits baseDefectRate currentDate endDate c;
    cbn [test_months].
  - exists [], c. split; [reflexivity|]. split; [cbn; lia|].
    split; [constructor|]. intros; constructor.
  - destruct (Date.leb currentDate endDate).
    + unfold bind at 1. unfold random at 1. cbn [requests draws].
      unfold bind at 1. unfold random at 1. cbn [requests draws].
      unfold bind at 1.
      match goal with
      | |- context [test_months remaining ?b ?r ?d ?e w ?c0] =>
          destruct (IH b r d e c0) as (rows & c' & -> & Hlen & Hrate & Hb)
      end.
      unfold ret. eexists; eexists. split; [reflexivity|].
      split; [cbn [List.length]; lia|]. split.
      * constructor; [|assumption]. cbn [defectRate].
        unfold Math_max. destruct (Qltb _ _) eqn:E; [|apply Qle_refl].
        apply Qltb_lt in E. apply Qlt_le_weak. exact E.
      * intros Hrandom Hbase Hdr. constructor; [|apply Hb; assumption].
        unfold synthetic_month_bounds.
        cbn [unitsProduced defectRate defectUnits].
        apply synthetic_month_in_bounds; auto.
    + exists [], c. split; [reflexivity|]. split; [cbn; lia|].
      split; [constructor|]. intros; constructor.
Qed.

(** The synthetic monthly series has at most 13 months (the safety
    break), every defect rate is at least 0.1, and when [Math.random]
    stays in [[0, 1)] every month has between 5600 and 15600 units, a rate
    of at most 4.25 and no more defects than units. *)
Theorem synthetic_months_are_bounded (dateRange : DateRange) (mould : string)
  (w : World) (c : Counters) :
  exists rows c',
    generateTestMonthlyData dateRange mould w c = (Returned rows, c')
    /\ (List.length rows <= 13)%nat
    /\ Forall (fun r => (1 # 10) <= defectRate r) rows
    /\ ((forall n, 0 <= Math_random w n < 1) ->
        Forall synthetic_month_bounds rows).
Proof.
  unfold generateTestMonthlyData.
  unfold bind at 1. unfold random at 1. cbn [requests draws].
  unfold bind at 1. unfold random at 1. cbn [requests draws].
  match goal with
  | |- context [test_months 13 ?b ?r ?d ?e w ?c0] =>
      destruct (test_months_bounded w 13 b r d e c0)
        as (rows & c' & -> & Hlen & Hrate & Hb)
  end.
  exists rows, c'. split; [reflexivity|]. split; [assumption|].
  split; [assumption|].
  intro Hrandom. apply Hb; [assumption | |].
  - pose proof (Hrandom (draws c)). lra.
  - pose proof (Hrandom (S (draws c))). lra.
Qed.

(** The synthetic KPI snapshot: its totals are the sums over the
    synthetic monthly series drawn at the same point of the random
    source, its three reasons are fixed, and when [Math.random] stays in
    [[0, 1)] its indicators lie in fixed bands, whatever the totals are. *)
Theorem synthetic_snapshot_is_bounded (machine mould : string)
  (dateRange : DateRange) (w : World) (c : Counters) :
  exists monthly c1 k c2,
    generateTestMonthlyData dateRange mould w c = (Returned monthly, c1)
    /\ generateTestKPIData machine mould dateRange w c = (Returned k, c2)
    /\ totalUnitsProduced k = sum_unitsProduced monthly
    /\ totalRejection k = sum_defectUnits monthly
    /\ map reason (topRejectionReasons k)
       = ["Short Molding"; "Flash"; "Burn Mark"]
    /\ ((forall n, 0 <= Math_random w n < 1) ->
        0 <= postDowntimeDR k < (1 # 10)
        /\ 30 <= totalDowntime k < 50
        /\ 75 <= moldHealthIndex k < 95
        /\ 450 <= documentCount k <= 500).
Proof.
  destruct (Faults.returns_generateTestMonthlyData dateRange mould w c)
    as (monthly & c1 & Hm).
  exists monthly, c1. unfold generateTestKPIData.
  unfold bind at 1. rewrite Hm.
  unfold bind, random, ret. cbn [requests draws].
  eexists; eexists. split; [reflexivity|]. split; [reflexivity|].
  cbn [totalUnitsProduced totalRejection topRejectionReasons map reason
       postDowntimeDR totalDowntime moldHealthIndex documentCount].
  repeat split; try reflexivity;
    try (pose proof (H (draws c1)); lra);
    try (pose proof (H (S (draws c1))); lra);
    try (pose proof (H (S (S (draws c1)))); lra).
  - assert (Hr : 0 <= Math_round
                        (Math_random w
                           (S (S (S (S (S (S (draws c1))))))) * 50)).
    { apply Math_round_nonneg.
      pose proof (H (S (S (S (S (S (S (draws c1)))))))). lra. }
    lra.
  - assert (Hr : Math_round
                   (Math_random w
                      (S (S (S (S (S (S (draws c1))))))) * 50)
                 <= inject_Z 50).
    { apply Math_round_le_whole. change (inject_Z 50) with 50.
      pose proof (H (S (S (S (S (S (S (draws c1)))))))). lra. }
    change (inject_Z 50) with 50 in Hr. lra.
Qed.

End WithHost.
End Synthetic.

(** [calculateProductionVsTargetData]. *)
Module Targets.
Import Js DateService KpiService Spec SortFacts.
Local Open Scope string_scope.
Local Open Scope list_scope.

Section WithHost.
Context {host : Host}.

Lemma test_pvt_rows_months (baseProduction baseTarget : Q)
  (months : list string) (w : World) (c : Counters) :
  exists rows c',
    test_pvt_rows baseProduction baseTarget months w c = (Returned rows, c')
    /\ map pvt_month rows = months.
Proof.
  revert c. induction months as [|m months IH]; intro c; cbn [test_pvt_rows].
  - exists [], c. split; reflexivity.
  - unfold bind at 1. unfold random at 1. cbn [requests draws].
    unfold bind at 1. unfold random at 1. cbn [requests draws].
    unfold bind at 1.
    match goal with
    | |- context [test_pvt_rows _ _ months w ?c0] =>
        destruct (IH c0) as (rows & c' & -> & Hm)
    end.
    unfold ret. eexists; eexists. split; [reflexivity|].
    cbn [map pvt_month]. rewrite Hm. reflexivity.
Qed.

Lemma synthetic_targets (mould : string) (w : World) (c : Counters) :
  exists rows c',
    generateTestProductionVsTargetData mould w c = (Returned rows, c')
    /\ rows <> [] /\ Sorted month_le rows.
Proof.
  unfold generateTestProductionVsTargetData.
  match goal with
  | |- context [test_pvt_rows ?b ?t ?months w c] =>
      destruct (test_pvt_rows_months b t months w c) as (rows & c' & -> & Hm)
  end.
  exists rows, c'. split; [reflexivity|].
  do 8 (destruct rows as [|? rows]; try discriminate Hm).
  injection Hm as H1 H2 H3 H4 H5 H6 H7.
  split; [discriminate|].
  repeat (constructor; try (unfold month_le;
                            rewrite ?H1, ?H2, ?H3, ?H4, ?H5, ?H6, ?H7;
                            vm_compute; discriminate)).
Qed.

Lemma month_after_false (x y : ProductionVsTargetData) :
  month_after x y = false -> month_le x y.
Proof. unfold month_after, month_le. intro H. apply Z.ltb_ge in H. exact H. Qed.

Lemma month_after_true (x y : ProductionVsTargetData) :
  month_after x y = true -> month_le y x.
Proof. unfold month_after, month_le. intro H. apply Z.ltb_lt in H. lia. Qed.

(** [calculateProductionVsTargetData] always returns rows, never an
    empty list, and the rows are in the order of the month names
    (January first), whatever the store answers. *)
Theorem production_vs_target_is_never_empty (machine mould : string)
  (dateRange : DateRange) (w : World) (c : Counters) :
  exists rows c',
    calculateProductionVsTargetData machine mould dateRange w c
    = (Returned rows, c')
    /\ rows <> []
    /\ Sorted month_le rows.
Proof.
  unfold calculateProductionVsTargetData. cbv zeta.
  unfold try_catch, bind at 1, send. cbn [requests draws].
  destruct (axios w (requests c) _) as [|body].
  - apply synthetic_targets.
  - assert (Hrows : forall (rows : list MongoDataRow) (c0 : Counters),
              exists out c',
                (if Nat.eqb (List.length rows) 0
                 then generateTestProductionVsTargetData mould
                 else
                   if Nat.eqb (List.length (filter (pvt_filter mould) rows)) 0
                   then generateTestProductionVsTargetData mould
                   else
                     if Nat.ltb 0
                          (List.length
                             (pvt_rows
                                (fold_left pvt_step
                                   (filter (pvt_filter mould) rows) [])))
                     then ret (pvt_rows
                                 (fold_left pvt_step
                                    (filter (pvt_filter mould) rows) []))
                     else generateTestProductionVsTargetData mould) w c0
                = (Returned out, c')
                /\ out <> [] /\ Sorted month_le out).
    { intros rows c0.
      destruct (Nat.eqb (List.length rows) 0); [apply synthetic_targets|].
      destruct (Nat.eqb _ 0); [apply synthetic_targets|].
      destruct (Nat.ltb 0 _) eqn:E; [|apply synthetic_targets].
      unfold ret. eexists; eexists. split; [reflexivity|]. split.
      - intro H. rewrite H in E. discriminate.
      - apply sort_Sorted_by;
          [apply month_after_false | apply month_after_true]. }
    destruct body as [|[| |rows]|rows]; unfold bind, throw, ret;
      try apply synthetic_targets.
    + destruct (Hrows rows {| requests := S (requests c); draws := draws c |})
        as (out & c' & H & Hne & Hs).
      unfold bind, ret in H.
      exists out, c'. rewrite H. split; [reflexivity | split; assumption].
    + destruct (Hrows rows {| requests := S (requests c); draws := draws c |})
        as (out & c' & H & Hne & Hs).
      unfold bind, ret in H.
      exists out, c'. rewrite H. split; [reflexivity | split; assumption].
Qed.

End WithHost.
End Targets.

(** The stream of documents the post-event detector scans. *)
Module Stream.
Import Js DateService KpiService Spec SortFacts.
Local Open Scope list_scope.

Lemma compare_antisym (a b : Date.t) :
  Date.compare a b = CompOpp (Date.compare b a).
Proof.
  unfold Date.compare.
  rewrite (Z.compare_antisym (Date.year b) (Date.year a)).
  rewrite (Z.compare_antisym (Date.month b) (Date.month a)).
  rewrite (Z.compare_antisym (Date.day b) (Date.day a)).
  rewrite (Z.compare_antisym (Date.msec b) (Date.msec a)).
  destruct (Date.year b ?= Date.year a)%Z; cbn; try reflexivity.
  destruct (Date.month b ?= Date.month a)%Z; cbn; try reflexivity.
  destruct (Date.day b ?= Date.day a)%Z; cbn; reflexivity.
Qed.

Lemma ltb_false_leb (a b : Date.t) : Date.ltb b a = false -> Date.leb a b = true.
Proof.
  unfold Date.ltb, Date.leb. rewrite (compare_antisym a b).
  destruct (Date.compare b a); cbn; congruence.
Qed.

Lemma ltb_true_leb (a b : Date.t) : Date.ltb b a = true -> Date.leb b a = true.
Proof.
  unfold Date.ltb, Date.leb. destruct (Date.compare b a); congruence.
Qed.

Section WithHost.
Context {host : Host}.

Lemma timestamp_after_false (x y : MongoDataRow) :
  timestamp_after x y = false -> time_le x y.
Proof.
  unfold timestamp_after, time_le.
  destruct (Date_new (timestamp x)); destruct (Date_new (timestamp y));
    try tauto.
  apply ltb_false_leb.
Qed.

Lemma timestamp_after_true (x y : MongoDataRow) :
  timestamp_after x y = true -> time_le y x.
Proof.
  unfold timestamp_after, time_le.
  destruct (Date_new (timestamp x)); destruct (Date_new (timestamp y));
    try tauto.
  apply ltb_true_leb.
Qed.

(** The stream the post-event detector scans: the documents that carry
    a timestamp, each exactly once, every document not later than the next
    one when both timestamps are dates. *)
Theorem sortedDocs_is_the_dated_stream (documents : list MongoDataRow) :
  Permutation (sortedDocs documents)
              (filter (fun doc => truthy (timestamp doc)) documents)
  /\ Sorted time_le (sortedDocs documents)
  /\ (sortedDocs documents = [] <->
      forall doc, In doc documents -> truthy (timestamp doc) = false).
Proof.
  unfold sortedDocs. split; [apply Monthly.sort_Permutation|]. split.
  - apply sort_Sorted_by;
      [apply timestamp_after_false | apply timestamp_after_true].
  - pose proof (Monthly.sort_Permutation timestamp_after
                  (filter (fun doc => truthy (timestamp doc)) documents))
      as Hperm.
    split.
    + intros E doc Hin. rewrite E in Hperm.
      apply Permutation_nil in Hperm.
      destruct (truthy (timestamp doc)) eqn:Et; [|reflexivity].
      assert (Hf : In doc (filter (fun doc => truthy (timestamp doc))
                                  documents))
        by (apply filter_In; split; assumption).
      rewrite Hperm in Hf. destruct Hf.
    + intro H.
      assert (E : filter (fun doc => truthy (timestamp doc)) documents = []).
      { clear Hperm.
        induction documents as [|d l IH]; [reflexivity|]. cbn [filter].
        rewrite (H d) by (left; reflexivity).
        apply IH. intros doc Hin. apply H. right. exact Hin. }
      rewrite E. reflexivity.
Qed.

End WithHost.
End Stream.

(** The totals of the monthly chart. *)
Module ChartTotals.
Import Js DateService KpiService Spec QFacts SortFacts Downtime.
Local Open Scope string_scope.
Local Open Scope list_scope.
Local Open Scope Q_scope.











Section WithHost.
Context {host : Host}.




End WithHost.
End ChartTotals.

(** The months the pre-population loop covers. *)
Module Coverage.
Import Js DateService KpiService Spec CalendarResolver.
Local Open Scope Z_scope.

(** From a day that every month has, the next turn of the loop starts
    on the first day of the very next month. *)
Lemma next_month_start_early (d : Date.t) :
  Date.wf d -> Date.day d <= 28 ->
  Date.wf (next_month_start d)
  /\ Date.day (next_month_start d) = 1
  /\ Date.msec (next_month_start d) = Date.msec d
  /\ month_index (next_month_start d) = month_index d + 1.
Proof.
  destruct d as [y m day ms]. unfold Date.wf, month_index.
  cbn [Date.year Date.month Date.day Date.msec].
  intros (Hm & Hd & Hms) H28.
  unfold next_month_start, Date.setMonth, Date.getMonth.
  cbn [Date.year Date.month Date.day Date.msec].
  assert (Hyear : (y + (m + 1) / 12) * 12 + (m + 1) mod 12 = y * 12 + m + 1).
  { pose proof (Z.div_mod (m + 1) 12). lia. }
  assert (Hmod : 0 <= (m + 1) mod 12 <= 11).
  { pose proof (Z.mod_pos_bound (m + 1) 12). lia. }
  assert (E : Date.make y (m + 1) day ms
              = Date.mk (y + (m + 1) / 12) ((m + 1) mod 12) day ms).
  { unfold Date.make.
    rewrite (Z.div_small ms), (Z.mod_small ms) by assumption.
    rewrite Z.add_0_r.
    set (y1 := y + (m + 1) / 12) in *. set (m1 := (m + 1) mod 12) in *.
    destruct (Z.to_nat (Z.abs day)) as [|k] eqn:Ek; [lia|].
    cbn [Date.roll_days].
    destruct (Z.ltb_spec day 1) as [?|_]; [lia|].
    pose proof (Monthly.days_in_month_bounds y1 m1) as Hb1.
    destruct (Z.ltb_spec (Date.days_in_month y1 m1) day) as [?|_]; [lia|].
    reflexivity. }
  unfold Date.setDate. rewrite E.
  cbn [Date.year Date.month Date.day Date.msec].
  pose proof (Monthly.days_in_month_bounds (y + (m + 1) / 12)
                                           ((m + 1) mod 12)).
  rewrite make_wf by lia.
  cbn [Date.year Date.month Date.day Date.msec].
  repeat split; lia.
Qed.

(** A first day of a month is inside the range as soon as its month is
    not after the month of the end. *)
Lemma first_day_leb (d e : Date.t) :
  0 <= Date.month d <= 11 -> Date.wf e -> Date.day d = 1 ->
  Date.msec d <= Date.msec e -> month_index d <= month_index e ->
  Date.leb d e = true.
Proof.
  unfold Date.wf, month_index, Date.leb, Date.compare.
  intros Hm (He & Hde & _) Hd Hms Hi.
  destruct (Z.compare_spec (Date.year d) (Date.year e)); try reflexivity;
    [|lia].
  destruct (Z.compare_spec (Date.month d) (Date.month e)); try reflexivity;
    [|lia].
  destruct (Z.compare_spec (Date.day d) (Date.day e)); try reflexivity;
    [|lia].
  destruct (Z.compare_spec (Date.msec d) (Date.msec e)); try reflexivity.
  lia.
Qed.

Lemma month_key_index (d d' : Date.t) :
  0 <= Date.month d <= 11 -> 0 <= Date.month d' <= 11 ->
  month_index d = month_index d' -> Date.month_key d = Date.month_key d'.
Proof.
  unfold month_index, Date.month_key, Date.getFullYear, Date.getMonth.
  intros Hm Hm' Hi.
  assert (Date.year d = Date.year d') as -> by lia.
  assert (Date.month d = Date.month d') as -> by lia.
  reflexivity.
Qed.

Local Open Scope list_scope.

Lemma map_set_keeps (V : Type) (k k' : string) (v : V) (m : jsmap V) :
  In k (map fst m) -> In k (map fst (map_set k' v m)).
Proof.
  intro H. rewrite Monthly.map_set_keys.
  destruct (map_has k' m); [assumption|]. apply in_or_app. left. assumption.
Qed.

Lemma ensure_bucket_keeps (k monthKey monthLabel : string)
  (m : jsmap MonthBucket) :
  In k (map fst m) -> In k (map fst (ensure_bucket monthKey monthLabel m)).
Proof.
  intro H. unfold ensure_bucket. destruct (map_has monthKey m); [assumption|].
  apply map_set_keeps. assumption.
Qed.

Lemma ensure_bucket_adds (monthKey monthLabel : string)
  (m : jsmap MonthBucket) :
  In monthKey (map fst (ensure_bucket monthKey monthLabel m)).
Proof.
  unfold ensure_bucket. destruct (map_has monthKey m) eqn:E.
  - apply Monthly.map_has_In. assumption.
  - rewrite Monthly.map_set_keys, E. apply in_or_app. right. left. reflexivity.
Qed.

Lemma update_bucket_keeps (k monthKey : string)
  (f : MonthBucket -> MonthBucket) (m : jsmap MonthBucket) :
  In k (map fst m) -> In k (map fst (update_bucket monthKey f m)).
Proof.
  intro H. unfold update_bucket. destruct (map_get monthKey m); [|assumption].
  apply map_set_keeps. assumption.
Qed.

Lemma prepopulate_keeps (k : string) (fuel : nat) (currentDate endDate : Date.t)
  (m m' : jsmap MonthBucket) :
  In k (map fst m) -> prepopulate fuel currentDate endDate m = Some m' ->
  In k (map fst m').
Proof.
  revert currentDate m. induction fuel as [|fuel IH]; intros currentDate m Hm;
    cbn [prepopulate]; destruct (Date.leb currentDate endDate);
    try discriminate; try (intro E; injection E as <-; assumption).
  apply IH. apply ensure_bucket_keeps. assumption.
Qed.

Lemma prepopulate_covers (endDate : Date.t) (fuel : nat) :
  Date.wf endDate ->
  forall (currentDate : Date.t) (m m' : jsmap MonthBucket),
  Date.wf currentDate -> (Date.day currentDate <= 28)%Z ->
  (Date.msec currentDate <= Date.msec endDate)%Z ->
  Date.leb currentDate endDate = true ->
  prepopulate fuel currentDate endDate m = Some m' ->
  forall d : Date.t,
  (0 <= Date.month d <= 11)%Z ->
  (month_index currentDate <= month_index d <= month_index endDate)%Z ->
  In (Date.month_key d) (map fst m').
Proof.
  intro He. induction fuel as [|fuel IH];
    intros currentDate m m' Hwf H28 Hms Hleb; cbn [prepopulate];
    rewrite Hleb; [discriminate|].
  intros E d Hd Hi.
  destruct (next_month_start_early Hwf H28) as (Hwf' & Hday & Hms' & Hidx).
  destruct (Z.eq_dec (month_index d) (month_index currentDate)) as [Eq|Ne].
  - rewrite (@month_key_index d currentDate Hd (proj1 Hwf) Eq).
    eapply prepopulate_keeps; [|exact E]. apply ensure_bucket_adds.
  - eapply IH; try exact E; try assumption; try lia.
    apply first_day_leb; try assumption; try lia. apply Hwf'.
Qed.

Section WithHost.
Context {host : Host}.

Lemma month_step_keeps (k : string) (dateRange : DateRange)
  (st : jsmap MonthBucket * Q) (row : MongoDataRow) :
  In k (map fst (fst st)) ->
  In k (map fst (fst (month_step dateRange st row))).
Proof.
  destruct st as [m total]. unfold month_step. cbn [fst]. intro H.
  destruct (resolve_timestamp row) as [ts|]; [|assumption].
  destruct (outside dateRange ts); [assumption|].
  destruct (valid_positive D6 row); destruct (valid_positive D52 row);
    cbn [fst];
    repeat first [ apply update_bucket_keeps | apply ensure_bucket_keeps ];
    assumption.
Qed.

Lemma month_steps_keep (k : string) (dateRange : DateRange)
  (rows : list MongoDataRow) (st : jsmap MonthBucket * Q) :
  In k (map fst (fst st)) ->
  In k (map fst (fst (fold_left (month_step dateRange) rows st))).
Proof.
  revert st. induction rows as [|row rows IH]; intros st H; [assumption|].
  cbn [fold_left]. apply IH. apply month_step_keeps. assumption.
Qed.

(** When the range starts on a day every month has (the 28th at the
    latest) and its start is not later in the day than its end, every
    month from the month of the start to the month of the end has a
    bucket. *)
Theorem early_start_covers_every_month (dateRange : DateRange)
  (mouldFilteredDocs : list MongoDataRow) (monthlyDataMap : jsmap MonthBucket)
  (totalUnitsAggregated : Q) :
  Date.wf (startDate dateRange) -> Date.wf (endDate dateRange) ->
  (Date.day (startDate dateRange) <= 28)%Z ->
  (Date.msec (startDate dateRange) <= Date.msec (endDate dateRange))%Z ->
  Date.leb (startDate dateRange) (endDate dateRange) = true ->
  monthly_aggregate dateRange mouldFilteredDocs
  = Some (monthlyDataMap, totalUnitsAggregated) ->
  forall d : Date.t,
  (0 <= Date.month d <= 11)%Z ->
  (month_index (startDate dateRange) <= month_index d
   <= month_index (endDate dateRange))%Z ->
  In (Date.month_key d) (map fst monthlyDataMap).
Proof.
  intros Hs He H28 Hms Hleb. unfold monthly_aggregate.
  destruct (prepopulate _ _ _ []) as [m0|] eqn:E0; [|discriminate].
  intros H d Hd Hi. injection H as H.
  pose proof (@prepopulate_covers _ _ He _ _ _ Hs H28 Hms Hleb E0 d Hd Hi)
    as Hin.
  pose proof (month_steps_keep _ dateRange mouldFilteredDocs (m0, 0%Q) Hin)
    as Hk.
  rewrite H in Hk. exact Hk.
Qed.

End WithHost.
End Coverage.

(** [fetchMouldData]. *)
Module Moulds.
Import Js DateService KpiService MouldService Spec SortFacts.
Local Open Scope string_scope.
Local Open Scope list_scope.

Lemma trimEnd_idem (s : string) : trimEnd (trimEnd s) = trimEnd s.
Proof.
  induction s as [|c s IH]; [reflexivity|]. cbn [trimEnd].
  destruct (trimEnd s) as [|c' t] eqn:E.
  - destruct (is_space c) eqn:Ec; [reflexivity|]. cbn [trimEnd].
    rewrite Ec. reflexivity.
  - cbn [trimEnd]. cbn [trimEnd] in IH. 
    destruct (trimEnd t) as [|c'' t'] eqn:Et.
    + destruct (is_space c') eqn:Ec'; [discriminate IH|].
      congruence.
    + congruence.
Qed.

Lemma trimStart_head (s : string) :
  trimStart s = "" \/ exists c t, trimStart s = String c t /\ is_space c = false.
Proof.
  induction s as [|c s IH]; [left; reflexivity|]. cbn [trimStart].
  destruct (is_space c) eqn:E; [assumption|].
  right. exists c, s. split; [reflexivity | assumption].
Qed.

Lemma trimStart_fixed (c : ascii) (t : string) :
  is_space c = false -> trimStart (String c t) = String c t.
Proof. intro H. cbn [trimStart]. rewrite H. reflexivity. Qed.

Lemma trimEnd_head (c : ascii) (t : string) :
  is_space c = false -> exists t', trimEnd (String c t) = String c t'.
Proof.
  intro H. cbn [trimEnd]. destruct (trimEnd t) as [|c' t'].
  - rewrite H. eexists; reflexivity.
  - eexists; reflexivity.
Qed.

Lemma trim_idem (s : string) : trim (trim s) = trim s.
Proof.
  unfold trim.
  destruct (trimStart_head s) as [E|(c & t & E & Hc)]; rewrite E.
  - reflexivity.
  - destruct (@trimEnd_head c t Hc) as (t' & Et). rewrite Et.
    rewrite (@trimStart_fixed c t' Hc). rewrite <- Et. apply trimEnd_idem.
Qed.

Lemma existsb_eqb_In (x : string) (s : list string) :
  existsb (String.eqb x) s = true <-> In x s.
Proof.
  rewrite existsb_exists. split.
  - intros (y & Hy & E). apply String.eqb_eq in E. subst. assumption.
  - intro H. exists x. split; [assumption | apply String.eqb_refl].
Qed.

Lemma In_set_add (x y : string) (s : list string) :
  In y (set_add x s) <-> y = x \/ In y s.
Proof.
  unfold set_add. destruct (existsb (String.eqb x) s) eqn:E.
  - apply existsb_eqb_In in E. split; [tauto|].
    intros [->|H]; assumption.
  - rewrite in_app_iff. cbn [In]. intuition congruence.
Qed.

Lemma set_add_NoDup (x : string) (s : list string) :
  NoDup s -> NoDup (set_add x s).
Proof.
  intro H. unfold set_add. destruct (existsb (String.eqb x) s) eqn:E;
    [assumption|].
  apply NoDup_app; [assumption | repeat constructor; intros [] |].
  intros y Hy [<-|[]]. apply existsb_eqb_In in Hy. congruence.
Qed.

Lemma code_unit_after_false (x y : string) :
  code_unit_after x y = false -> name_le x y.
Proof.
  unfold code_unit_after, name_le. destruct (String.compare x y);
    intros H; congruence.
Qed.

Lemma code_unit_after_true (x y : string) :
  code_unit_after x y = true -> name_le y x.
Proof.
  unfold code_unit_after, name_le.
  destruct (String.compare x y) eqn:E; try discriminate.
  intros _. rewrite String.compare_antisym, E. discriminate.
Qed.

Section WithHost.
Context {host : Host}.

(** What one turn of the collection does: a row that names a usable
    mould adds it, any other row changes nothing. *)
Lemma collect_step_spec (acc : list string) (row : MongoDataRow) :
  (exists m, names_mould row m /\ usable_name m
             /\ collect_step acc row = set_add m acc)
  \/ ((forall m, names_mould row m -> ~ usable_name m)
      /\ collect_step acc row = acc).
Proof.
  unfold collect_step, names_mould.
  destruct (data row) as [d|];
    [|right; split; [intros m (d & H & _); discriminate | reflexivity]].
  destruct (truthy (D0 d)) eqn:Et;
    [|right; split; [|reflexivity];
      intros m (d' & H & Ht & _); injection H as <-; congruence].
  cbv zeta. set (name := trim (String_ (D0 d))).
  destruct (String.eqb_spec name "") as [E1|N1]; cbn [negb andb].
  - right. split; [|reflexivity].
    intros m (d' & H & _ & Hm) (_ & Hne & _). injection H as <-.
    fold name in Hm. congruence.
  - destruct (String.eqb_spec name "null") as [E2|N2]; cbn [negb andb].
    + right. split; [|reflexivity].
      intros m (d' & H & _ & Hm) (_ & _ & Hne & _). injection H as <-.
      fold name in Hm. congruence.
    + destruct (String.eqb_spec name "undefined") as [E3|N3]; cbn [negb andb].
      * right. split; [|reflexivity].
        intros m (d' & H & _ & Hm) (_ & _ & _ & Hne). injection H as <-.
        fold name in Hm. congruence.
      * left. exists name. split; [|split; [|reflexivity]].
        -- exists d. repeat split; assumption.
        -- unfold usable_name. repeat split; try assumption.
           apply trim_idem.
Qed.

Lemma collect_spec (rows : list MongoDataRow) :
  forall acc : list string,
  NoDup acc -> Forall usable_name acc ->
  let collected := fold_left collect_step rows acc in
  NoDup collected
  /\ Forall usable_name collected
  /\ forall m, In m collected
               <-> In m acc
                   \/ (usable_name m
                       /\ exists row, In row rows /\ names_mould row m).
Proof.
  induction rows as [|row rows IH]; intros acc Hn Hu; cbn [fold_left].
  - cbv zeta. split; [assumption|]. split; [assumption|].
    intro m. split; [tauto|]. intros [H|(_ & row & [] & _)]. assumption.
  - destruct (collect_step_spec acc row) as [(m0 & Hrow & Hm0 & ->)|[Hno ->]].
    + destruct (IH (set_add m0 acc)) as (I1 & I2 & I3).
      * apply set_add_NoDup. assumption.
      * apply Forall_forall. intros y Hy. apply In_set_add in Hy.
        destruct Hy as [->|Hy]; [assumption|].
        rewrite Forall_forall in Hu. apply Hu. assumption.
      * cbv zeta in *. split; [assumption|]. split; [assumption|].
        intro m. rewrite I3, In_set_add. split.
        -- intros [[->|H]|(Hm & r & Hr & Hname)].
           ++ right. split; [assumption|]. exists row.
              split; [left; reflexivity | assumption].
           ++ left. assumption.
           ++ right. split; [assumption|]. exists r.
              split; [right; assumption | assumption].
        -- intros [H|(Hm & r & [<-|Hr] & Hname)].
           ++ left. right. assumption.
           ++ left. left.
              destruct Hrow as (d & Hd & _ & E1).
              destruct Hname as (d' & Hd' & _ & E2). congruence.
           ++ right. split; [assumption|]. exists r. split; assumption.
    + destruct (IH acc Hn Hu) as (I1 & I2 & I3).
      cbv zeta in *. split; [assumption|]. split; [assumption|].
      intro m. rewrite I3. split.
      * intros [H|(Hm & r & Hr & Hname)]; [left; assumption|].
        right. split; [assumption|]. exists r.
        split; [right; assumption | assumption].
      * intros [H|(Hm & r & [<-|Hr] & Hname)]; [left; assumption | |].
        -- exfalso. exact (Hno m Hname Hm).
        -- right. split; [assumption|]. exists r. split; assumption.
Qed.

(** The mould list [fetchMouldData] offers: it always returns; the
    names are distinct, in ascending order, trimmed, not empty and neither
    [null] nor [undefined]; they are exactly the usable names the rows of
    the mould mapping carry; any failure gives the empty list. *)
Theorem fetchMouldData_lists_usable_names (w : World) (c : Counters) :
  exists moulds c',
    fetchMouldData w c = (Returned moulds, c')
    /\ NoDup moulds
    /\ Sorted name_le moulds
    /\ Forall usable_name moulds
    /\ (fault (axios w (requests c) mould_request) = true -> moulds = [])
    /\ (forall rows,
        axios w (requests c) mould_request
        = Resolved (BodyObject (DataRows rows)) ->
        forall m, In m moulds
                  <-> usable_name m
                      /\ exists row, In row rows /\ names_mould row m)
    /\ map option_value (transformMouldDataToOptions moulds) = moulds.
Proof.
  unfold fetchMouldData, try_catch, bind, send. cbn [requests draws].
  destruct (axios w (requests c) mould_request) as [|[|[| |rows]|rows]];
    cbn [response_data as_array throw ret fault];
    try (exists [], {| requests := S (requests c); draws := draws c |};
         split; [reflexivity|]; split; [constructor|];
         split; [constructor|]; split; [constructor|];
         split; [reflexivity|]; split; [discriminate | reflexivity]).
  destruct (@collect_spec rows [] (NoDup_nil _) (Forall_nil _))
    as (H1 & H2 & H3). cbv zeta in H1, H2, H3.
  set (collected := fold_left collect_step rows []) in *.
  pose proof (Monthly.sort_Permutation code_unit_after collected) as Hperm.
  eexists; eexists. split; [reflexivity|]. split; [|split; [|split; [|split;
    [|split]]]].
  - eapply Permutation_NoDup; [symmetry; exact Hperm | exact H1].
  - apply sort_Sorted_by;
      [apply code_unit_after_false | apply code_unit_after_true].
  - eapply Permutation_Forall; [symmetry; exact Hperm | exact H2].
  - discriminate.
  - intros rows' E m. injection E as <-.
    split.
    + intro Hin. apply (Permutation_in _ Hperm) in Hin.
      apply H3 in Hin. destruct Hin as [[]|H]. exact H.
    + intro H. apply (Permutation_in _ (Permutation_sym Hperm)).
      apply H3. right. exact H.
  - unfold transformMouldDataToOptions. rewrite map_map. cbn [option_value].
    apply map_id.
Qed.

End WithHost.
End Moulds.

Module Examples.
Import Js DateService KpiService Spec ExampleHost.
Local Open Scope string_scope.
Local Open Scope list_scope.

(** The two custom ranges are ranges the calendar resolver gives. *)
Lemma custom_ranges_are_resolved :
  getDateRangeForTimePeriod (Date.mk 2025 5 1 0) "custom"
    (Some (Date.mk 2025 0 31 0)) (Some (Date.mk 2025 2 15 0)) (Some 2025%Z)
  = Returned from_jan_31
  /\ getDateRangeForTimePeriod (Date.mk 2025 5 1 0) "custom"
       (Some (Date.mk 2025 0 28 0)) (Some (Date.mk 2025 2 15 0))
       (Some 2025%Z)
     = Returned from_jan_28.
Proof. split; reflexivity. Qed.

(** C1, as the code behaves: on the custom range from 31 January 2025
    08:00 to 15 March 2025 08:00, with documents of the mould in January
    and in March, the monthly series has the buckets Jan 2025 and
    Mar 2025 only; February, wholly inside the range, gets none.  The
    pre-population calls [setMonth] before [setDate(1)], so from the 31st
    it lands in March.  From the 28th the same documents give the three
    months. *)
Theorem february_gets_no_bucket :
  months_of
    (run (calculateMonthlyDefectRateData "M1" "TRAY-A" from_jan_31)
         (store [tray (VStr "2025-01-31T10:00") 100 2;
                 tray (VStr "2025-03-03T10:00") 50 1] []))
  = Some ["Jan 2025"; "Mar 2025"]
  /\ months_of
       (run (calculateMonthlyDefectRateData "M1" "TRAY-A" from_jan_28)
            (store [tray (VStr "2025-01-31T10:00") 100 2;
                    tray (VStr "2025-03-03T10:00") 50 1] []))
     = Some ["Jan 2025"; "Feb 2025"; "Mar 2025"].
Proof. split; vm_compute; reflexivity. Qed.

(** C10, as the code behaves: on two documents of the mould, one dated
    inside the range with 100 units and one without a timestamp with 50
    units, the KPI snapshot reports 150 units while the monthly series
    computed from the same documents sums to 100; and with a second
    document dated inside the range that carries -5 units, the snapshot
    reports 95 and the series still sums to 100. *)
Theorem kpi_total_is_not_the_chart_total :
  kpi_total
    (run (calculateKPIs "M1" "TRAY-A" q1_2025)
         (store [tray (VStr "2025-02-10T09:00") 100 2;
                 tray VUndefined 50 1] []))
  = Some 150%Q
  /\ chart_total
       (run (calculateMonthlyDefectRateData "M1" "TRAY-A" q1_2025)
            (store [tray (VStr "2025-02-10T09:00") 100 2;
                    tray VUndefined 50 1] []))
     = Some 100%Q
  /\ kpi_total
       (run (calculateKPIs "M1" "TRAY-A" q1_2025)
            (store [tray (VStr "2025-02-10T09:00") 100 2;
                    tray (VStr "2025-02-11T09:00") (-5) 0] []))
     = Some 95%Q
  /\ chart_total
       (run (calculateMonthlyDefectRateData "M1" "TRAY-A" q1_2025)
            (store [tray (VStr "2025-02-10T09:00") 100 2;
                    tray (VStr "2025-02-11T09:00") (-5) 0] []))
     = Some 100%Q.
Proof. repeat split; vm_compute; reflexivity. Qed.

(** C7, as the code behaves: a document whose mould field is the key
    followed by a space passes the mould filter of the KPI paths and the
    one of the post-event detector, which trim, and is turned away by the
    Production-vs-Target filter, which compares without trimming; so
    Production-vs-Target answers with its seven synthetic months where
    the document with the bare key gives its own month. *)
Theorem production_vs_target_filter_does_not_trim :
  mould_filter "TRAY-A"
    (doc (VStr "TRAY-A ") (VStr "2025-02-10T09:00") (VNum 100) (VNum 2))
  = true
  /\ post_mould_filter "TRAY-A"
       (doc (VStr "TRAY-A ") (VStr "2025-02-10T09:00") (VNum 100) (VNum 2))
     = true
  /\ pvt_filter "TRAY-A"
       (doc (VStr "TRAY-A ") (VStr "2025-02-10T09:00") (VNum 100) (VNum 2))
     = false
  /\ pvt_months
       (run (calculateProductionVsTargetData "M1" "TRAY-A" q1_2025)
            (store [doc (VStr "TRAY-A ") (VStr "2025-02-10T09:00")
                        (VNum 100) (VNum 2)] []))
     = Some ["Jan"; "Feb"; "Mar"; "Apr"; "May"; "Jun"; "Jul"]
  /\ pvt_months
       (run (calculateProductionVsTargetData "M1" "TRAY-A" q1_2025)
            (store [doc (VStr "TRAY-A") (VStr "2025-02-10T09:00")
                        (VNum 100) (VNum 2)] []))
     = Some ["Feb"].
Proof. repeat split; vm_compute; reflexivity. Qed.


(** C6, counterexample: a document with rejection count 5 and no reason,
    dated inside the range, is counted by the breakdown aggregation under
    [Unknown]; nothing is stored under [Unknown Reason]. *)
Lemma breakdown_sentinel_is_Unknown :
  rejection_count (tray (VStr "2025-02-10T09:00") 100 5) = Some 5%Q
  /\ breakdown_aggregate q1_2025 [tray (VStr "2025-02-10T09:00") 100 5]
     = ([("Unknown", 5%Q)], 5%Q)
  /\ map_get "Unknown Reason"
       (fst (breakdown_aggregate q1_2025
               [tray (VStr "2025-02-10T09:00") 100 5]))
     = None.
Proof. repeat split; reflexivity. Qed.

(** C3 at 1000 units, 20 rejections, 3 hours of downtime and an unknown
    cycle time. *)
Lemma mold_health_index_range_example :
  (0 <= calculateMoldHealthIndex 1000 20 3 0 <= 100)%Q.
Proof.
  apply (@HealthIndex.mold_health_index_range 1000 20 3 0);
    unfold Qle; simpl; lia.
Defined.

(** C4 on two production documents and no downtime. *)
Lemma no_downtime_no_candidates_example :
  postDowntimeDocs [tray (VStr "2025-02-10T09:00") 100 2;
                    tray (VStr "2025-02-11T09:00") 50 1] = []
  /\ calculatePostDowntimeDR
       [tray (VStr "2025-02-10T09:00") 100 2;
        tray (VStr "2025-02-11T09:00") 50 1] "TRAY-A" = 0%Q.
Proof.
  apply (proj1 (PostEvent.post_event_detector
                  [tray (VStr "2025-02-10T09:00") 100 2;
                   tray (VStr "2025-02-11T09:00") 50 1] "TRAY-A")).
  intros d [<-|[<-|[]]]; reflexivity.
Defined.

(** C6 on a document with rejection count 5 and no reason: it is listed
    under [Unknown Reason] with the count 5. *)
Lemma blank_reason_counts_in_full_example :
  (exists v,
     map_get "Unknown Reason"
       (fst (top_reason_aggregate
               [tray (VStr "2025-02-10T09:00") 100 5] "TRAY-A")) = Some v
     /\ (5 <= v)%Q)
  /\ map (fun e => (reason e, count e))
         (calculateTopRejectionReasons
            [tray (VStr "2025-02-10T09:00") 100 5] "TRAY-A")
     = [("Unknown Reason", 5%Q)].
Proof.
  split; [|reflexivity].
  assert (Hin : In (tray (VStr "2025-02-10T09:00") 100 5)
                   [tray (VStr "2025-02-10T09:00") 100 5])
    by (left; reflexivity).
  assert (Hmould : mould_filter "TRAY-A"
                     (tray (VStr "2025-02-10T09:00") 100 5) = true)
    by reflexivity.
  assert (Hcount : rejection_count (tray (VStr "2025-02-10T09:00") 100 5)
                   = Some 5%Q) by reflexivity.
  assert (Hblank : blank_reason (tray (VStr "2025-02-10T09:00") 100 5))
    by exact I.
  destruct (proj1
              (proj2 (proj2 (proj2
                 (@Rejections.rejection_aggregation _
                    [tray (VStr "2025-02-10T09:00") 100 5]
                    "TRAY-A" q1_2025)))
                 (tray (VStr "2025-02-10T09:00") 100 5) 5%Q
                 Hin Hmould Hcount Hblank))
    as (v & Hv & Hle & _).
  exists v. split; assumption.
Defined.

(** C2, as the code behaves.  With the store out of reach [calculateKPIs]
    returns a synthetic snapshot whose reasons carry their percentages as
    numbers, where the interface declares text and the snapshot computed
    from documents has text.  And on a range whose start is an Invalid
    Date, which the calendar resolver itself hands out for an unknown
    selector in the reference year 300000, the monthly and the breakdown
    operation throw a [RangeError] to their caller: their first log line
    prints the dates before the [try] is entered. *)
Theorem faults_are_not_fully_contained :
  structurally_valid
    (run (calculateKPIs "M1" "TRAY-A" q1_2025) unreachable)
  = Some false
  /\ structurally_valid
       (run (calculateKPIs "M1" "TRAY-A" q1_2025)
            (store [tray (VStr "2025-02-10T09:00") 100 2] []))
     = Some true
  /\ getDateRangeForTimePeriod clock "year-to-date" None None
                               (Some 300000%Z)
     = Returned from_an_invalid_date
  /\ run (calculateMonthlyDefectRateData "M1" "TRAY-A" from_an_invalid_date)
         unreachable
     = Thrown RangeError
  /\ run (calculateDefectReasonBreakdown "M1" "TRAY-A" from_an_invalid_date)
         unreachable
     = Thrown RangeError.
Proof. repeat split; vm_compute; reflexivity. Qed.

(** The four operations on Q1 of 2025 with the store out of reach. *)
Lemma operations_survive_an_unreachable_store :
  (exists result,
     run (calculateKPIs "M1" "TRAY-A" q1_2025) unreachable = Returned result
     /\ declared_snapshot result = false)
  /\ (exists rows,
        run (calculateMonthlyDefectRateData "M1" "TRAY-A" q1_2025) unreachable
        = Returned (MonthlySeries rows))
  /\ (exists rows,
        run (calculateDefectReasonBreakdown "M1" "TRAY-A" q1_2025) unreachable
        = Returned rows)
  /\ (exists rows,
        run (calculateProductionVsTargetData "M1" "TRAY-A" q1_2025) unreachable
        = Returned rows).
Proof.
  assert (Hs : Date.wf (startDate q1_2025))
    by (vm_compute; intuition discriminate).
  assert (He : Date.wf (endDate q1_2025))
    by (vm_compute; intuition discriminate).
  assert (Hv : valid_range q1_2025) by (split; reflexivity).
  apply (proj2 (@Monthly.kpi_operations_always_return _
                  "M1" "TRAY-A" q1_2025 Hs He Hv) unreachable).
  intro r. reflexivity.
Defined.

(** C8 on 14 August 2025: the third quarter of 2024. *)
Lemma fixed_quarters_ignore_the_clock_example :
  getDateRangeForTimePeriod clock "q3" None None (Some 2024%Z)
  = Returned (fixed_range 3 2024 6 8 30).
Proof.
  assert (Hnow : Date.representable clock = true) by reflexivity.
  assert (Hy : year_in_range 2024)
    by (vm_compute; intuition discriminate).
  exact (proj1 (proj2 (proj2
           (proj1 (proj2
              (@CalendarResolver.fixed_quarters_ignore_the_clock
                 clock None None 2024%Z Hnow)) Hy)))).
Defined.

(** C8, counterexample: with the reference year 300000 the selector
    [q1] gives no range; the log line that prints the quarter's dates
    throws. *)
Lemma q1_of_the_year_300000_throws :
  getDateRangeForTimePeriod clock "q1" None None (Some 300000%Z)
  = Thrown RangeError.
Proof. reflexivity. Qed.

(** The monthly operation returns on Q1 of 2025, whatever the store. *)
Lemma monthly_returns_on_q1_2025 :
  returns (calculateMonthlyDefectRateData "M1" "TRAY-A" q1_2025).
Proof.
  apply Monthly.calculateMonthlyDefectRateData_returns;
    [ vm_compute; intuition discriminate
    | vm_compute; intuition discriminate
    | split; reflexivity ].
Defined.

(** The buckets of two documents over Q1 of 2025. *)
Lemma buckets_of_q1_2025_example :
  exists monthlyDataMap totalUnitsAggregated,
    monthly_aggregate q1_2025
      [tray (VStr "2025-02-10T09:00") 100 2;
       tray (VStr "2025-01-11T09:00") 50 1]
    = Some (monthlyDataMap, totalUnitsAggregated)
    /\ NoDup (map fst monthlyDataMap)
    /\ Sorted key_le (Js.sort key_after monthlyDataMap).
Proof.
  destruct (monthly_aggregate q1_2025
              [tray (VStr "2025-02-10T09:00") 100 2;
               tray (VStr "2025-01-11T09:00") 50 1])
    as [[monthlyDataMap totalUnitsAggregated]|] eqn:E.
  - exists monthlyDataMap, totalUnitsAggregated.
    split; [reflexivity|].
    pose proof (Monthly.monthly_buckets_distinct_and_ordered _ _ E) as H.
    exact (conj (proj1 H) (proj1 (proj2 H))).
  - vm_compute in E. discriminate.
Defined.

(** The monthly operation asked for a mould the store has no document
    of. *)
Lemma monthly_without_matching_documents_example :
  run (calculateMonthlyDefectRateData "M1" "LID" q1_2025)
      (store [tray (VStr "2025-02-10T09:00") 100 2] [])
  = Returned (ReasonSeries (generateTestDefectReasonData "LID" 72)).
Proof.
  apply (@Monthly.monthly_without_matching_documents _
           (store [tray (VStr "2025-02-10T09:00") 100 2] [])
           "M1" "LID" q1_2025
           [tray (VStr "2025-02-10T09:00") 100 2]);
    first [reflexivity | split; reflexivity].
Defined.


(** The second quarter of 2025 needs no adjustment of its start. *)
Lemma quarter_starts_need_no_adjustment_example :
  exists r,
    getDateRangeForTimePeriod clock "q2" None None (Some 2025%Z) = Returned r
    /\ adjustStartDateToCycleTime (startDate r) = startDate r.
Proof.
  destruct (getDateRangeForTimePeriod clock "q2" None None (Some 2025%Z))
    as [r| |] eqn:E.
  - exists r. split; [reflexivity|].
    assert (Hne : "q2" <> "custom") by discriminate.
    exact (proj1 (@Resolver.quarter_starts_need_no_adjustment
                    clock "q2" None None (Some 2025%Z) r Hne E)).
  - vm_compute in E. discriminate.
  - vm_compute in E. discriminate.
Defined.

(** The current quarter on 14 August 2025 is cut at that day, after its
    start. *)
Lemma quarter_ranges_are_ordered_example :
  exists r,
    getDateRangeForTimePeriod clock "current-quarter" None None (Some 2025%Z)
    = Returned r
    /\ Date.leb (startDate r) (endDate r) = true.
Proof.
  destruct (getDateRangeForTimePeriod clock "current-quarter" None None
                                      (Some 2025%Z)) as [r| |] eqn:E.
  - exists r. split; [reflexivity|].
    assert (Hwf : Date.wf clock) by (vm_compute; intuition discriminate).
    assert (Hy : (100 <= Date.year clock)%Z) by (vm_compute; discriminate).
    assert (Hin : In "current-quarter" quarter_selectors)
      by (left; reflexivity).
    exact (@Resolver.quarter_ranges_are_ordered
             clock "current-quarter" None None (Some 2025%Z) r
             Hwf Hy Hin E).
  - vm_compute in E. discriminate.
  - vm_compute in E. discriminate.
Defined.


(** The start of 2025 as the queries carry it. *)
Lemma formatDateForMongoDB_at_8AM_example :
  formatDateForMongoDB (Date.mk 2025 0 1 Date.eight_am)
  = "2025-01-01 13:30:00".
Proof.
  rewrite Windows.formatDateForMongoDB_at_8AM.
  - reflexivity.
  - vm_compute. intuition discriminate.
  - reflexivity.
Defined.


(** From 28 January, February has its bucket. *)
Lemma february_is_covered_from_jan_28 :
  exists monthlyDataMap totalUnitsAggregated,
    monthly_aggregate from_jan_28
      [tray (VStr "2025-01-31T10:00") 100 0;
       tray (VStr "2025-03-03T10:00") 50 0]
    = Some (monthlyDataMap, totalUnitsAggregated)
    /\ In "2025-02" (map fst monthlyDataMap).
Proof.
  destruct (monthly_aggregate from_jan_28
              [tray (VStr "2025-01-31T10:00") 100 0;
               tray (VStr "2025-03-03T10:00") 50 0])
    as [[monthlyDataMap totalUnitsAggregated]|] eqn:E.
  - exists monthlyDataMap, totalUnitsAggregated.
    split; [reflexivity|].
    assert (Hs : Date.wf (startDate from_jan_28))
      by (vm_compute; intuition discriminate).
    assert (He : Date.wf (endDate from_jan_28))
      by (vm_compute; intuition discriminate).
    assert (H28 : (Date.day (startDate from_jan_28) <= 28)%Z)
      by (vm_compute; discriminate).
    assert (Hms : (Date.msec (startDate from_jan_28)
                   <= Date.msec (endDate from_jan_28))%Z)
      by (vm_compute; discriminate).
    assert (Hleb : Date.leb (startDate from_jan_28) (endDate from_jan_28)
                   = true) by reflexivity.
    assert (Hd : (0 <= Date.month (Date.mk 2025 1 1 0) <= 11)%Z)
      by (vm_compute; intuition discriminate).
    assert (Hi : (month_index (startDate from_jan_28)
                  <= month_index (Date.mk 2025 1 1 0)
                  <= month_index (endDate from_jan_28))%Z)
      by (vm_compute; intuition discriminate).
    exact (@Coverage.early_start_covers_every_month
             _ _ _ _ _ Hs He H28 Hms Hleb E (Date.mk 2025 1 1 0) Hd Hi).
  - vm_compute in E. discriminate.
Defined.

End Examples.
